(** * fit_file_uploader: [garmin.py]

    A shallow embedding of the record mutator ([edit_fit]), the metadata
    extractor ([get_date_from_fit]), the naming-service lookup
    ([get_name_from_intervals]), the uploader ([upload]) and the
    directory-scan pipeline ([upload_all]) of [garmin.py], with the
    properties of the specification stated and settled against them.

    Conventions of the embedding.
    - A Python [str] is a [string] (8-bit characters; case folding is the
      ASCII one).
    - An integer attribute of a FIT message is an [option Z]: the accessors
      of the FIT library return [None] for a field that holds no valid
      value. The records are those whose definition has the fields that
      [edit_fit] assigns: on a decoded record that lacks such a field the
      setter of the library raises, a path that is outside the embedding;
      what is stated of the output of the mutator is stated of the runs
      that return.
    - The content of a file is the list of the messages handed to its
      builder; the records that the builder of the library makes of them,
      with the definition records it adds, are [built_records].
    - A [datetime] is the number of microseconds since the epoch, in UTC.
    - A statement that may raise returns an [outcome]; the functions with
      side effects thread a [world] and keep it when they raise, as the
      side effects done before a Python exception are kept.
    - The FIT codec, the remote services and the environment are consumed
      at their boundary: they are fields of an [env] record.
    - Logging writes to the log stream only and is left out. *)

From Stdlib Require Import ZArith List Bool Ascii String Lia Sorted.
Import ListNotations.
Open Scope string_scope.
Open Scope Z_scope.

(** ** Outcomes of statements that may raise *)

Inductive exn : Type :=
| MalformedFileError          (* FitFile.from_file raised: no file, or one that does not decode *)
| TypeError                   (* None / 1000.0 *)
| AttributeError              (* None.strftime *)
| FileNotFoundError           (* fn.open('rb') on a missing file *)
| AuthenticationError         (* garth.login failed *)
| GarthHTTPError (status : Z) (* garth.client.upload answered with an HTTP error *).

Inductive outcome (A : Type) : Type :=
| Ok (a : A)
| Raise (e : exn).
Arguments Ok {A} a.
Arguments Raise {A} e.

Definition obind {A B} (o : outcome A) (k : A -> outcome B) : outcome B :=
  match o with
  | Ok a => k a
  | Raise e => Raise e
  end.

(** ** Python [str] operations used by the program *)

Module Str.

Definition is_empty (s : string) : bool :=
  match s with EmptyString => true | String _ _ => false end.

(** [chars] as a set of characters, for [strip]. *)
Fixpoint mem (c : ascii) (chars : string) : bool :=
  match chars with
  | EmptyString => false
  | String d chars' => Ascii.eqb c d || mem c chars'
  end.

Fixpoint lstrip (chars s : string) : string :=
  match s with
  | EmptyString => EmptyString
  | String c s' => if mem c chars then lstrip chars s' else s
  end.

Fixpoint rstrip (chars s : string) : string :=
  match s with
  | EmptyString => EmptyString
  | String c s' =>
      match rstrip chars s' with
      | EmptyString => if mem c chars then EmptyString else String c EmptyString
      | r => String c r
      end
  end.

(** [s.strip(chars)] *)
Definition strip (chars s : string) : string := rstrip chars (lstrip chars s).

(** [s.startswith(p)] *)
Fixpoint startswith (s p : string) {struct p} : bool :=
  match p, s with
  | EmptyString, _ => true
  | String _ _, EmptyString => false
  | String a p', String b s' => Ascii.eqb a b && startswith s' p'
  end.

(** [s.endswith(suf)]: some suffix of [s] is [suf]. *)
Fixpoint endswith (s suf : string) : bool :=
  String.eqb s suf ||
  match s with
  | EmptyString => false
  | String _ s' => endswith s' suf
  end.

(** [sub in s]: [sub] occurs in [s]. *)
Fixpoint contains (s sub : string) : bool :=
  startswith s sub ||
  match s with
  | EmptyString => false
  | String _ s' => contains s' sub
  end.

(** [s.replace(old, new)] for a non-empty [old]: the occurrences of [old]
    are found from left to right and do not overlap; [skip] counts the
    characters of the occurrence being replaced that are still to drop. *)
Fixpoint replace_from (old new : string) (skip : nat) (s : string) : string :=
  match s with
  | EmptyString => EmptyString
  | String c s' =>
      match skip with
      | S k => replace_from old new k s'
      | O =>
          if startswith s old
          then new ++ replace_from old new (pred (String.length old)) s'
          else String c (replace_from old new O s')
      end
  end.

(** [s.replace("", new)] puts [new] before every character and at the end. *)
Fixpoint intersperse (new s : string) : string :=
  match s with
  | EmptyString => new
  | String c s' => new ++ String c (intersperse new s')
  end.

Definition replace (s old new : string) : string :=
  if is_empty old then intersperse new s else replace_from old new O s.

Definition lower_ascii (c : ascii) : ascii :=
  let n := nat_of_ascii c in
  if (Nat.leb 65 n && Nat.leb n 90)%bool then ascii_of_nat (n + 32) else c.

Fixpoint lower (s : string) : string :=
  match s with
  | EmptyString => EmptyString
  | String c s' => String (lower_ascii c) (lower s')
  end.

(** [x in l] for a list of strings. *)
Fixpoint in_list (x : string) (l : list string) : bool :=
  match l with
  | [] => false
  | y :: l' => String.eqb x y || in_list x l'
  end.

(** Splitting at every ["/"]; [cur] is the component being read. *)
Fixpoint split_slash (cur s : string) : list string :=
  match s with
  | EmptyString => [cur]
  | String c s' =>
      if Ascii.eqb c "/" then cur :: split_slash EmptyString s'
      else split_slash (cur ++ String c EmptyString) s'
  end.

Fixpoint join_slash (l : list string) : string :=
  match l with
  | [] => EmptyString
  | [x] => x
  | x :: l' => x ++ "/" ++ join_slash l'
  end.

End Str.

(** ** [pathlib] paths (POSIX flavour) *)

Module Path.

(** A path is its root ([""], ["/"] or ["//"]) and its components. *)
Record t : Type := mk { root : string; parts : list string }.

(** [str(p)] *)
Definition str (p : t) : string :=
  match parts p with
  | [] => if Str.is_empty (root p) then "." else root p
  | _ => root p ++ Str.join_slash (parts p)
  end.

Definition root_of (s : string) : string :=
  match s with
  | String "/" (String "/" (String "/" _)) => "/"
  | String "/" (String "/" _) => "//"
  | String "/" _ => "/"
  | _ => ""
  end.

Definition keep_part (x : string) : bool :=
  negb (Str.is_empty x) && negb (String.eqb x ".").

(** [Path(s)] *)
Definition of_string (s : string) : t :=
  mk (root_of s) (filter keep_part (Str.split_slash "" s)).

(** [p / q] for two paths: an absolute [q] wins. *)
Definition join (p q : t) : t :=
  if Str.is_empty (root q) then mk (root p) (parts p ++ parts q) else q.

(** [p.joinpath(s)], [p / s] *)
Definition joinpath (p : t) (s : string) : t := join p (of_string s).

(** [p.parent] *)
Definition parent (p : t) : t := mk (root p) (removelast (parts p)).

(** [p.name] *)
Definition name (p : t) : string := last (parts p) "".

(** Index of the last ["."] of [s], counted from [i]. *)
Fixpoint rfind_dot (i : nat) (s : string) : option nat :=
  match s with
  | EmptyString => None
  | String c s' =>
      match rfind_dot (S i) s' with
      | Some j => Some j
      | None => if Ascii.eqb c "." then Some i else None
      end
  end.

(** [p.stem]: the name without its last suffix; a dot that starts or ends
    the name starts no suffix. *)
Definition stem (p : t) : string :=
  let n := name p in
  match rfind_dot O n with
  | Some i =>
      if (Nat.ltb 0 i && Nat.ltb i (pred (String.length n)))%bool
      then String.substring 0 i n else n
  | None => n
  end.

End Path.


(** ** The FIT profile constants

    [fit_tool.profile] is not part of the repository: the program only
    names its constants, so they are taken as parameters. *)

Class Profile : Type := {
  Manufacturer_DEVELOPMENT : Z;
  Manufacturer_GARMIN : Z;
  Manufacturer_WAHOO_FITNESS : Z;
  GarminProduct_EDGE_830 : Z;
  Sport_CYCLING : Z;
  FileIdMessage_ID : Z;
  DeviceInfoMessage_ID : Z;
  WorkoutMessage_ID : Z
}.

(** The values of the public FIT profile, to evaluate the program on
    concrete files. *)
Definition fit_profile : Profile := {|
  Manufacturer_DEVELOPMENT := 255;
  Manufacturer_GARMIN := 1;
  Manufacturer_WAHOO_FITNESS := 32;
  GarminProduct_EDGE_830 := 3122;
  Sport_CYCLING := 2;
  FileIdMessage_ID := 0;
  DeviceInfoMessage_ID := 23;
  WorkoutMessage_ID := 26
|}.

(** ** Messages *)

(** Microseconds since the epoch, UTC. *)
Definition datetime : Type := Z.

(** The fields of an identity record. [garmin_product], which the library
    reads off the [product] field under a Garmin manufacturer, is neither
    read nor assigned by the mutator and is not a field of its own. *)
Module FileIdMessage.
Record t : Type := mk {
  manufacturer : option Z;
  product : option Z;
  time_created : option Z;        (* milliseconds since the epoch *)
  other_fields : list (option Z)  (* type, serial_number, number, ... *)
}.
Definition set_product (v : Z) (m : t) : t :=
  mk (manufacturer m) (Some v) (time_created m) (other_fields m).
Definition set_manufacturer (v : Z) (m : t) : t :=
  mk (Some v) (product m) (time_created m) (other_fields m).
End FileIdMessage.

(** The fields of a device info record, as its accessors read them; the
    three assignments of lines 225-227 leave [garmin_product] and
    [product] reading the same code. *)
Module DeviceInfoMessage.
Record t : Type := mk {
  manufacturer : option Z;
  product : option Z;
  garmin_product : option Z;
  other_fields : list (option Z)  (* timestamp, device_index, serial_number, ... *)
}.
Definition set_garmin_product (v : Z) (m : t) : t :=
  mk (manufacturer m) (product m) (Some v) (other_fields m).
Definition set_product (v : Z) (m : t) : t :=
  mk (manufacturer m) (Some v) (garmin_product m) (other_fields m).
Definition set_manufacturer (v : Z) (m : t) : t :=
  mk (Some v) (product m) (garmin_product m) (other_fields m).
End DeviceInfoMessage.

Module WorkoutMessage.
Record t : Type := mk {
  workout_name : option string;
  sport : option Z
}.
(** [WorkoutMessage()] *)
Definition new : t := mk None None.
Definition set_workout_name (v : string) (m : t) : t := mk (Some v) (sport m).
Definition set_sport (v : Z) (m : t) : t := mk (workout_name m) (Some v).
End WorkoutMessage.

(** [record.message]: an instance of one of the three classes the program
    names, or any other message (a definition message, which carries the
    global id of the message it defines, or a data message of another
    kind) with its global id and its content. *)
Inductive message : Type :=
| FileId (m : FileIdMessage.t)
| DeviceInfo (m : DeviceInfoMessage.t)
| Workout (m : WorkoutMessage.t)
| OtherMessage (gid : Z) (content : list Z).

(** [datetime.fromtimestamp(ms/1000.0, timezone.utc)]: on the millisecond
    counts a FIT file can hold, the division and the rounding to
    microseconds are exact. [None/1000.0] raises. *)
Definition fromtimestamp_ms (ms : option Z) : outcome datetime :=
  match ms with
  | Some t => Ok (t * 1000)
  | None => Raise TypeError
  end.

Definition opt_eqb (a : option Z) (v : Z) : bool :=
  match a with
  | Some x => x =? v
  | None => false
  end.

Section Mutator.
Context {P : Profile}.

(** [message.global_id] *)
Definition global_id (m : message) : Z :=
  match m with
  | FileId _ => FileIdMessage_ID
  | DeviceInfo _ => DeviceInfoMessage_ID
  | Workout _ => WorkoutMessage_ID
  | OtherMessage gid _ => gid
  end.

(** The first [if] of the loop body of [edit_fit] (lines 208-217). *)
Definition edit_file_id (msg : message) : outcome message :=
  if global_id msg =? FileIdMessage_ID then
    match msg with
    | FileId m =>
        obind (fromtimestamp_ms (FileIdMessage.time_created m)) (fun dt =>
        if opt_eqb (FileIdMessage.manufacturer m) Manufacturer_DEVELOPMENT then
          Ok (FileId (FileIdMessage.set_manufacturer Manufacturer_GARMIN
                       (FileIdMessage.set_product GarminProduct_EDGE_830 m)))
        else Ok msg)
    | _ => Ok msg
    end
  else Ok msg.

(** The second [if] of the loop body (lines 220-228). *)
Definition edit_device_info (msg : message) : message :=
  if global_id msg =? DeviceInfoMessage_ID then
    match msg with
    | DeviceInfo m =>
        if opt_eqb (DeviceInfoMessage.manufacturer m) Manufacturer_DEVELOPMENT
           || opt_eqb (DeviceInfoMessage.manufacturer m) 0
           || opt_eqb (DeviceInfoMessage.manufacturer m) Manufacturer_WAHOO_FITNESS
        then
          DeviceInfo (DeviceInfoMessage.set_manufacturer Manufacturer_GARMIN
                       (DeviceInfoMessage.set_product GarminProduct_EDGE_830
                         (DeviceInfoMessage.set_garmin_product GarminProduct_EDGE_830 m)))
        else msg
    | _ => msg
    end
  else msg.

(** One iteration of the loop: the message handed to [builder.add]. *)
Definition edit_message (msg : message) : outcome message :=
  obind (edit_file_id msg) (fun msg => Ok (edit_device_info msg)).

(** The loop over [fit_file.records]; [builder] is the list of the
    messages added so far. *)
Fixpoint edit_records (records : list message) (builder : list message)
  : outcome (list message) :=
  match records with
  | [] => Ok builder
  | msg :: records' =>
      obind (edit_message msg) (fun msg' =>
      edit_records records' (builder ++ [msg'])%list)
  end.

(** The annotation appended when [name] is not empty (lines 232-236). *)
Definition workout_message (name : string) : message :=
  Workout (WorkoutMessage.set_sport Sport_CYCLING
            (WorkoutMessage.set_workout_name name WorkoutMessage.new)).

(** The messages handed to the builder of [modified_file] (lines 201-236),
    in the order of the calls of [builder.add]: the content of the built
    file. Its records are [built_records] of them. *)
Definition modified_file (records : list message) (name : string)
  : outcome (list message) :=
  obind (edit_records records []) (fun builder =>
  if Str.is_empty name then Ok builder else Ok (builder ++ [workout_message name])%list).

(** [get_date_from_fit] on the decoded records (lines 140-147). *)
Fixpoint first_file_id_date (records : list message) : outcome (option datetime) :=
  match records with
  | [] => Ok None
  | msg :: records' =>
      if global_id msg =? FileIdMessage_ID then
        match msg with
        | FileId m =>
            obind (fromtimestamp_ms (FileIdMessage.time_created m)) (fun dt => Ok (Some dt))
        | _ => first_file_id_date records'
        end
      else first_file_id_date records'
  end.

End Mutator.

(** ** The builder of the FIT library

    [FitFileBuilder(auto_define=True)] (line 201) is not part of the
    repository. With [auto_define], [builder.add] appends the message and
    puts a definition record before it when the message needs one. Which
    messages need one is the matter of the library: it is a parameter. *)

Class AutoDefine : Type := {
  (** The definition record put before [msg] when the messages [added]
      were added before it; [None]: none is put. *)
  auto_definition : list message -> message -> option message
}.

Section Builder.
Context {B : AutoDefine}.

(** [builder.add(msg)] (line 230, line 236): the records appended. *)
Definition builder_add (added : list message) (msg : message) : list message :=
  match auto_definition added msg with
  | Some definition => [definition; msg]
  | None => [msg]
  end.

(** The records appended for [msgs], added in that order after [added]. *)
Fixpoint builder_add_all (added msgs : list message) : list message :=
  match msgs with
  | [] => []
  | msg :: msgs' =>
      (builder_add added msg ++ builder_add_all (added ++ [msg]) msgs')%list
  end.

(** [builder.build().records] (line 238) after [msgs] were added. *)
Definition built_records (msgs : list message) : list message :=
  builder_add_all [] msgs.

End Builder.

(** A builder to evaluate the program on concrete files: a message of one
    of the three classes gets a definition record when no record with its
    global id was added before it; the other records of a decoded file come
    after their definition and get none. *)
Definition fit_builder : AutoDefine := {|
  auto_definition := fun added msg =>
    match msg with
    | OtherMessage _ _ => None
    | _ =>
        if existsb (fun m => match m with
                             | OtherMessage gid _ => gid =? @global_id fit_profile msg
                             | _ => false
                             end) added
        then None
        else Some (OtherMessage (@global_id fit_profile msg) [])
    end
|}.

(** ** The environment and the world *)

(** An activity of the naming service, with [start_date] parsed. *)
Record intervals_activity : Type := {
  oauth_client_name : string;
  start_date : datetime;
  activity_name : string
}.

(** An activity of the remote service, with [startTimeLocal] parsed and
    converted to UTC. *)
Record garmin_activity : Type := {
  startTimeLocal : datetime;
  activityId : Z
}.

(** The answer of [garth.client.upload]. *)
Inductive upload_response : Type :=
| Uploaded (upload_result : Z)
| HTTPError (status_code : Z).

(** What the program does to the outside, in the order it does it. *)
Inductive event : Type :=
| LedgerWrite (uploaded_files : list string)        (* json.dump to the ledger file *)
| ToFile (path : string) (content : list message)   (* modified_file.to_file *)
| GarthLogin (email password : string)              (* garth.login *)
| GarthUpload (content : list message)              (* garth.client.upload *)
| IntervalsActivitiesList (dt : datetime)           (* svc.activities_list *)
| GarminLogin                                       (* Garmin().login *)
| GarminGetActivitiesByDate (dt : datetime)         (* garmin.get_activities_by_date *)
| GarminSetActivityName (activity_id : Z) (name : string).

(** What the program reads and does not change. *)
Record env : Type := {
  dir : Path.t;                                  (* the scanned directory *)
  entries : list string;                         (* its entries, as the system lists them *)
  from_file : string -> option (list message);   (* FitFile.from_file; None: it raises (no file, or no FIT file) *)
  INTERVALS_ATHLETEID : option string;
  INTERVALS_APIKEY : option string;
  GARMIN_USERNAME : option string;
  GARMIN_PASSWORD : option string;
  console_email : string;                        (* typed at the first prompt *)
  console_password : string;                     (* typed at the second prompt *)
  garth_login : string -> string -> bool;        (* false: it raises *)
  garth_client_upload : list message -> upload_response;
  activities_list : datetime -> list intervals_activity;   (* for the day of dt *)
  get_activities_by_date : datetime -> list garmin_activity;
  tmp_name : nat -> Path.t                       (* Path(fp.name) of the n-th temporary file *)
}.

(** What the program changes. *)
Record world : Type := {
  ledger_file : option (list string);        (* dir/.uploaded_files.json; None: absent *)
  files : list (string * list message);      (* temporary and written files *)
  garth_session : bool;                      (* a session is stored in ".garth" *)
  tmp_count : nat;                           (* temporary files made so far *)
  trace : list event
}.

Definition set_ledger_file (l : option (list string)) (w : world) : world :=
  {| ledger_file := l; files := files w; garth_session := garth_session w;
     tmp_count := tmp_count w; trace := trace w |}.
Definition set_files (fs : list (string * list message)) (w : world) : world :=
  {| ledger_file := ledger_file w; files := fs; garth_session := garth_session w;
     tmp_count := tmp_count w; trace := trace w |}.
Definition set_garth_session (b : bool) (w : world) : world :=
  {| ledger_file := ledger_file w; files := files w; garth_session := b;
     tmp_count := tmp_count w; trace := trace w |}.
Definition set_tmp_count (n : nat) (w : world) : world :=
  {| ledger_file := ledger_file w; files := files w; garth_session := garth_session w;
     tmp_count := n; trace := trace w |}.
Definition set_trace (t : list event) (w : world) : world :=
  {| ledger_file := ledger_file w; files := files w; garth_session := garth_session w;
     tmp_count := tmp_count w; trace := t |}.

Fixpoint file_lookup (path : string) (fs : list (string * list message))
  : option (list message) :=
  match fs with
  | [] => None
  | (p, c) :: fs' => if String.eqb path p then Some c else file_lookup path fs'
  end.

Definition file_delete (path : string) (fs : list (string * list message))
  : list (string * list message) :=
  filter (fun pc => negb (String.eqb path (fst pc))) fs.

(** ** Statements: a state and exception monad *)

Definition M (A : Type) : Type := world -> outcome A * world.

Definition ret {A} (a : A) : M A := fun w => (Ok a, w).
Definition raise {A} (e : exn) : M A := fun w => (Raise e, w).
Definition bind {A B} (c : M A) (k : A -> M B) : M B := fun w =>
  match c w with
  | (Ok a, w') => k a w'
  | (Raise e, w') => (Raise e, w')
  end.
Definition lift {A} (o : outcome A) : M A := fun w => (o, w).

Declare Scope stmt_scope.
Delimit Scope stmt_scope with stmt.
Notation "x <- c ;; k" := (bind c (fun x => k))
  (at level 61, c at next level, right associativity) : stmt_scope.
Notation "c ;; k" := (bind c (fun _ => k))
  (at level 61, right associativity) : stmt_scope.
Open Scope stmt_scope.

Definition emit (e : event) : M unit := fun w =>
  (Ok tt, set_trace (trace w ++ [e])%list w).

(** ** The program *)

Definition FILES_UPLOADED_NAME : string := ".uploaded_files.json".

Section Program.
Context {P : Profile}.
Variable E : env.

(** [FitFile.from_file(str(fit_path))]. The library raises one error for a
    file that is missing and another for a file that does not decode; the
    program handles neither, and [MalformedFileError] stands for both. *)
Definition FitFile_from_file (fit_path : Path.t) : M (list message) :=
  match from_file E (Path.str fit_path) with
  | Some records => ret records
  | None => raise MalformedFileError
  end.

(** [get_date_from_fit] (lines 138-147) *)
Definition get_date_from_fit (fit_path : Path.t) : M (option datetime) :=
  records <- FitFile_from_file fit_path ;;
  lift (first_file_id_date records).

(** The loop of [get_name_from_intervals] (lines 160-166):
    [abs(delta.total_seconds()) <= 15]. *)
Fixpoint search_intervals (activities : list intervals_activity) (dt : datetime)
  : string :=
  match activities with
  | [] => ""
  | activity :: activities' =>
      if String.eqb (oauth_client_name activity) "Training Peaks Virtual"
         && (Z.abs (start_date activity - dt) <=? 15 * 1000000)
      then activity_name activity
      else search_intervals activities' dt
  end.

(** [get_name_from_intervals] (lines 149-168); [dt.strftime] raises on
    [None]. *)
Definition get_name_from_intervals (dt : option datetime) : M string :=
  match INTERVALS_ATHLETEID E, INTERVALS_APIKEY E with
  | Some intervals_athleteid, Some intervals_apikey =>
      match dt with
      | None => raise AttributeError
      | Some dt =>
          emit (IntervalsActivitiesList dt) ;;
          ret (search_intervals (activities_list E dt) dt)
      end
  | _, _ => ret ""
  end.

(** [modify_name] (lines 190-194) *)
Definition modify_name (activity_id : Z) (name : string) : M unit :=
  emit GarminLogin ;;
  emit (GarminSetActivityName activity_id name).

(** The loop of [find_and_set_garmin_activity_name] (lines 179-188):
    [abs(delta.total_seconds()) < 10]. *)
Fixpoint rename_matching (activities : list garmin_activity) (dt : datetime)
  (name : string) : M unit :=
  match activities with
  | [] => ret tt
  | activity :: activities' =>
      (if Z.abs (startTimeLocal activity - dt) <? 10 * 1000000
       then modify_name (activityId activity) name
       else ret tt) ;;
      rename_matching activities' dt name
  end.

(** [find_and_set_garmin_activity_name] (lines 170-188) *)
Definition find_and_set_garmin_activity_name (dt : datetime) (name : string)
  : M unit :=
  emit GarminLogin ;;
  emit (GarminGetActivitiesByDate dt) ;;
  rename_matching (get_activities_by_date E dt) dt name.

(** [modified_file.to_file(str(output))] *)
Definition to_file (content : list message) (output : Path.t) : M unit :=
  fun w =>
    (Ok tt,
     set_trace (trace w ++ [ToFile (Path.str output) content])%list
       (set_files ((Path.str output, content) :: files w) w)).

(** The path used when no [output] is given (line 199). *)
Definition default_output (fit_path : Path.t) : Path.t :=
  Path.joinpath (Path.parent fit_path) (Path.stem fit_path ++ "_modified.fit").

(** [edit_fit] (lines 196-242) *)
Definition edit_fit (fit_path : Path.t) (output : option Path.t)
  (dryrun : bool) (name : string) : M Path.t :=
  records <- FitFile_from_file fit_path ;;
  let output :=
    match output with
    | Some output => output
    | None => default_output fit_path
    end in
  modified <- lift (modified_file records name) ;;
  (if negb dryrun then to_file modified output else ret tt) ;;
  ret output.

(** The first part of [upload] (lines 249-267): resume the stored session
    or log in and store it. *)
Definition garth_authenticate : M unit := fun w =>
  if garth_session w then (Ok tt, w)
  else
    let email :=
      match GARMIN_USERNAME E with
      | Some email => if Str.is_empty email then console_email E else email
      | None => console_email E
      end in
    let password :=
      match GARMIN_PASSWORD E with
      | Some password => if Str.is_empty password then console_password E else password
      | None => console_password E
      end in
    (emit (GarthLogin email password) ;;
     if garth_login E email password
     then (fun w => (Ok tt, set_garth_session true w))
     else raise AuthenticationError) w.

(** [fn.open('rb')] *)
Definition open_rb (fn : Path.t) : M (list message) := fun w =>
  match file_lookup (Path.str fn) (files w) with
  | Some content => (Ok content, w)
  | None => (Raise FileNotFoundError, w)
  end.

(** [upload] (lines 244-283); [original_path] is only logged. *)
Definition upload (fn : Path.t) (original_path : option Path.t)
  (dryrun : bool) (dt : option datetime) (name : string) : M (option Z) :=
  garth_authenticate ;;
  f <- open_rb fn ;;
  if negb dryrun then
    emit (GarthUpload f) ;;
    match garth_client_upload E f with
    | Uploaded upload_result =>
        match dt with
        | Some dt =>
            if negb (Str.is_empty name)
            then find_and_set_garmin_activity_name dt name
            else ret tt
        | None => ret tt
        end ;;
        ret (Some upload_result)
    | HTTPError status_code =>
        if status_code =? 409 then ret None
        else raise (GarthHTTPError status_code)
    end
  else ret None.

(** Lines 286-295: load the ledger, or start an empty one and write it. *)
Definition load_uploaded_files : M (list string) := fun w =>
  match ledger_file w with
  | Some uploaded_files => (Ok uploaded_files, w)
  | None =>
      (Ok [], set_trace (trace w ++ [LedgerWrite []])%list
                (set_ledger_file (Some []) w))
  end.

(** [dir.glob('*.fit', case_sensitive=False)] (line 300): the children of
    [dir] whose name matches, in the order of the listing. *)
Definition glob_fit : list Path.t :=
  map (fun name => Path.mk (Path.root (dir E)) (Path.parts (dir E) ++ [name]))
      (filter (fun name => Str.endswith (Str.lower name) ".fit") (entries E)).

(** Line 302 *)
Definition strip_dir (i : string) : string :=
  Str.strip "\" (Str.strip "/" (Str.replace i (Path.str (dir E)) "")).

(** Lines 300-306: the candidate list. *)
Definition candidates (uploaded_files : list string) : list string :=
  let files := map Path.str glob_fit in
  let files := map strip_dir files in
  let files := filter (fun i => negb (Str.endswith i "_modified.fit")) files in
  filter (fun i => negb (Str.in_list i uploaded_files)) files.

(** [with NamedTemporaryFile(delete=True, delete_on_close=False) as fp]:
    the file is made empty and removed when the block is left, also by an
    exception. *)
Definition with_NamedTemporaryFile {A} (body : Path.t -> M A) : M A := fun w =>
  let fp := tmp_name E (tmp_count w) in
  let w1 := set_tmp_count (S (tmp_count w))
              (set_files ((Path.str fp, []) :: files w) w) in
  let (r, w2) := body fp w1 in
  (r, set_files (file_delete (Path.str fp) (files w2)) w2).

(** The body of the [with] block (lines 320-326). *)
Definition process_file (dryrun : bool) (f : string) (fp : Path.t) : M unit :=
  let p := Path.joinpath (dir E) f in
  dt <- get_date_from_fit p ;;
  name <- get_name_from_intervals dt ;;
  output <- edit_fit p (Some fp) dryrun name ;;
  res <- upload output (Some (Path.of_string f)) dryrun dt name ;;
  ret tt.

(** The loop over the candidates (lines 314-329). *)
Fixpoint upload_files (preinitialise dryrun : bool) (files : list string)
  (uploaded_files : list string) : M (list string) :=
  match files with
  | [] => ret uploaded_files
  | f :: files' =>
      (if negb preinitialise
       then with_NamedTemporaryFile (process_file dryrun f)
       else ret tt) ;;
      upload_files preinitialise dryrun files' (uploaded_files ++ [f])%list
  end.

(** Lines 331-333 *)
Definition flush_uploaded_files (uploaded_files : list string) : M unit :=
  fun w =>
    (Ok tt, set_trace (trace w ++ [LedgerWrite uploaded_files])%list
              (set_ledger_file (Some uploaded_files) w)).

(** [upload_all] (lines 285-333) *)
Definition upload_all (preinitialise dryrun : bool) : M unit :=
  uploaded_files <- load_uploaded_files ;;
  let files := candidates uploaded_files in
  match files with
  | [] => ret tt
  | _ =>
      uploaded_files <- upload_files preinitialise dryrun files uploaded_files ;;
      if negb dryrun then flush_uploaded_files uploaded_files else ret tt
  end.

End Program.

(** ** Predicates and concrete inputs used by the statements *)

(** An identity record carries its creation time (the data model of the
    specification); other messages have none to carry. *)
Definition has_time_created (msg : message) : bool :=
  match msg with
  | FileId m =>
      match FileIdMessage.time_created m with Some _ => true | None => false end
  | _ => true
  end.

(** The path [edit_fit] returns. *)
Definition output_path (fit_path : Path.t) (output : option Path.t) : Path.t :=
  match output with
  | Some output => output
  | None => default_output fit_path
  end.

(** The world after [edit_fit] built [out]: written unless in a dry run. *)
Definition after_edit (dryrun : bool) (out : list message) (output : Path.t)
  (w : world) : world :=
  if dryrun then w else snd (to_file out output w).

(** The annotation records appended for [name]. *)
Definition annotation {P : Profile} (name : string) : list message :=
  if Str.is_empty name then [] else [workout_message name].

(** *** A directory of rides *)

Definition file_id_development : FileIdMessage.t :=
  FileIdMessage.mk (Some 255) (Some 0) (Some 1700000000000) [Some 4; Some 77].

Definition ride1_records : list message :=
  [ OtherMessage 0 [0; 5];
    FileId file_id_development;
    OtherMessage 23 [0; 4];
    DeviceInfo (DeviceInfoMessage.mk (Some 255) (Some 0) None [Some 0]);
    DeviceInfo (DeviceInfoMessage.mk (Some 32) (Some 31) None [Some 1]);
    DeviceInfo (DeviceInfoMessage.mk (Some 0) (Some 0) None [Some 2]);
    DeviceInfo (DeviceInfoMessage.mk (Some 263) (Some 12) None [Some 3]);
    OtherMessage 20 [150; 90] ].

(** A ride whose identity record was written by another device. *)
Definition ride2_records : list message :=
  [ FileId (FileIdMessage.mk (Some 263) (Some 12) (Some 1700003600000) []);
    OtherMessage 20 [140; 85] ].

Definition rides_dir : Path.t := Path.of_string "/rides".

Definition rides_from_file (path : string) : option (list message) :=
  if String.eqb path "/rides/ride1.fit" then Some ride1_records
  else if String.eqb path "/rides/RIDE2.FIT" then Some ride2_records
  else None.

(** No naming-service credentials, a stored session, every upload accepted. *)
Definition rides_env : env := {|
  dir := rides_dir;
  entries := ["ride1.fit"; "ride1_modified.fit"; "notes.txt"; "RIDE2.FIT"];
  from_file := rides_from_file;
  INTERVALS_ATHLETEID := None;
  INTERVALS_APIKEY := None;
  GARMIN_USERNAME := Some "rider@example.org";
  GARMIN_PASSWORD := Some "secret";
  console_email := "";
  console_password := "";
  garth_login := fun _ _ => true;
  garth_client_upload := fun _ => Uploaded 1;
  activities_list := fun _ => [];
  get_activities_by_date := fun _ => [];
  tmp_name := fun n => Path.of_string "/tmp/tmpfile"
|}.

(** A directory never scanned before, with a stored session. *)
Definition fresh_world : world := {|
  ledger_file := None;
  files := [];
  garth_session := true;
  tmp_count := 0;
  trace := []
|}.

(** *** Events by kind *)

Definition writes_ledger (e : event) : bool :=
  match e with LedgerWrite _ => true | _ => false end.

Definition writes_output (e : event) : bool :=
  match e with ToFile _ _ => true | _ => false end.

(** The calls that upload an activity or rename one at the remote service. *)
Definition uploads_or_renames (e : event) : bool :=
  match e with
  | GarthUpload _ | GarminLogin | GarminGetActivitiesByDate _
  | GarminSetActivityName _ _ => true
  | _ => false
  end.

(** Any call to a remote service. *)
Definition remote_call (e : event) : bool :=
  match e with
  | GarthLogin _ _ | GarthUpload _ | IntervalsActivitiesList _ | GarminLogin
  | GarminGetActivitiesByDate _ | GarminSetActivityName _ _ => true
  | LedgerWrite _ | ToFile _ _ => false
  end.

(** What a statement of the loop may do: never a ledger write and, in a
    dry run, no output write, upload or rename. *)
Definition allowed (dryrun : bool) (e : event) : bool :=
  negb (writes_ledger e) &&
  (negb dryrun || negb (writes_output e || uploads_or_renames e)).

(** [w'] comes from [w] by allowed events, the ledger file untouched. *)
Definition extends (dryrun : bool) (w w' : world) : Prop :=
  ledger_file w' = ledger_file w /\
  exists l, trace w' = (trace w ++ l)%list /\ forallb (allowed dryrun) l = true.

(** A statement that only does that, whether it returns or raises. *)
Definition keeps {A} (dryrun : bool) (c : M A) : Prop :=
  forall w, extends dryrun w (snd (c w)).

(** The ledger a scan starts from in [w] and the files it then goes
    through (lines 286-306). *)
Definition loaded_ledger (w : world) : list string :=
  match ledger_file w with
  | Some uploaded_files => uploaded_files
  | None => []
  end.

Definition processed (E : env) (w : world) : list string :=
  candidates E (loaded_ledger w).

(** *** Inputs against which statements of the specification fail *)

(** The rides directory listed in another order. *)
Definition unsorted_env : env := {|
  dir := rides_dir;
  entries := ["ride1_modified.fit"; "ride2.fit"; "ride1.fit"; "notes.txt"];
  from_file := rides_from_file;
  INTERVALS_ATHLETEID := None;
  INTERVALS_APIKEY := None;
  GARMIN_USERNAME := Some "rider@example.org";
  GARMIN_PASSWORD := Some "secret";
  console_email := "";
  console_password := "";
  garth_login := fun _ _ => true;
  garth_client_upload := fun _ => Uploaded 1;
  activities_list := fun _ => [];
  get_activities_by_date := fun _ => [];
  tmp_name := fun n => Path.of_string "/tmp/tmpfile"
|}.

(** Lexicographic order of Python strings. *)
Definition str_le (a b : string) : Prop := String.leb a b = true.

(** *** Directories and names on which line 302 gives the filename back *)

(** The directory has a component: it is neither ["."] nor a bare root. *)
Definition plain_dir (E : env) : bool :=
  match Path.parts (dir E) with [] => false | _ => true end.

(** The directory string does not occur in ["/" + name], and [name]
    neither starts nor ends with a slash or a backslash. *)
Definition plain_name (E : env) (name : string) : bool :=
  negb (Str.contains ("/" ++ name) (Path.str (dir E))) &&
  String.eqb (Str.strip "/" name) name &&
  String.eqb (Str.strip "\" name) name.

(** The entries that the pattern of line 300 matches are plain. *)
Definition plain_entries (E : env) : bool :=
  forallb (fun name => negb (Str.endswith (Str.lower name) ".fit") || plain_name E name)
    (entries E).

(** *** Other directories *)

(** A file without identity record. *)
Definition no_file_id_records : list message :=
  [ OtherMessage 20 [150; 90]; OtherMessage 20 [151; 91] ].

(** One activity of the naming service, eight seconds after the first
    ride was created. *)
Definition sweet_spot : intervals_activity := {|
  oauth_client_name := "Training Peaks Virtual";
  start_date := 1700000008000000;
  activity_name := "Sweet Spot"
|}.

(** The rides directory with the two credentials of the naming service
    set and one more file, which has no identity record. *)
Definition lookup_env : env := {|
  dir := rides_dir;
  entries := ["ride1.fit"; "nofileid.fit"];
  from_file := fun path =>
    if String.eqb path "/rides/nofileid.fit" then Some no_file_id_records
    else rides_from_file path;
  INTERVALS_ATHLETEID := Some "i12345";
  INTERVALS_APIKEY := Some "key";
  GARMIN_USERNAME := Some "rider@example.org";
  GARMIN_PASSWORD := Some "secret";
  console_email := "";
  console_password := "";
  garth_login := fun _ _ => true;
  garth_client_upload := fun _ => Uploaded 1;
  activities_list := fun _ => [sweet_spot];
  get_activities_by_date := fun _ => [];
  tmp_name := fun n => Path.of_string "/tmp/tmpfile"
|}.

(** No ledger file and no stored session. *)
Definition logged_out_world : world := {|
  ledger_file := None;
  files := [];
  garth_session := false;
  tmp_count := 0;
  trace := []
|}.

(** The rides directory with a file that does not decode listed first. *)
Definition broken_env : env := {|
  dir := rides_dir;
  entries := ["broken.fit"; "ride1.fit"];
  from_file := rides_from_file;
  INTERVALS_ATHLETEID := None;
  INTERVALS_APIKEY := None;
  GARMIN_USERNAME := Some "rider@example.org";
  GARMIN_PASSWORD := Some "secret";
  console_email := "";
  console_password := "";
  garth_login := fun _ _ => true;
  garth_client_upload := fun _ => Uploaded 1;
  activities_list := fun _ => [];
  get_activities_by_date := fun _ => [];
  tmp_name := fun n => Path.of_string "/tmp/tmpfile"
|}.

(** The rides directory when the remote service already has every
    activity: each upload is answered with HTTP 409. *)
Definition conflict_env : env := {|
  dir := rides_dir;
  entries := ["RIDE2.FIT"; "ride1.fit"];
  from_file := rides_from_file;
  INTERVALS_ATHLETEID := None;
  INTERVALS_APIKEY := None;
  GARMIN_USERNAME := Some "rider@example.org";
  GARMIN_PASSWORD := Some "secret";
  console_email := "";
  console_password := "";
  garth_login := fun _ _ => true;
  garth_client_upload := fun _ => HTTPError 409;
  activities_list := fun _ => [];
  get_activities_by_date := fun _ => [];
  tmp_name := fun n => Path.of_string "/tmp/tmpfile"
|}.

(** A record of the class [FileIdMessage] is in the file. *)
Definition has_file_id (records : list message) : bool :=
  existsb (fun msg => match msg with FileId _ => true | _ => false end) records.

(** The lookup has what it needs: no credentials, or a timestamp. *)
Definition lookup_safe (E : env) (records : list message) : bool :=
  match INTERVALS_ATHLETEID E, INTERVALS_APIKEY E with
  | Some _, Some _ => has_file_id records
  | _, _ => true
  end.

(** A session is stored, or the login is accepted. *)
Definition authenticates (E : env) (w : world) : Prop :=
  garth_session w = true \/ forall email password, garth_login E email password = true.

(** Neither an output write nor an upload or a rename. *)
Definition quiet (e : event) : bool :=
  negb (writes_output e) && negb (uploads_or_renames e).

(** The rides directory with the credentials of the naming service set
    and the first ride only. *)
Definition dry_env : env := {|
  dir := rides_dir;
  entries := ["ride1.fit"];
  from_file := rides_from_file;
  INTERVALS_ATHLETEID := Some "i12345";
  INTERVALS_APIKEY := Some "key";
  GARMIN_USERNAME := Some "rider@example.org";
  GARMIN_PASSWORD := Some "secret";
  console_email := "";
  console_password := "";
  garth_login := fun _ _ => true;
  garth_client_upload := fun _ => Uploaded 1;
  activities_list := fun _ => [sweet_spot];
  get_activities_by_date := fun _ => [];
  tmp_name := fun n => Path.of_string "/tmp/tmpfile"
|}.

(** The current directory, given as ["."], with a ride and its rewritten
    copy. *)
Definition current_dir_env : env := {|
  dir := Path.of_string ".";
  entries := ["ride1.fit"; "ride1_modified.fit"];
  from_file := fun _ => None;
  INTERVALS_ATHLETEID := None;
  INTERVALS_APIKEY := None;
  GARMIN_USERNAME := None;
  GARMIN_PASSWORD := None;
  console_email := "";
  console_password := "";
  garth_login := fun _ _ => true;
  garth_client_upload := fun _ => Uploaded 1;
  activities_list := fun _ => [];
  get_activities_by_date := fun _ => [];
  tmp_name := fun n => Path.of_string "/tmp/tmpfile"
|}.

(** ** Definitions for the further properties *)

(** The records of the first ride as [edit_fit] rewrites them. *)
Definition ride1_modified_records : list message :=
  match @modified_file fit_profile ride1_records "" with
  | Ok out => out
  | Raise _ => []
  end.

(** The rides directory after [edit_fit] wrote the rewritten first ride
    beside it. *)
Definition rewritten_env : env := {|
  dir := rides_dir;
  entries := ["ride1.fit"; "ride1_modified.fit"];
  from_file := fun path =>
    if String.eqb path "/rides/ride1_modified.fit" then Some ride1_modified_records
    else rides_from_file path;
  INTERVALS_ATHLETEID := None;
  INTERVALS_APIKEY := None;
  GARMIN_USERNAME := Some "rider@example.org";
  GARMIN_PASSWORD := Some "secret";
  console_email := "";
  console_password := "";
  garth_login := fun _ _ => true;
  garth_client_upload := fun _ => Uploaded 1;
  activities_list := fun _ => [];
  get_activities_by_date := fun _ => [];
  tmp_name := fun n => Path.of_string "/tmp/tmpfile"
|}.

(** A file with two identity records, the second without creation time. *)
Definition two_file_ids_records : list message :=
  [ OtherMessage 0 [0; 5];
    FileId file_id_development;
    FileId (FileIdMessage.mk (Some 255) (Some 0) None []) ].

(** The manufacturers that [edit_fit] replaces in a device info record. *)
Definition replaced_manufacturer {P : Profile} (a : option Z) : bool :=
  opt_eqb a Manufacturer_DEVELOPMENT || opt_eqb a 0 ||
  opt_eqb a Manufacturer_WAHOO_FITNESS.

(** [msg] is an identity record. *)
Definition is_file_id (msg : message) : bool :=
  match msg with FileId _ => true | _ => false end.

(** The rides directory with a file of two identity records. *)
Definition two_file_ids_env : env := {|
  dir := rides_dir;
  entries := ["double.fit"];
  from_file := fun path =>
    if String.eqb path "/rides/double.fit" then Some two_file_ids_records else None;
  INTERVALS_ATHLETEID := None;
  INTERVALS_APIKEY := None;
  GARMIN_USERNAME := Some "rider@example.org";
  GARMIN_PASSWORD := Some "secret";
  console_email := "";
  console_password := "";
  garth_login := fun _ _ => true;
  garth_client_upload := fun _ => Uploaded 1;
  activities_list := fun _ => [];
  get_activities_by_date := fun _ => [];
  tmp_name := fun n => Path.of_string "/tmp/tmpfile"
|}.

(** The test of the loop of [get_name_from_intervals] (lines 161-164). *)
Definition lookup_match (dt : datetime) (a : intervals_activity) : bool :=
  String.eqb (oauth_client_name a) "Training Peaks Virtual" &&
  (Z.abs (start_date a - dt) <=? 15 * 1000000).

(** The test of the loop of [find_and_set_garmin_activity_name]
    (line 186). *)
Definition rename_match (dt : datetime) (a : garmin_activity) : bool :=
  Z.abs (startTimeLocal a - dt) <? 10 * 1000000.

(** What [modify_name] does for one activity. *)
Definition rename_events (name : string) (a : garmin_activity) : list event :=
  [GarminLogin; GarminSetActivityName (activityId a) name].

(** Two activities of the naming service on the day of the first ride:
    one of another client at the same second, one of the simulator
    fifteen seconds later. *)
Definition other_client : intervals_activity := {|
  oauth_client_name := "Zwift";
  start_date := 1700000000000000;
  activity_name := "Morning Ride"
|}.

Definition fifteen_seconds_later : intervals_activity := {|
  oauth_client_name := "Training Peaks Virtual";
  start_date := 1700000015000000;
  activity_name := "Threshold"
|}.

(** The rides directory with the credentials of the naming service and a
    remote service that lists three activities around the first ride. *)
Definition rename_env : env := {|
  dir := rides_dir;
  entries := ["ride1.fit"];
  from_file := rides_from_file;
  INTERVALS_ATHLETEID := Some "i12345";
  INTERVALS_APIKEY := Some "key";
  GARMIN_USERNAME := Some "rider@example.org";
  GARMIN_PASSWORD := Some "secret";
  console_email := "";
  console_password := "";
  garth_login := fun _ _ => true;
  garth_client_upload := fun _ => Uploaded 1;
  activities_list := fun _ => [other_client; fifteen_seconds_later; sweet_spot];
  get_activities_by_date := fun _ =>
    [ {| startTimeLocal := 1700000009999999; activityId := 11 |};
      {| startTimeLocal := 1700000010000000; activityId := 12 |};
      {| startTimeLocal := 1699999995000000; activityId := 13 |} ];
  tmp_name := fun n => Path.of_string "/tmp/tmpfile"
|}.

Definition is_login (e : event) : bool :=
  match e with GarthLogin _ _ => true | _ => false end.

(** The address and the password that [upload] logs in with (lines
    256-265): the environment variable, or what is typed when it is
    missing or empty. *)
Definition login_email (E : env) : string :=
  match GARMIN_USERNAME E with
  | Some email => if Str.is_empty email then console_email E else email
  | None => console_email E
  end.

Definition login_password (E : env) : string :=
  match GARMIN_PASSWORD E with
  | Some password => if Str.is_empty password then console_password E else password
  | None => console_password E
  end.

(** What the rename step of [upload] does (lines 274-277). *)
Definition rename_step_events (E : env) (dt : option datetime) (name : string)
  : list event :=
  match dt with
  | Some dt =>
      if negb (Str.is_empty name)
      then ([GarminLogin; GarminGetActivitiesByDate dt] ++
            flat_map (rename_events name)
              (filter (rename_match dt) (get_activities_by_date E dt)))%list
      else []
  | None => []
  end.

(** The last branch of the main block (lines 403-409): one input file,
    edited and, with [--upload], uploaded. The argument checks and the
    configuration that come before it are not part of it. *)
Definition main_file {P : Profile} (E : env) (input_file : string)
  (upload_flag dryrun : bool) : M unit :=
  let p := Path.of_string input_file in
  dt <- get_date_from_fit E p ;;
  name <- get_name_from_intervals E dt ;;
  output_path <- edit_fit E p None dryrun name ;;
  if upload_flag
  then upload E output_path (Some p) dryrun dt name ;; ret tt
  else ret tt.

(** The remote service refuses the login. *)
Definition refused_env : env := {|
  dir := rides_dir;
  entries := ["ride1.fit"];
  from_file := rides_from_file;
  INTERVALS_ATHLETEID := None;
  INTERVALS_APIKEY := None;
  GARMIN_USERNAME := Some "";
  GARMIN_PASSWORD := None;
  console_email := "typed@example.org";
  console_password := "typed";
  garth_login := fun _ _ => false;
  garth_client_upload := fun _ => Uploaded 1;
  activities_list := fun _ => [];
  get_activities_by_date := fun _ => [];
  tmp_name := fun n => Path.of_string "/tmp/tmpfile"
|}.

(** The remote service answers every upload with HTTP 500. *)
Definition failing_env : env := {|
  dir := rides_dir;
  entries := ["ride1.fit"; "RIDE2.FIT"];
  from_file := rides_from_file;
  INTERVALS_ATHLETEID := None;
  INTERVALS_APIKEY := None;
  GARMIN_USERNAME := Some "rider@example.org";
  GARMIN_PASSWORD := Some "secret";
  console_email := "";
  console_password := "";
  garth_login := fun _ _ => true;
  garth_client_upload := fun _ => HTTPError 500;
  activities_list := fun _ => [];
  get_activities_by_date := fun _ => [];
  tmp_name := fun n => Path.of_string "/tmp/tmpfile"
|}.

(** A world in which the rewritten first ride is stored at [/tmp/out.fit]. *)
Definition stored_world : world := {|
  ledger_file := None;
  files := [("/tmp/out.fit", ride1_modified_records)];
  garth_session := true;
  tmp_count := 0;
  trace := []
|}.

(** A statement that leaves the stored files as they are. *)
Definition untouched {A} (c : M A) : Prop :=
  forall w, files (snd (c w)) = files w.

(** The logins of a trace. *)
Definition logins (l : list event) : nat := List.length (filter is_login l).

(** A statement that adds no login and keeps the session, or, without a
    session, adds one login after which, if the statement returns, a
    session is stored. *)
Definition logs_in_once {A} (c : M A) : Prop :=
  forall w, exists l,
    trace (snd (c w)) = (trace w ++ l)%list /\
    ((logins l = 0%nat /\ garth_session (snd (c w)) = garth_session w) \/
     (garth_session w = false /\ logins l = 1%nat /\
      (forall a, fst (c w) = Ok a -> garth_session (snd (c w)) = true))).

(** ** The first-run setup *)

(** What the setup reads: the platform, the home directory through
    [os.path.expanduser], the listing of a directory ([None]: it does not
    exist, [os.listdir] raises), the index of the option that the user
    picks in a menu (below the number of options) and the two lines
    typed at the prompts. *)
Record setup_env : Type := {
  platform : string;
  expanduser : string -> string;
  listdir : string -> option (list string);
  pick : list string -> string -> nat;
  input_user : string;
  input_password : string
}.

(** What the setup writes: the configuration file with its [TPV_ID], and
    the [.env] file. *)
Inductive setup_event : Type :=
| ConfigWrite (tpv_id : string)
| EnvWrite (content : string).

(** How the setup ends. *)
Inductive ending : Type :=
| Returns
| SystemExit (code : Z)
| RaisesFileNotFoundError
| RaisesIndexError.

(** [\w] on the characters below 256. *)
Definition is_word (c : ascii) : bool :=
  let n := nat_of_ascii c in
  ((48 <=? n) && (n <=? 57) || (65 <=? n) && (n <=? 90) || (n =? 95) ||
   (97 <=? n) && (n <=? 122) || (n =? 170) || (178 <=? n) && (n <=? 179) ||
   (n =? 181) || (185 <=? n) && (n <=? 186) || (188 <=? n) && (n <=? 190) ||
   (192 <=? n) && (n <=? 214) || (216 <=? n) && (n <=? 246) ||
   (248 <=? n) && (n <=? 255))%nat%bool.

Fixpoint all_word (s : string) : bool :=
  match s with
  | EmptyString => true
  | String c s' => is_word c && all_word s'
  end.

(** [re.search(r'\A(\w){16}\Z', f)] *)
Definition matches_user_folder (f : string) : bool :=
  (String.length f =? 16)%nat && all_word f.

(** [get_tpv_folder] (lines 128-136) *)
Definition get_tpv_folder (S : setup_env) : Path.t :=
  if String.eqb (platform S) "darwin"
  then Path.of_string (expanduser S "~/TPVirtual")
  else if String.eqb (platform S) "win32"
  then Path.of_string (expanduser S "~/Documents/TPVirtual")
  else Path.of_string (expanduser S "~/Documents/TPVirtual").

Definition newline : string := String (ascii_of_nat 10) EmptyString.

Definition store_credentials_title : string :=
  "Your environment has not specified your Garmin credentials. For the daemon mode to work these must be available as environment variables in your system, or stored in a local environment file. Would you like to store these now? ".

(** The second part of [first_run] (lines 113-126). *)
Definition store_credentials (S : setup_env) (E : env) : list setup_event :=
  let missing (v : option string) :=
    match v with Some s => Str.is_empty s | None => true end in
  if missing (GARMIN_USERNAME E) || missing (GARMIN_PASSWORD E) then
    let index := pick S ["yes"; "no"] store_credentials_title in
    if String.eqb (nth index ["yes"; "no"] "") "yes"
    then [EnvWrite ("GARMIN_USERNAME='" ++ input_user S ++ "'" ++ newline ++
                    "GARMIN_PASSWORD='" ++ input_password S ++ "'")]
    else []
  else [].

(** [first_run] (lines 88-126): how it ends and what it has written. *)
Definition first_run (S : setup_env) (E : env) : ending * list setup_event :=
  let TPVPath := get_tpv_folder S in
  match listdir S (Path.str TPVPath) with
  | None => (RaisesFileNotFoundError, [])
  | Some names =>
      let res := filter matches_user_folder names in
      let chosen : ending * list setup_event + nat :=
        match res with
        | [] => inl (SystemExit 1, [])
        | [r] =>
            let title :=
              "First run setup found TP Virtual User directory at " ++
              Path.str (Path.joinpath TPVPath r) ++ ", is this correct? " in
            let index := pick S ["yes"; "no"] title in
            if String.eqb (nth index ["yes"; "no"] "") "no"
            then inl (SystemExit 1, [ConfigWrite ""])
            else inr O
        | _ =>
            inr (pick S res
                   "First run setup found multiple TP Virtual User directories, please select the directory for your user: ")
        end in
      match chosen with
      | inl stop => stop
      | inr index =>
          match nth_error res index with
          | None => (RaisesIndexError, [])
          | Some tpv_id =>
              (Returns, ConfigWrite tpv_id :: store_credentials S E)
          end
      end
  end.

(** A machine with two user folders of the simulator; the user picks the
    second one and stores the credentials. *)
Definition two_users_setup : setup_env := {|
  platform := "darwin";
  expanduser := fun p => "/Users/rider" ++ String.substring 1 (String.length p) p;
  listdir := fun p =>
    if String.eqb p "/Users/rider/TPVirtual"
    then Some ["Logs"; "0123456789abcdef"; "fedcba9876543210"; "0123456789abcde-"]
    else None;
  pick := fun options title =>
    match options with
    | ["yes"; "no"] => O
    | _ => 1%nat
    end;
  input_user := "rider@example.org";
  input_password := "secret"
|}.

(** The same machine for a user who has not logged in to the simulator
    yet. *)
Definition no_user_setup : setup_env := {|
  platform := "linux";
  expanduser := fun p => "/home/rider" ++ String.substring 1 (String.length p) p;
  listdir := fun p =>
    if String.eqb p "/home/rider/Documents/TPVirtual" then Some ["Logs"] else None;
  pick := fun options title => O;
  input_user := "";
  input_password := ""
|}.

(** * Properties *)

(** ** The record mutator *)

Section MutatorFacts.
Context {P : Profile}.

Lemma edit_device_info_file_id (m : FileIdMessage.t) :
  edit_device_info (FileId m) = FileId m.
Proof. unfold edit_device_info. now destruct (_ =? _). Qed.

Lemma edit_file_id_device_info (m : DeviceInfoMessage.t) :
  edit_file_id (DeviceInfo m) = Ok (DeviceInfo m).
Proof. unfold edit_file_id. now destruct (_ =? _). Qed.

Lemma edit_message_other (msg : message) :
  match msg with FileId _ | DeviceInfo _ => False | _ => True end ->
  edit_message msg = Ok msg.
Proof.
  unfold edit_message, edit_file_id, edit_device_info.
  destruct msg; simpl; try contradiction; intros _.
  - destruct (_ =? _); simpl; now destruct (_ =? _).
  - destruct (_ =? _); simpl; now destruct (_ =? _).
Qed.

(** An iteration raises only on an identity record without creation time. *)
Lemma edit_message_returns (msg : message) :
  has_time_created msg = true -> exists msg', edit_message msg = Ok msg'.
Proof.
  unfold edit_message, edit_file_id.
  destruct msg as [m | m | m | gid c]; simpl; intros H.
  - rewrite Z.eqb_refl.
    destruct (FileIdMessage.time_created m); [| discriminate]. simpl.
    destruct (opt_eqb _ _); simpl; eauto.
  - destruct (_ =? _); simpl; eauto.
  - destruct (_ =? _); simpl; eauto.
  - destruct (_ =? _); simpl; eauto.
Qed.

Lemma edit_message_raises (msg : message) :
  has_time_created msg = false -> edit_message msg = Raise TypeError.
Proof.
  unfold edit_message, edit_file_id.
  destruct msg as [m | m | m | gid c]; simpl; try discriminate.
  rewrite Z.eqb_refl. now destruct (FileIdMessage.time_created m).
Qed.

(** The loop adds, after what the builder holds, the edited records in
    the order of the input. *)
Lemma edit_records_Ok (records : list message) :
  forall builder out,
    edit_records records builder = Ok out ->
    exists l, out = (builder ++ l)%list /\
              Forall2 (fun msg msg' => edit_message msg = Ok msg') records l.
Proof.
  induction records as [| msg records IH]; simpl; intros builder out H.
  - exists []. inversion H. now rewrite app_nil_r.
  - destruct (edit_message msg) as [msg' |] eqn:Hm; simpl in H; [| discriminate].
    destruct (IH _ _ H) as (l & -> & Hl).
    exists (msg' :: l). rewrite <- app_assoc. split; [reflexivity |].
    now constructor.
Qed.

Lemma edit_records_returns (records : list message) :
  forallb has_time_created records = true ->
  forall builder, exists out, edit_records records builder = Ok out.
Proof.
  induction records as [| msg records IH]; simpl; intros H builder.
  - eauto.
  - apply andb_prop in H as [Hm Hr].
    destruct (edit_message_returns _ Hm) as [msg' ->]. simpl. now apply IH.
Qed.

(** The loop raises when an identity record has no creation time: nothing
    is built. *)
Lemma edit_records_raises (records : list message) :
  forallb has_time_created records = false ->
  forall builder, edit_records records builder = Raise TypeError.
Proof.
  induction records as [| msg records IH]; simpl; intros H builder;
    [discriminate |].
  destruct (has_time_created msg) eqn:Hm.
  - destruct (edit_message_returns _ Hm) as [msg' ->]. simpl. now apply IH.
  - now rewrite (edit_message_raises _ Hm).
Qed.

Lemma modified_file_Ok (records : list message) (name : string) (out : list message) :
  modified_file records name = Ok out ->
  exists l, out = (l ++ annotation name)%list /\
            Forall2 (fun msg msg' => edit_message msg = Ok msg') records l.
Proof.
  unfold modified_file, annotation. intros H.
  destruct (edit_records records []) as [b |] eqn:Hb; simpl in H; [| discriminate].
  apply edit_records_Ok in Hb as (l & -> & Hl). simpl in H.
  exists l. split; [| exact Hl].
  destruct (Str.is_empty name); inversion H; [now rewrite app_nil_r | reflexivity].
Qed.

Lemma modified_file_returns (records : list message) (name : string) :
  forallb has_time_created records = true ->
  exists out, modified_file records name = Ok out.
Proof.
  intros H. unfold modified_file.
  destruct (edit_records_returns _ H []) as [b ->]. simpl.
  destruct (Str.is_empty name); eauto.
Qed.

Lemma Forall2_nth_error_l {A B} (R : A -> B -> Prop) (l : list A) (l' : list B) :
  Forall2 R l l' ->
  forall i a, nth_error l i = Some a ->
  exists b, nth_error l' i = Some b /\ R a b.
Proof.
  induction 1 as [| x y l l' Hxy _ IH]; intros [| i] a Hi; simpl in *;
    try discriminate.
  - inversion Hi; subst. eauto.
  - eauto.
Qed.

(** The record at position [i] of the output is the edited record at
    position [i] of the input. *)
Lemma modified_file_nth (records : list message) (name : string) (out : list message) :
  modified_file records name = Ok out ->
  forall i msg, nth_error records i = Some msg ->
  exists msg', nth_error out i = Some msg' /\ edit_message msg = Ok msg'.
Proof.
  intros H i msg Hi.
  apply modified_file_Ok in H as (l & -> & Hl).
  destruct (Forall2_nth_error_l _ _ _ Hl _ _ Hi) as (msg' & Hi' & Hm).
  exists msg'. split; [| exact Hm].
  rewrite nth_error_app1; [exact Hi' |].
  apply nth_error_Some. congruence.
Qed.

End MutatorFacts.

Section EditFitFacts.
Context {P : Profile}.
Variable E : env.

(** [edit_fit] on a file that decodes: it returns the output path and, out
    of a dry run, writes the built file there. *)
Lemma edit_fit_Ok (fit_path : Path.t) (output : option Path.t) (dryrun : bool)
  (name : string) (w : world) (records out : list message) :
  from_file E (Path.str fit_path) = Some records ->
  modified_file records name = Ok out ->
  edit_fit E fit_path output dryrun name w =
    (Ok (output_path fit_path output),
     after_edit dryrun out (output_path fit_path output) w).
Proof.
  intros Hf Hm.
  unfold edit_fit, FitFile_from_file, bind, lift, after_edit, output_path.
  rewrite Hf. unfold ret at 1. rewrite Hm.
  destruct dryrun; simpl; reflexivity.
Qed.

(** What [edit_fit] did when it returned: it built a file and, out of a
    dry run, wrote it at the path it returns. *)
Lemma edit_fit_returned (fit_path : Path.t) (output : option Path.t) (dryrun : bool)
  (name : string) (w w' : world) (o : Path.t) (records : list message) :
  from_file E (Path.str fit_path) = Some records ->
  edit_fit E fit_path output dryrun name w = (Ok o, w') ->
  exists out,
    modified_file records name = Ok out /\
    o = output_path fit_path output /\
    w' = after_edit dryrun out o w.
Proof.
  intros Hf H.
  destruct (modified_file records name) as [out | e] eqn:Hm.
  - rewrite (edit_fit_Ok _ _ _ _ _ _ _ Hf Hm) in H. injection H as <- <-. eauto.
  - exfalso. unfold edit_fit, FitFile_from_file, bind, lift in H.
    rewrite Hf in H. unfold ret at 1 in H. rewrite Hm in H. discriminate.
Qed.

End EditFitFacts.

Section EditMessageFacts.
Context {P : Profile}.

Lemma edit_message_file_id_development (m : FileIdMessage.t) (t : Z) :
  FileIdMessage.time_created m = Some t ->
  FileIdMessage.manufacturer m = Some Manufacturer_DEVELOPMENT ->
  edit_message (FileId m) =
    Ok (FileId (FileIdMessage.mk (Some Manufacturer_GARMIN)
                  (Some GarminProduct_EDGE_830)
                  (FileIdMessage.time_created m) (FileIdMessage.other_fields m))).
Proof.
  destruct m as [man prod tc other]. simpl. intros -> ->.
  unfold edit_message, edit_file_id. simpl.
  rewrite !Z.eqb_refl. simpl. now rewrite edit_device_info_file_id.
Qed.

Lemma edit_message_file_id_other (m : FileIdMessage.t) (t : Z) :
  FileIdMessage.time_created m = Some t ->
  FileIdMessage.manufacturer m <> Some Manufacturer_DEVELOPMENT ->
  edit_message (FileId m) = Ok (FileId m).
Proof.
  intros Ht Hm. unfold edit_message, edit_file_id. simpl.
  rewrite Z.eqb_refl, Ht. simpl.
  destruct (opt_eqb _ _) eqn:Hd.
  - exfalso. apply Hm. unfold opt_eqb in Hd.
    destruct (FileIdMessage.manufacturer m); [| discriminate].
    apply Z.eqb_eq in Hd. now subst.
  - simpl. now rewrite edit_device_info_file_id.
Qed.

Lemma opt_eqb_true (a : option Z) (v : Z) : opt_eqb a v = true <-> a = Some v.
Proof.
  destruct a as [x |]; simpl.
  - rewrite Z.eqb_eq. split; [now intros -> | now intros [=]].
  - split; discriminate.
Qed.

Lemma edit_message_device_info (m : DeviceInfoMessage.t) :
  edit_message (DeviceInfo m) =
    Ok (if opt_eqb (DeviceInfoMessage.manufacturer m) Manufacturer_DEVELOPMENT
           || opt_eqb (DeviceInfoMessage.manufacturer m) 0
           || opt_eqb (DeviceInfoMessage.manufacturer m) Manufacturer_WAHOO_FITNESS
        then DeviceInfo (DeviceInfoMessage.mk (Some Manufacturer_GARMIN)
                           (Some GarminProduct_EDGE_830) (Some GarminProduct_EDGE_830)
                           (DeviceInfoMessage.other_fields m))
        else DeviceInfo m).
Proof.
  unfold edit_message. rewrite edit_file_id_device_info. simpl.
  unfold edit_device_info. simpl. rewrite Z.eqb_refl.
  now destruct (_ || _).
Qed.

End EditMessageFacts.

(** ** The records of the built file *)

Section BuilderFacts.
Context {B : AutoDefine}.

Lemma builder_add_all_app (l1 : list message) :
  forall added l2,
    builder_add_all added (l1 ++ l2) =
    (builder_add_all added l1 ++ builder_add_all (added ++ l1) l2)%list.
Proof.
  induction l1 as [| msg l1 IH]; intros added l2; simpl.
  - now rewrite app_nil_r.
  - rewrite IH, <- !app_assoc. reflexivity.
Qed.

(** The records of a message added last come after all the others. *)
Lemma built_records_app (l : list message) (msg : message) :
  built_records (l ++ [msg]) = (built_records l ++ builder_add l msg)%list.
Proof.
  unfold built_records. rewrite builder_add_all_app. simpl. now rewrite app_nil_r.
Qed.

Lemma builder_add_In (added : list message) (msg : message) :
  In msg (builder_add added msg).
Proof. unfold builder_add. destruct (auto_definition added msg); simpl; auto. Qed.

Lemma builder_add_all_In (msgs : list message) :
  forall added msg, In msg msgs -> In msg (builder_add_all added msgs).
Proof.
  induction msgs as [| a msgs IH]; intros added msg; simpl; [tauto |].
  intros [<- | H]; apply in_or_app;
    [left; apply builder_add_In | right; now apply IH].
Qed.

(** A message added is a record of the built file. *)
Lemma built_records_In (msgs : list message) (msg : message) :
  In msg msgs -> In msg (built_records msgs).
Proof. apply builder_add_all_In. Qed.

(** The records built are the messages added, in the order they were
    added, each alone or after the definition record put before it. *)
Lemma builder_add_all_blocks (msgs : list message) :
  forall added, exists blocks,
    builder_add_all added msgs = List.concat blocks /\
    Forall2 (fun msg block =>
               block = [msg] \/ exists definition, block = [definition; msg])
            msgs blocks.
Proof.
  induction msgs as [| msg msgs IH]; intros added; simpl.
  - exists []. split; [reflexivity | constructor].
  - destruct (IH (added ++ [msg])%list) as (blocks & -> & Hb).
    exists (builder_add added msg :: blocks). split; [reflexivity |].
    constructor; [| exact Hb].
    unfold builder_add. destruct (auto_definition added msg); eauto.
Qed.

End BuilderFacts.

Section MutatorClaims.
Context {P : Profile} {B : AutoDefine}.

(** C1. In a file that [edit_fit] has processed (the run returned, having
    written the output unless in a dry run), an identity record
    ([FileIdMessage]) whose manufacturer is the development sentinel has, in
    the output, [product] set to the Edge 830 code and [manufacturer] set to
    the Garmin code, its creation time and its other fields kept; an
    identity record with any other manufacturer is in the output unchanged.
    The record of the output is the message handed to the builder at the
    position of the input record, and it is a record of the built file. *)
Theorem edit_fit_identity_record :
  forall (E : env) (fit_path : Path.t) (output : option Path.t) (dryrun : bool)
         (name : string) (w w' : world) (o : Path.t) (records : list message),
    from_file E (Path.str fit_path) = Some records ->
    edit_fit E fit_path output dryrun name w = (Ok o, w') ->
    exists out,
      modified_file records name = Ok out /\
      w' = after_edit dryrun out o w /\
      forall i m, nth_error records i = Some (FileId m) ->
        exists m',
          nth_error out i = Some (FileId m') /\
          In (FileId m') (built_records out) /\
          (FileIdMessage.manufacturer m = Some Manufacturer_DEVELOPMENT ->
           FileIdMessage.product m' = Some GarminProduct_EDGE_830 /\
           FileIdMessage.manufacturer m' = Some Manufacturer_GARMIN /\
           FileIdMessage.time_created m' = FileIdMessage.time_created m /\
           FileIdMessage.other_fields m' = FileIdMessage.other_fields m) /\
          (FileIdMessage.manufacturer m <> Some Manufacturer_DEVELOPMENT ->
           m' = m).
Proof.
  intros E fit_path output dryrun name w w' o records Hf H.
  destruct (edit_fit_returned E _ _ _ _ _ _ _ _ Hf H) as (out & Hout & _ & Hw).
  exists out. split; [exact Hout |]. split; [exact Hw |].
  intros i m Hi.
  destruct (modified_file_nth _ _ _ Hout _ _ Hi) as (msg' & Hi' & Hm).
  assert (Hin : In msg' (built_records out)).
  { apply built_records_In. eapply nth_error_In; eauto. }
  destruct (FileIdMessage.time_created m) as [t |] eqn:Htc.
  - destruct (opt_eqb (FileIdMessage.manufacturer m) Manufacturer_DEVELOPMENT)
      eqn:Hd.
    + apply opt_eqb_true in Hd.
      rewrite (edit_message_file_id_development _ _ Htc Hd) in Hm.
      injection Hm as <-.
      eexists. split; [exact Hi' |]. split; [exact Hin |].
      split; [intros _; cbn; now rewrite Htc | intros Hc; congruence].
    + assert (Hn : FileIdMessage.manufacturer m <> Some Manufacturer_DEVELOPMENT).
      { intros Hc. apply opt_eqb_true in Hc. congruence. }
      rewrite (edit_message_file_id_other _ _ Htc Hn) in Hm. injection Hm as <-.
      exists m. split; [exact Hi' |]. split; [exact Hin |].
      split; [intros Hc; congruence | intros _; reflexivity].
  - rewrite (edit_message_raises (FileId m)) in Hm; [discriminate |].
    simpl. now rewrite Htc.
Qed.

(** C2. In a file that [edit_fit] has processed (the run returned), a
    device info record ([DeviceInfoMessage]) whose manufacturer is the
    development sentinel, zero or the Wahoo code has, in the output,
    [garmin_product] and [product] set to the Edge 830 code and
    [manufacturer] set to the Garmin code, its other fields kept; a device
    info record with any other manufacturer is in the output unchanged.
    The record of the output is the message handed to the builder at the
    position of the input record, and it is a record of the built file. *)
Theorem edit_fit_device_info_record :
  forall (E : env) (fit_path : Path.t) (output : option Path.t) (dryrun : bool)
         (name : string) (w w' : world) (o : Path.t) (records : list message),
    from_file E (Path.str fit_path) = Some records ->
    edit_fit E fit_path output dryrun name w = (Ok o, w') ->
    exists out,
      modified_file records name = Ok out /\
      w' = after_edit dryrun out o w /\
      forall i m, nth_error records i = Some (DeviceInfo m) ->
        exists m',
          nth_error out i = Some (DeviceInfo m') /\
          In (DeviceInfo m') (built_records out) /\
          ((DeviceInfoMessage.manufacturer m = Some Manufacturer_DEVELOPMENT \/
            DeviceInfoMessage.manufacturer m = Some 0 \/
            DeviceInfoMessage.manufacturer m = Some Manufacturer_WAHOO_FITNESS) ->
           DeviceInfoMessage.garmin_product m' = Some GarminProduct_EDGE_830 /\
           DeviceInfoMessage.product m' = Some GarminProduct_EDGE_830 /\
           DeviceInfoMessage.manufacturer m' = Some Manufacturer_GARMIN /\
           DeviceInfoMessage.other_fields m' = DeviceInfoMessage.other_fields m) /\
          (DeviceInfoMessage.manufacturer m <> Some Manufacturer_DEVELOPMENT ->
           DeviceInfoMessage.manufacturer m <> Some 0 ->
           DeviceInfoMessage.manufacturer m <> Some Manufacturer_WAHOO_FITNESS ->
           m' = m).
Proof.
  intros E fit_path output dryrun name w w' o records Hf H.
  destruct (edit_fit_returned E _ _ _ _ _ _ _ _ Hf H) as (out & Hout & _ & Hw).
  exists out. split; [exact Hout |]. split; [exact Hw |].
  intros i m Hi.
  destruct (modified_file_nth _ _ _ Hout _ _ Hi) as (msg' & Hi' & Hm).
  assert (Hin : In msg' (built_records out)).
  { apply built_records_In. eapply nth_error_In; eauto. }
  rewrite edit_message_device_info in Hm. injection Hm as <-.
  destruct (opt_eqb (DeviceInfoMessage.manufacturer m) Manufacturer_DEVELOPMENT
            || opt_eqb (DeviceInfoMessage.manufacturer m) 0
            || opt_eqb (DeviceInfoMessage.manufacturer m) Manufacturer_WAHOO_FITNESS)
    eqn:Hb.
  - eexists. split; [exact Hi' |]. split; [exact Hin |].
    split; [intros _; cbn; repeat split |].
    intros H1 H2 H3. rewrite !orb_true_iff, !opt_eqb_true in Hb. tauto.
  - exists m. split; [exact Hi' |]. split; [exact Hin |].
    split; [| intros _ _ _; reflexivity].
    intros Hman. exfalso.
    assert (Ht : opt_eqb (DeviceInfoMessage.manufacturer m) Manufacturer_DEVELOPMENT
                 || opt_eqb (DeviceInfoMessage.manufacturer m) 0
                 || opt_eqb (DeviceInfoMessage.manufacturer m) Manufacturer_WAHOO_FITNESS
                 = true).
    { rewrite !orb_true_iff, !opt_eqb_true. tauto. }
    congruence.
Qed.

(** C3, amended. For a file that [edit_fit] has processed (the run
    returned) and any workout name, every input record is handed to the
    builder, edited or as it was (a record of another kind as it was), in
    the order of the input, and the workout message with that name and
    sport cycling, when the name is not empty, after all of them. The
    records of the built file are these messages in that order, each alone
    or after the definition record that the builder puts before it. So,
    when the copied records get no definition record, the output has as
    many records as the input when the name is empty; when it is not, it
    has two more, the definition record of the workout message and the
    workout record, which is the last, and one more only if the builder
    puts no definition record before the workout message. *)
Theorem edit_fit_records_in_order :
  forall (E : env) (fit_path : Path.t) (output : option Path.t) (dryrun : bool)
         (name : string) (w w' : world) (o : Path.t) (records : list message),
    from_file E (Path.str fit_path) = Some records ->
    edit_fit E fit_path output dryrun name w = (Ok o, w') ->
    exists copied,
      modified_file records name = Ok (copied ++ annotation name)%list /\
      w' = after_edit dryrun (copied ++ annotation name)%list o w /\
      Forall2 (fun msg msg' =>
                 edit_message msg = Ok msg' /\
                 match msg with FileId _ | DeviceInfo _ => True | _ => msg' = msg end)
              records copied /\
      built_records (copied ++ annotation name) =
        (built_records copied ++
         (if Str.is_empty name then []
          else builder_add copied (workout_message name)))%list /\
      (exists blocks,
         built_records copied = List.concat blocks /\
         Forall2 (fun msg' block =>
                    block = [msg'] \/ exists definition, block = [definition; msg'])
                 copied blocks) /\
      (built_records copied = copied ->
         (Str.is_empty name = true ->
            List.length (built_records (copied ++ annotation name)) =
            List.length records) /\
         (Str.is_empty name = false ->
            (forall definition,
               auto_definition copied (workout_message name) = Some definition ->
               built_records (copied ++ annotation name) =
                 (copied ++
                  [definition;
                   Workout (WorkoutMessage.mk (Some name) (Some Sport_CYCLING))])%list /\
               List.length (built_records (copied ++ annotation name)) =
               S (S (List.length records))) /\
            (auto_definition copied (workout_message name) = None ->
               built_records (copied ++ annotation name) =
                 (copied ++
                  [Workout (WorkoutMessage.mk (Some name) (Some Sport_CYCLING))])%list /\
               List.length (built_records (copied ++ annotation name)) =
               S (List.length records)))).
Proof.
  intros E fit_path output dryrun name w w' o records Hf H.
  destruct (edit_fit_returned E _ _ _ _ _ _ _ _ Hf H) as (out & Hout & _ & Hw).
  destruct (modified_file_Ok _ _ _ Hout) as (copied & -> & Hl).
  exists copied. split; [exact Hout |]. split; [exact Hw |]. split.
  { clear - Hl. induction Hl as [| msg msg' records copied Hm _ IH];
      constructor; [| exact IH].
    split; [exact Hm |].
    destruct msg; try exact I;
      (rewrite edit_message_other in Hm by exact I; congruence). }
  assert (Happ : built_records (copied ++ annotation name) =
                 (built_records copied ++
                  (if Str.is_empty name then []
                   else builder_add copied (workout_message name)))%list).
  { unfold annotation. destruct (Str.is_empty name).
    - now rewrite !app_nil_r.
    - apply built_records_app. }
  split; [exact Happ |]. split; [apply builder_add_all_blocks |].
  intros Hc. rewrite Happ, Hc. apply Forall2_length in Hl. split.
  - intros Hn. rewrite Hn, app_nil_r. now symmetry.
  - intros Hn. rewrite Hn. unfold builder_add. split.
    + intros definition Hd. rewrite Hd. split; [reflexivity |].
      rewrite length_app. simpl. lia.
    + intros Hd. rewrite Hd. split; [reflexivity |].
      rewrite length_app. simpl. lia.
Qed.

End MutatorClaims.

(** Concrete files are read with the values of the public FIT profile and
    built with the builder above. *)
#[local] Existing Instance fit_profile.
#[local] Existing Instance fit_builder.

(** The three statements on the first ride of the directory of rides. *)
Lemma edit_fit_identity_record_witness :
  exists out,
    modified_file ride1_records "Sweet Spot" = Ok out /\
    snd (edit_fit rides_env (Path.of_string "/rides/ride1.fit") None false
           "Sweet Spot" fresh_world) =
      after_edit false out (output_path (Path.of_string "/rides/ride1.fit") None)
        fresh_world /\
    forall i m, nth_error ride1_records i = Some (FileId m) ->
      exists m',
        nth_error out i = Some (FileId m') /\
        In (FileId m') (built_records out) /\
        (FileIdMessage.manufacturer m = Some 255 ->
         FileIdMessage.product m' = Some 3122 /\
         FileIdMessage.manufacturer m' = Some 1 /\
         FileIdMessage.time_created m' = FileIdMessage.time_created m /\
         FileIdMessage.other_fields m' = FileIdMessage.other_fields m) /\
        (FileIdMessage.manufacturer m <> Some 255 -> m' = m).
Proof.
  apply (@edit_fit_identity_record fit_profile fit_builder rides_env
           (Path.of_string "/rides/ride1.fit") None false "Sweet Spot"
           fresh_world
           (snd (edit_fit rides_env (Path.of_string "/rides/ride1.fit") None false
                   "Sweet Spot" fresh_world))
           (output_path (Path.of_string "/rides/ride1.fit") None)
           ride1_records); reflexivity.
Defined.

Lemma edit_fit_device_info_record_witness :
  exists out,
    modified_file ride1_records "" = Ok out /\
    snd (edit_fit rides_env (Path.of_string "/rides/ride1.fit") None true ""
           fresh_world) =
      after_edit true out (output_path (Path.of_string "/rides/ride1.fit") None)
        fresh_world /\
    forall i m, nth_error ride1_records i = Some (DeviceInfo m) ->
      exists m',
        nth_error out i = Some (DeviceInfo m') /\
        In (DeviceInfo m') (built_records out) /\
        ((DeviceInfoMessage.manufacturer m = Some 255 \/
          DeviceInfoMessage.manufacturer m = Some 0 \/
          DeviceInfoMessage.manufacturer m = Some 32) ->
         DeviceInfoMessage.garmin_product m' = Some 3122 /\
         DeviceInfoMessage.product m' = Some 3122 /\
         DeviceInfoMessage.manufacturer m' = Some 1 /\
         DeviceInfoMessage.other_fields m' = DeviceInfoMessage.other_fields m) /\
        (DeviceInfoMessage.manufacturer m <> Some 255 ->
         DeviceInfoMessage.manufacturer m <> Some 0 ->
         DeviceInfoMessage.manufacturer m <> Some 32 ->
         m' = m).
Proof.
  apply (@edit_fit_device_info_record fit_profile fit_builder rides_env
           (Path.of_string "/rides/ride1.fit") None true ""
           fresh_world
           (snd (edit_fit rides_env (Path.of_string "/rides/ride1.fit") None true
                   "" fresh_world))
           (output_path (Path.of_string "/rides/ride1.fit") None)
           ride1_records); reflexivity.
Defined.

(** The first ride with a workout name: the copied records get no
    definition record, the workout message gets one. *)
Lemma edit_fit_records_in_order_witness :
  exists copied,
    modified_file ride1_records "Sweet Spot" =
      Ok (copied ++ annotation "Sweet Spot")%list /\
    copied = ride1_modified_records /\
    built_records copied = copied /\
    auto_definition copied (workout_message "Sweet Spot") =
      Some (OtherMessage 26 []) /\
    built_records (copied ++ annotation "Sweet Spot") =
      (copied ++
       [OtherMessage 26 [];
        Workout (WorkoutMessage.mk (Some "Sweet Spot") (Some 2))])%list /\
    List.length (built_records (copied ++ annotation "Sweet Spot")) =
      S (S (List.length ride1_records)).
Proof.
  destruct (@edit_fit_records_in_order fit_profile fit_builder rides_env
              (Path.of_string "/rides/ride1.fit")
              (Some (Path.of_string "/tmp/out.fit")) false "Sweet Spot"
              fresh_world
              (snd (edit_fit rides_env (Path.of_string "/rides/ride1.fit")
                      (Some (Path.of_string "/tmp/out.fit")) false "Sweet Spot"
                      fresh_world))
              (Path.of_string "/tmp/out.fit")
              ride1_records ltac:(reflexivity) ltac:(vm_compute; reflexivity))
    as (copied & Hout & _ & _ & _ & _ & Hcount).
  exists copied. split; [exact Hout |].
  assert (Hc : copied = ride1_modified_records).
  { assert (Hm : Ok (ride1_modified_records ++ [workout_message "Sweet Spot"])%list =
                 Ok (copied ++ [workout_message "Sweet Spot"])%list)
      by exact Hout.
    assert (He : (ride1_modified_records ++ [workout_message "Sweet Spot"])%list =
                 (copied ++ [workout_message "Sweet Spot"])%list)
      by congruence.
    apply app_inj_tail in He as [He _]. now symmetry. }
  split; [exact Hc |].
  assert (Hb : built_records copied = copied) by (rewrite Hc; reflexivity).
  split; [exact Hb |].
  assert (Hd : auto_definition copied (workout_message "Sweet Spot") =
               Some (OtherMessage 26 [])) by (rewrite Hc; reflexivity).
  split; [exact Hd |].
  exact (proj1 (proj2 (Hcount Hb) eq_refl) _ Hd).
Defined.

(** C3, as stated, fails: the first ride has eight records; with the
    workout name ["Sweet Spot"] the built file has ten, the eight of the
    input, the definition record that the builder puts before the workout
    message, and the workout record. *)
Lemma edit_fit_named_output_two_more_records :
  exists out,
    fst (edit_fit rides_env (Path.of_string "/rides/ride1.fit") None false
           "Sweet Spot" fresh_world) =
      Ok (Path.of_string "/rides/ride1_modified.fit") /\
    modified_file ride1_records "Sweet Spot" = Ok out /\
    List.length ride1_records = 8%nat /\
    List.length (built_records out) = 10%nat /\
    nth_error (built_records out) 8 = Some (OtherMessage 26 []) /\
    nth_error (built_records out) 9 =
      Some (Workout (WorkoutMessage.mk (Some "Sweet Spot") (Some 2))) /\
    List.length (built_records out) <> S (List.length ride1_records).
Proof.
  eexists. split; [reflexivity |]. split; [reflexivity |].
  vm_compute. repeat split. discriminate.
Qed.

(** ** Statements and what they leave untouched *)

Create HintDb keeps.

Section Keeps.
Variable dryrun : bool.

Lemma extends_refl (w : world) : extends dryrun w w.
Proof.
  split; [reflexivity |]. exists []. now rewrite app_nil_r.
Qed.

Lemma extends_trans (w1 w2 w3 : world) :
  extends dryrun w1 w2 -> extends dryrun w2 w3 -> extends dryrun w1 w3.
Proof.
  intros [Hl1 (l1 & Ht1 & Ha1)] [Hl2 (l2 & Ht2 & Ha2)]. split; [congruence |].
  exists (l1 ++ l2)%list. rewrite Ht2, Ht1, app_assoc. split; [reflexivity |].
  rewrite forallb_app, Ha1, Ha2. reflexivity.
Qed.

Lemma keeps_ret {A} (a : A) : keeps dryrun (ret a).
Proof. intros w. apply extends_refl. Qed.

Lemma keeps_raise {A} (e : exn) : keeps dryrun (@raise A e).
Proof. intros w. apply extends_refl. Qed.

Lemma keeps_lift {A} (o : outcome A) : keeps dryrun (lift o).
Proof. intros w. apply extends_refl. Qed.

Lemma keeps_bind {A B} (c : M A) (k : A -> M B) :
  keeps dryrun c -> (forall a, keeps dryrun (k a)) -> keeps dryrun (bind c k).
Proof.
  intros Hc Hk w. unfold bind. specialize (Hc w).
  destruct (c w) as [[a | e] w1]; simpl in *.
  - eapply extends_trans; [exact Hc | apply Hk].
  - exact Hc.
Qed.

Lemma keeps_emit (e : event) : allowed dryrun e = true -> keeps dryrun (emit e).
Proof.
  intros He w. split; [reflexivity |]. exists [e]. simpl. now rewrite He.
Qed.

Lemma keeps_if {A} (b : bool) (c1 c2 : M A) :
  keeps dryrun c1 -> keeps dryrun c2 -> keeps dryrun (if b then c1 else c2).
Proof. now destruct b. Qed.

End Keeps.

#[local] Hint Resolve keeps_ret keeps_raise keeps_lift keeps_emit keeps_if : keeps.
#[local] Hint Extern 2 (keeps _ (bind _ _)) => apply keeps_bind; [| intros ?] : keeps.

Section ProgramKeeps.
Context {P : Profile}.
Variable E : env.

Lemma keeps_FitFile_from_file (dryrun : bool) (fit_path : Path.t) :
  keeps dryrun (FitFile_from_file E fit_path).
Proof.
  unfold FitFile_from_file. destruct (from_file E _); auto with keeps.
Qed.

Lemma keeps_get_date_from_fit (dryrun : bool) (fit_path : Path.t) :
  keeps dryrun (get_date_from_fit E fit_path).
Proof.
  unfold get_date_from_fit. apply keeps_bind; [apply keeps_FitFile_from_file |].
  auto with keeps.
Qed.

Lemma keeps_get_name_from_intervals (dryrun : bool) (dt : option datetime) :
  keeps dryrun (get_name_from_intervals E dt).
Proof.
  unfold get_name_from_intervals.
  destruct (INTERVALS_ATHLETEID E), (INTERVALS_APIKEY E), dt; auto with keeps.
  apply keeps_bind; [| auto with keeps].
  apply keeps_emit. now destruct dryrun.
Qed.

Lemma keeps_to_file (content : list message) (output : Path.t) :
  keeps false (to_file content output).
Proof.
  intros w. split; [reflexivity |]. now exists [ToFile (Path.str output) content].
Qed.

Lemma keeps_edit_fit (dryrun : bool) (fit_path : Path.t) (output : option Path.t)
  (name : string) :
  keeps dryrun (edit_fit E fit_path output dryrun name).
Proof.
  unfold edit_fit. apply keeps_bind; [apply keeps_FitFile_from_file | intros records].
  apply keeps_bind; [auto with keeps | intros modified].
  apply keeps_bind; [| auto with keeps].
  destruct dryrun; simpl; [auto with keeps | apply keeps_to_file].
Qed.

Lemma keeps_garth_authenticate (dryrun : bool) : keeps dryrun (garth_authenticate E).
Proof.
  intros w. unfold garth_authenticate.
  destruct (garth_session w); [apply extends_refl |].
  match goal with |- context [emit (GarthLogin ?e ?p)] =>
    generalize e p; intros email password end.
  unfold bind, emit. destruct (garth_login E email password); simpl;
    (split; [reflexivity |]; exists [GarthLogin email password]; simpl;
     split; [reflexivity | now destruct dryrun]).
Qed.

Lemma keeps_open_rb (dryrun : bool) (fn : Path.t) : keeps dryrun (open_rb fn).
Proof.
  intros w. unfold open_rb. destruct (file_lookup _ _); apply extends_refl.
Qed.

Lemma keeps_modify_name (activity_id : Z) (name : string) :
  keeps false (modify_name activity_id name).
Proof. unfold modify_name. auto with keeps. Qed.

Lemma keeps_rename_matching (activities : list garmin_activity) (dt : datetime)
  (name : string) :
  keeps false (rename_matching activities dt name).
Proof.
  induction activities as [| activity activities IH]; simpl; [auto with keeps |].
  apply keeps_bind; [| intros _; exact IH].
  apply keeps_if; [apply keeps_modify_name | auto with keeps].
Qed.

Lemma keeps_find_and_set_garmin_activity_name (dt : datetime) (name : string) :
  keeps false (find_and_set_garmin_activity_name E dt name).
Proof.
  unfold find_and_set_garmin_activity_name.
  apply keeps_bind; [auto with keeps | intros _].
  apply keeps_bind; [auto with keeps | intros _].
  apply keeps_rename_matching.
Qed.

Lemma keeps_upload (dryrun : bool) (fn : Path.t) (original_path : option Path.t)
  (dt : option datetime) (name : string) :
  keeps dryrun (upload E fn original_path dryrun dt name).
Proof.
  unfold upload.
  apply keeps_bind; [apply keeps_garth_authenticate | intros _].
  apply keeps_bind; [apply keeps_open_rb | intros f].
  destruct dryrun; simpl; [auto with keeps |].
  apply keeps_bind; [auto with keeps | intros _].
  destruct (garth_client_upload E f) as [r | status].
  - apply keeps_bind; [| auto with keeps].
    destruct dt as [dt |]; [| auto with keeps].
    apply keeps_if; [apply keeps_find_and_set_garmin_activity_name | auto with keeps].
  - destruct (status =? 409); auto with keeps.
Qed.

Lemma keeps_process_file (dryrun : bool) (f : string) (fp : Path.t) :
  keeps dryrun (process_file E dryrun f fp).
Proof.
  unfold process_file.
  apply keeps_bind; [apply keeps_get_date_from_fit | intros dt].
  apply keeps_bind; [apply keeps_get_name_from_intervals | intros name].
  apply keeps_bind; [apply keeps_edit_fit | intros output].
  apply keeps_bind; [apply keeps_upload | auto with keeps].
Qed.

Lemma keeps_with_NamedTemporaryFile {A} (dryrun : bool) (body : Path.t -> M A) :
  (forall fp, keeps dryrun (body fp)) ->
  keeps dryrun (with_NamedTemporaryFile E body).
Proof.
  intros Hb w. unfold with_NamedTemporaryFile.
  match goal with |- context [body ?fp ?w1] =>
    specialize (Hb fp w1); destruct (body fp w1) as [r w2] end.
  exact Hb.
Qed.

Lemma keeps_upload_files (preinitialise dryrun : bool) (files : list string) :
  forall uploaded_files,
    keeps dryrun (upload_files E preinitialise dryrun files uploaded_files).
Proof.
  induction files as [| f files IH]; intros uploaded_files; simpl;
    [auto with keeps |].
  apply keeps_bind; [| intros _; apply IH].
  apply keeps_if; [| auto with keeps].
  apply keeps_with_NamedTemporaryFile. intros fp. apply keeps_process_file.
Qed.

(** When the loop returns, it returns the ledger followed by the files it
    went through. *)
Lemma upload_files_Ok (preinitialise dryrun : bool) (files : list string) :
  forall uploaded_files w uploaded_files' w',
    upload_files E preinitialise dryrun files uploaded_files w =
      (Ok uploaded_files', w') ->
    uploaded_files' = (uploaded_files ++ files)%list.
Proof.
  induction files as [| f files IH]; intros uploaded_files w uploaded_files' w' H;
    simpl in H.
  - inversion H. now rewrite app_nil_r.
  - unfold bind in H.
    match type of H with context [let (_, _) := ?c in _] =>
      destruct c as [[[] | e] w1] end; [| discriminate].
    apply IH in H. now rewrite H, <- app_assoc.
Qed.

End ProgramKeeps.

(** ** The ledger and the candidates *)

Lemma in_list_In (x : string) (l : list string) :
  Str.in_list x l = true <-> In x l.
Proof.
  induction l as [| y l IH]; simpl.
  - split; [discriminate | contradiction].
  - rewrite orb_true_iff, String.eqb_eq, IH. split; intros [H | H]; auto.
Qed.

Lemma filter_none {A} (f : A -> bool) (l : list A) :
  (forall x, In x l -> f x = false) -> filter f l = [].
Proof.
  induction l as [| x l IH]; simpl; intros H; [reflexivity |].
  rewrite (H x) by now left. apply IH. intros y Hy. apply H. now right.
Qed.

Section Ledger.
Variable E : env.

(** A candidate is not in the ledger and does not end with the reserved
    suffix. *)
Lemma candidates_In (uploaded_files : list string) (f : string) :
  In f (candidates E uploaded_files) ->
  Str.endswith f "_modified.fit" = false /\ ~ In f uploaded_files.
Proof.
  unfold candidates. rewrite !filter_In. intros [[_ Hm] Hu].
  apply negb_true_iff in Hm, Hu. split; [exact Hm |].
  intros Hin. apply in_list_In in Hin. congruence.
Qed.

(** Once the candidates are in the ledger, none is left. *)
Lemma candidates_recorded (uploaded_files : list string) :
  candidates E (uploaded_files ++ candidates E uploaded_files) = [].
Proof.
  unfold candidates at 1. apply filter_none. intros f Hf.
  apply negb_false_iff, in_list_In, in_or_app.
  destruct (Str.in_list f uploaded_files) eqn:Hu.
  - left. now apply in_list_In.
  - right. unfold candidates. apply filter_In. split; [exact Hf |].
    now rewrite Hu.
Qed.

End Ledger.

Section Idempotence.
Context {P : Profile}.
Variable E : env.

(** What a run that returns, out of a dry run, leaves in the ledger file. *)
Lemma upload_all_ledger (preinitialise : bool) (w w1 : world) :
  upload_all E preinitialise false w = (Ok tt, w1) ->
  ledger_file w1 = Some (loaded_ledger w ++ processed E w)%list.
Proof.
  unfold upload_all, bind, processed, loaded_ledger, load_uploaded_files.
  intros H.
  destruct (ledger_file w) as [l |] eqn:Hl.
  - destruct (candidates E l) as [| f files] eqn:Hc.
    + inversion H; subst. now rewrite app_nil_r.
    + destruct (upload_files E preinitialise false (f :: files) l w)
        as [[up | e] w2] eqn:Hu; [| discriminate].
      apply upload_files_Ok in Hu. subst up.
      simpl in H. inversion H. reflexivity.
  - destruct (candidates E []) as [| f files] eqn:Hc.
    + inversion H; subst. reflexivity.
    + match type of H with context [upload_files ?a ?b ?c ?d ?e ?w0] =>
        destruct (upload_files a b c d e w0) as [[up | e'] w2] eqn:Hu end;
        [| discriminate].
      apply upload_files_Ok in Hu. subst up.
      simpl in H. inversion H. reflexivity.
Qed.

(** A scan that finds the ledger file and no candidate does nothing. *)
Lemma upload_all_nothing (preinitialise dryrun : bool) (w : world) :
  ledger_file w <> None -> processed E w = [] ->
  upload_all E preinitialise dryrun w = (Ok tt, w).
Proof.
  unfold upload_all, bind, processed, loaded_ledger, load_uploaded_files.
  destruct (ledger_file w) as [l |]; [| congruence].
  intros _ ->. reflexivity.
Qed.

(** C4, as amended. When a first scan of a directory, not in dry-run mode,
    returns, every file it went through is in the ledger file it leaves,
    and a second scan of the unchanged directory (in any mode) finds no
    candidate: it returns at once and changes nothing. *)
Theorem upload_all_idempotent :
  forall (preinitialise : bool) (w w1 : world),
    upload_all E preinitialise false w = (Ok tt, w1) ->
    (forall f, In f (processed E w) ->
       exists l, ledger_file w1 = Some l /\ In f l) /\
    processed E w1 = [] /\
    (forall preinitialise' dryrun',
       upload_all E preinitialise' dryrun' w1 = (Ok tt, w1)).
Proof.
  intros preinitialise w w1 H.
  pose proof (upload_all_ledger _ _ _ H) as Hl.
  assert (Hp : processed E w1 = []).
  { unfold processed at 1, loaded_ledger. rewrite Hl.
    apply candidates_recorded. }
  split; [| split].
  - intros f Hf. eexists. split; [exact Hl |]. apply in_or_app. now right.
  - exact Hp.
  - intros preinitialise' dryrun'. apply upload_all_nothing; [| exact Hp].
    rewrite Hl. discriminate.
Qed.

End Idempotence.

Lemma upload_all_idempotent_witness :
  (forall f, In f (processed rides_env fresh_world) ->
     exists l,
       ledger_file (snd (upload_all rides_env false false fresh_world)) = Some l /\
       In f l) /\
  processed rides_env (snd (upload_all rides_env false false fresh_world)) = [] /\
  (forall preinitialise' dryrun',
     upload_all rides_env preinitialise' dryrun'
       (snd (upload_all rides_env false false fresh_world)) =
     (Ok tt, snd (upload_all rides_env false false fresh_world))).
Proof.
  apply (@upload_all_idempotent fit_profile rides_env false fresh_world
           (snd (upload_all rides_env false false fresh_world))).
  vm_compute. reflexivity.
Defined.

(** C4, as stated, fails in dry-run mode: the first scan returns, the
    ledger file it leaves is empty, and the second scan goes through the
    same two files again. *)
Lemma upload_all_dry_run_not_idempotent :
  fst (upload_all rides_env false true fresh_world) = Ok tt /\
  processed rides_env fresh_world = ["ride1.fit"; "RIDE2.FIT"] /\
  processed rides_env (snd (upload_all rides_env false true fresh_world)) =
    ["ride1.fit"; "RIDE2.FIT"].
Proof. vm_compute. repeat split. Qed.

(** ** The candidate list *)

Lemma append_assoc (a b c : string) : ((a ++ b) ++ c = a ++ (b ++ c))%string.
Proof. induction a as [| x a IH]; simpl; [reflexivity | now rewrite IH]. Qed.

Lemma startswith_append (p s : string) : Str.startswith (p ++ s) p = true.
Proof.
  induction p as [| a p IH]; simpl; [reflexivity |].
  now rewrite Ascii.eqb_refl, IH.
Qed.

Lemma replace_from_skip (old new p s : string) :
  Str.replace_from old new (String.length p) (p ++ s) =
  Str.replace_from old new O s.
Proof. induction p as [| a p IH]; simpl; [reflexivity | exact IH]. Qed.

Lemma replace_from_absent (old new s : string) :
  Str.contains s old = false -> Str.replace_from old new O s = s.
Proof.
  induction s as [| c s IH]; [reflexivity |].
  intros H. cbn [Str.contains] in H. apply orb_false_iff in H as [Hs Hc].
  cbn [Str.replace_from]. now rewrite Hs, IH.
Qed.

(** Removing a directory string from the front of a string in which it
    occurs nowhere else. *)
Lemma replace_prefix (d s : string) :
  Str.contains s d = false -> Str.replace (d ++ s) d "" = s.
Proof.
  intros H. unfold Str.replace.
  destruct d as [| a d].
  - destruct s; discriminate.
  - cbn [Str.is_empty append Str.replace_from].
    change (String a (d ++ s)) with (String a d ++ s)%string.
    rewrite startswith_append. cbn [String.length pred append].
    rewrite replace_from_skip. now apply replace_from_absent.
Qed.

Lemma join_slash_snoc (l : list string) (name : string) :
  l <> [] ->
  Str.join_slash (l ++ [name]) = (Str.join_slash l ++ "/" ++ name)%string.
Proof.
  induction l as [| x l IH]; [congruence |]. intros _.
  destruct l as [| y l].
  - reflexivity.
  - change (Str.join_slash ((x :: y :: l) ++ [name]))
      with (x ++ "/" ++ Str.join_slash ((y :: l) ++ [name]))%string.
    rewrite IH by discriminate.
    change (Str.join_slash (x :: y :: l))
      with (x ++ "/" ++ Str.join_slash (y :: l))%string.
    now rewrite !append_assoc.
Qed.

Lemma filter_filter {A} (f g : A -> bool) (l : list A) :
  filter f (filter g l) = filter (fun x => g x && f x) l.
Proof.
  induction l as [| x l IH]; simpl; [reflexivity |].
  destruct (g x); simpl; [destruct (f x) |]; now rewrite IH.
Qed.

Lemma map_filter_id {A} (h : A -> A) (g : A -> bool) (l : list A) :
  (forall x, In x l -> g x = true -> h x = x) ->
  map h (filter g l) = filter g l.
Proof.
  induction l as [| x l IH]; simpl; intros H; [reflexivity |].
  destruct (g x) eqn:Hg; simpl.
  - rewrite (H x) by auto. rewrite IH; [reflexivity |]. intros; apply H; auto.
  - apply IH. intros; apply H; auto.
Qed.

Section Candidates.
Variable E : env.

(** Line 302 on a child of the directory. *)
Lemma strip_dir_child (name : string) :
  plain_dir E = true -> plain_name E name = true ->
  strip_dir E (Path.str (Path.mk (Path.root (dir E)) (Path.parts (dir E) ++ [name])))
  = name.
Proof.
  unfold plain_dir, plain_name, strip_dir. intros Hd Hn.
  apply andb_prop in Hn as [Hn Hb]. apply andb_prop in Hn as [Hc Hs].
  apply negb_true_iff in Hc. apply String.eqb_eq in Hb, Hs.
  destruct (Path.parts (dir E)) as [| x l] eqn:Hp; [discriminate |].
  assert (Hstr : Path.str (dir E) = (Path.root (dir E) ++ Str.join_slash (x :: l))%string).
  { unfold Path.str. now rewrite Hp. }
  assert (Hchild : Path.str (Path.mk (Path.root (dir E)) ((x :: l) ++ [name]))
                   = (Path.str (dir E) ++ ("/" ++ name))%string).
  { rewrite Hstr. unfold Path.str. cbn [Path.parts Path.root].
    rewrite join_slash_snoc by discriminate.
    destruct ((x :: l) ++ [name])%list eqn:Hx; [discriminate |].
    now rewrite append_assoc. }
  rewrite Hchild, replace_prefix by exact Hc.
  assert (Hl : Str.strip "/" ("/" ++ name) = Str.strip "/" name) by reflexivity.
  now rewrite Hl, Hs, Hb.
Qed.

(** C5, as amended. For a directory with at least one component and
    entries on which line 302 gives the filename back (see [plain_name]),
    and for every ledger, the candidate list is exactly the entries of the
    directory whose name ends with [.fit] whatever the case, does not end
    with [_modified.fit] and is not in the ledger, in the order in which
    the directory lists them: the list is not sorted. *)
Theorem candidates_in_listing_order :
  forall uploaded_files : list string,
    plain_dir E = true ->
    plain_entries E = true ->
    candidates E uploaded_files =
      filter (fun name =>
                Str.endswith (Str.lower name) ".fit" &&
                negb (Str.endswith name "_modified.fit") &&
                negb (Str.in_list name uploaded_files))
             (entries E).
Proof.
  intros uploaded_files Hd He. unfold candidates, glob_fit.
  rewrite !map_map.
  rewrite map_filter_id.
  - rewrite !filter_filter. apply filter_ext. intros name.
    now rewrite andb_assoc.
  - intros name Hin Hg. apply strip_dir_child; [exact Hd |].
    unfold plain_entries in He. rewrite forallb_forall in He.
    specialize (He _ Hin). now rewrite Hg in He.
Qed.

End Candidates.

Lemma candidates_in_listing_order_witness :
  candidates rides_env ["RIDE2.FIT"] =
    filter (fun name =>
              Str.endswith (Str.lower name) ".fit" &&
              negb (Str.endswith name "_modified.fit") &&
              negb (Str.in_list name ["RIDE2.FIT"]))
           (entries rides_env).
Proof.
  apply (candidates_in_listing_order rides_env ["RIDE2.FIT"]); reflexivity.
Defined.

(** C5, as stated, fails: the candidates come in the order of the listing,
    here [ride2.fit] before [ride1.fit]. *)
Lemma candidates_not_sorted :
  candidates unsorted_env [] = ["ride2.fit"; "ride1.fit"] /\
  ~ Sorted str_le (candidates unsorted_env []).
Proof.
  split; [reflexivity |].
  change (candidates unsorted_env []) with ["ride2.fit"; "ride1.fit"].
  intros H. inversion H as [| a l Hs Hh]; subst.
  inversion Hh as [| b l' Hle]; subst.
  unfold str_le in Hle. vm_compute in Hle. discriminate.
Qed.

(** Outside the plain directories line 302 alters the names: for the
    directory ["."] the children are listed without prefix and [replace]
    removes every dot. *)
Example candidates_current_directory :
  plain_dir current_dir_env = false /\
  map Path.str (glob_fit current_dir_env) = ["ride1.fit"; "ride1_modified.fit"] /\
  candidates current_dir_env [] = ["ride1fit"; "ride1_modifiedfit"].
Proof. vm_compute. repeat split. Qed.

(** ** The default output path *)

Lemma endswith_refl (s : string) : Str.endswith s s = true.
Proof. destruct s; cbn [Str.endswith]; now rewrite String.eqb_refl. Qed.

Lemma endswith_append (a b t : string) :
  Str.endswith b t = true -> Str.endswith (a ++ b) t = true.
Proof.
  intros H. induction a as [| c a IH]; simpl; [exact H |].
  rewrite IH. apply orb_true_r.
Qed.

Lemma split_slash_plain (t : string) :
  Str.mem "/" t = false ->
  forall cur, Str.split_slash cur t = [(cur ++ t)%string].
Proof.
  induction t as [| c t IH]; intros H cur.
  - cbn [Str.split_slash]. f_equal.
    induction cur as [| x cur IHc]; cbn [append]; [reflexivity | now rewrite <- IHc].
  - cbn [Str.mem] in H. apply orb_false_iff in H as [Hc Ht].
    cbn [Str.split_slash]. rewrite Ascii.eqb_sym, Hc, IH by exact Ht.
    now rewrite append_assoc.
Qed.

(** The last component of a string that ends with a plain [t] ends
    with [t]. *)
Lemma split_slash_append (t : string) :
  Str.mem "/" t = false ->
  forall a cur, exists l x,
    Str.split_slash cur (a ++ t) = (l ++ [(x ++ t)%string])%list.
Proof.
  intros Ht. induction a as [| c a IH]; intros cur.
  - exists [], cur. now apply split_slash_plain.
  - cbn [append Str.split_slash]. destruct (Ascii.eqb c "/").
    + destruct (IH EmptyString) as (l & x & ->). now exists (cur :: l), x.
    + apply IH.
Qed.

Lemma keep_part_modified (x : string) :
  Path.keep_part (x ++ "_modified.fit") = true.
Proof.
  destruct x as [| c x]; [reflexivity |].
  unfold Path.keep_part. cbn [append Str.is_empty negb andb String.eqb].
  destruct (Ascii.eqb c "."); [| reflexivity].
  destruct x; reflexivity.
Qed.

Lemma join_slash_last (l : list string) (y : string) :
  exists a, Str.join_slash (l ++ [y]) = (a ++ y)%string.
Proof.
  destruct l as [| x l].
  - now exists EmptyString.
  - exists (Str.join_slash (x :: l) ++ "/")%string.
    rewrite join_slash_snoc by discriminate. now rewrite append_assoc.
Qed.

(** The path of line 199: its components end with [stem + "_modified.fit"],
    whatever the stem. *)
Lemma default_output_parts (fit_path : Path.t) :
  exists l x,
    Path.parts (default_output fit_path) = (l ++ [(x ++ "_modified.fit")%string])%list.
Proof.
  unfold default_output, Path.joinpath, Path.join, Path.of_string.
  destruct (split_slash_append "_modified.fit" eq_refl (Path.stem fit_path) EmptyString)
    as (l & x & Hs).
  rewrite Hs, filter_app. cbn [filter]. rewrite keep_part_modified.
  cbn [Path.root Path.parts].
  destruct (Str.is_empty _); cbn [Path.parts].
  - exists (Path.parts (Path.parent fit_path) ++ filter Path.keep_part l)%list, x.
    now rewrite app_assoc.
  - now exists (filter Path.keep_part l), x.
Qed.

Lemma default_output_name (fit_path : Path.t) :
  Str.endswith (Path.name (default_output fit_path)) "_modified.fit" = true.
Proof.
  destruct (default_output_parts fit_path) as (l & x & H).
  unfold Path.name. rewrite H, last_last.
  apply endswith_append, endswith_refl.
Qed.

Lemma default_output_str (fit_path : Path.t) :
  Str.endswith (Path.str (default_output fit_path)) "_modified.fit" = true.
Proof.
  destruct (default_output_parts fit_path) as (l & x & H).
  unfold Path.str. rewrite H.
  destruct (l ++ [_])%list eqn:Hl; [now destruct l |]. rewrite <- Hl.
  destruct (join_slash_last l (x ++ "_modified.fit")) as [a ->].
  apply endswith_append, endswith_append, endswith_append, endswith_refl.
Qed.

Section DefaultOutput.
Context {P : Profile}.


End DefaultOutput.


(** ** The naming-service lookup *)

Section Lookup.
Context {P : Profile}.
Variable E : env.

(** Without one of the two credentials the lookup gives the empty string
    and calls nothing, whatever the timestamp. *)
Lemma get_name_from_intervals_no_credentials (dt : option datetime) (w : world) :
  INTERVALS_ATHLETEID E = None \/ INTERVALS_APIKEY E = None ->
  get_name_from_intervals E dt w = (Ok "", w).
Proof.
  unfold get_name_from_intervals. intros [H | H]; rewrite H.
  - reflexivity.
  - now destruct (INTERVALS_ATHLETEID E).
Qed.

(** With a timestamp, a day without matching activity gives the empty
    string. *)
Lemma search_intervals_no_match (activities : list intervals_activity) (dt : datetime) :
  (forall a, In a activities ->
     oauth_client_name a <> "Training Peaks Virtual" \/
     15 * 1000000 < Z.abs (start_date a - dt)) ->
  search_intervals activities dt = "".
Proof.
  induction activities as [| a activities IH]; simpl; intros H; [reflexivity |].
  destruct (H a (or_introl eq_refl)) as [Hn | Hd].
  - apply String.eqb_neq in Hn. rewrite Hn. simpl. apply IH. auto.
  - apply Z.leb_gt in Hd. rewrite Hd, andb_false_r. apply IH. auto.
Qed.

Lemma get_name_from_intervals_returns (dt : datetime) (w : world) :
  exists name w',
    get_name_from_intervals E (Some dt) w = (Ok name, w') /\
    files w' = files w /\ garth_session w' = garth_session w /\
    tmp_count w' = tmp_count w.
Proof.
  unfold get_name_from_intervals.
  destruct (INTERVALS_ATHLETEID E), (INTERVALS_APIKEY E);
    (do 2 eexists; split; [reflexivity | repeat split]).
Qed.

(** With both credentials and no timestamp the lookup raises, before any
    call to the naming service. *)
Lemma get_name_from_intervals_no_timestamp (w : world) :
  INTERVALS_ATHLETEID E <> None -> INTERVALS_APIKEY E <> None ->
  get_name_from_intervals E None w = (Raise AttributeError, w).
Proof.
  unfold get_name_from_intervals.
  destruct (INTERVALS_ATHLETEID E), (INTERVALS_APIKEY E); intros H1 H2;
    try congruence; reflexivity.
Qed.

Lemma first_file_id_date_returns (records : list message) :
  forallb has_time_created records = true ->
  exists dt, first_file_id_date records = Ok dt /\
             (dt = None -> has_file_id records = false).
Proof.
  induction records as [| msg records IH]; simpl; intros H.
  - eauto.
  - apply andb_prop in H as [Hm Hr]. destruct (IH Hr) as (dt & Hdt & Hn).
    destruct msg as [m | m | m | gid c]; simpl in *.
    + rewrite Z.eqb_refl. destruct (FileIdMessage.time_created m); [| discriminate].
      simpl. eexists. split; [reflexivity | discriminate].
    + destruct (_ =? _); eauto.
    + destruct (_ =? _); eauto.
    + destruct (_ =? _); eauto.
Qed.

End Lookup.

(** C9, at the failing input: both credentials of the naming service are
    set and the file has no identity record. The extraction returns no
    timestamp, the lookup raises on it, and the scan of the directory
    stops there with the error. *)
Lemma get_name_from_intervals_raises_without_timestamp :
  processed lookup_env fresh_world = ["ride1.fit"; "nofileid.fit"] /\
  get_date_from_fit lookup_env (Path.of_string "/rides/nofileid.fit") fresh_world =
    (Ok None, fresh_world) /\
  get_name_from_intervals lookup_env None fresh_world =
    (Raise AttributeError, fresh_world) /\
  fst (upload_all lookup_env false false fresh_world) = Raise AttributeError.
Proof. vm_compute. repeat split. Qed.

(** ** A file that does not decode *)

Section DecodeFailure.
Context {P : Profile}.
Variable E : env.

Lemma upload_files_app (preinitialise dryrun : bool) (before after : list string) :
  forall uploaded_files w,
    upload_files E preinitialise dryrun (before ++ after) uploaded_files w =
    match upload_files E preinitialise dryrun before uploaded_files w with
    | (Ok uploaded_files', w') =>
        upload_files E preinitialise dryrun after uploaded_files' w'
    | (Raise e, w') => (Raise e, w')
    end.
Proof.
  induction before as [| f before IH]; intros uploaded_files w; [reflexivity |].
  cbn [app upload_files]. unfold bind.
  destruct ((if negb preinitialise
             then with_NamedTemporaryFile E (process_file E dryrun f)
             else ret tt) w) as [[[] | e] w1];
    [apply IH | reflexivity].
Qed.

Lemma load_uploaded_files_loaded (w : world) :
  load_uploaded_files w = (Ok (loaded_ledger w), snd (load_uploaded_files w)) /\
  ledger_file (snd (load_uploaded_files w)) = Some (loaded_ledger w).
Proof.
  unfold load_uploaded_files, loaded_ledger.
  destruct (ledger_file w) eqn:Hl; simpl; auto.
Qed.

(** The block of a file that does not decode raises at once. *)
Lemma process_file_decode_failure (dryrun : bool) (f : string) (w : world) :
  from_file E (Path.str (Path.joinpath (dir E) f)) = None ->
  exists w',
    with_NamedTemporaryFile E (process_file E dryrun f) w =
      (Raise MalformedFileError, w') /\
    trace w' = trace w /\ ledger_file w' = ledger_file w.
Proof.
  intros H.
  unfold with_NamedTemporaryFile, process_file, bind, get_date_from_fit,
    FitFile_from_file.
  rewrite H. cbn. eexists. split; [reflexivity |]. split; reflexivity.
Qed.

(** C6, as amended. In a scan (not in pre-initialise mode) that reaches a
    candidate [f] whose decoding fails, the error is not caught: it leaves
    [upload_all] and ends the run. Nothing is done after the failure (the
    candidates after [f] are not processed), and the ledger file holds
    what the scan loaded: neither [f] nor the files processed before it
    are recorded. *)
Theorem upload_all_decode_failure :
  forall (dryrun : bool) (w : world) (before : list string) (f : string)
         (after uploaded_files' : list string) (w1 : world),
    processed E w = (before ++ f :: after)%list ->
    upload_files E false dryrun before (loaded_ledger w)
      (snd (load_uploaded_files w)) = (Ok uploaded_files', w1) ->
    from_file E (Path.str (Path.joinpath (dir E) f)) = None ->
    exists w2,
      upload_all E false dryrun w = (Raise MalformedFileError, w2) /\
      trace w2 = trace w1 /\
      ledger_file w2 = Some (loaded_ledger w).
Proof.
  intros dryrun w before f after uploaded_files' w1 Hp Hb Hf.
  destruct (load_uploaded_files_loaded w) as [Hload Hledger].
  destruct (process_file_decode_failure dryrun f w1 Hf) as (w2 & Hw2 & Ht & Hl).
  exists w2. split; [| split].
  - unfold upload_all, bind. rewrite Hload.
    unfold processed in Hp. rewrite Hp.
    destruct (before ++ f :: after)%list eqn:Hx;
      [now destruct before |]. rewrite <- Hx.
    rewrite upload_files_app, Hb. cbn [upload_files negb]. unfold bind.
    now rewrite Hw2.
  - exact Ht.
  - rewrite Hl.
    pose proof (keeps_upload_files E false dryrun before (loaded_ledger w)
                  (snd (load_uploaded_files w))) as [Hk _].
    rewrite Hb in Hk. simpl in Hk. now rewrite Hk.
Qed.

End DecodeFailure.

Lemma upload_all_decode_failure_witness :
  exists w2,
    upload_all broken_env false false fresh_world = (Raise MalformedFileError, w2) /\
    trace w2 = trace (snd (load_uploaded_files fresh_world)) /\
    ledger_file w2 = Some (loaded_ledger fresh_world).
Proof.
  apply (@upload_all_decode_failure fit_profile broken_env false fresh_world
           [] "broken.fit" ["ride1.fit"] (loaded_ledger fresh_world)
           (snd (load_uploaded_files fresh_world)));
    reflexivity.
Defined.

(** C6, as stated, fails: [broken.fit] does not decode, the run ends with
    the error and [ride1.fit], which decodes, is never processed: the
    only thing done is the creation of the empty ledger file. *)
Lemma upload_all_stops_at_decode_failure :
  processed broken_env fresh_world = ["broken.fit"; "ride1.fit"] /\
  from_file broken_env "/rides/ride1.fit" = Some ride1_records /\
  fst (upload_all broken_env false false fresh_world) = Raise MalformedFileError /\
  trace (snd (upload_all broken_env false false fresh_world)) = [LedgerWrite []].
Proof. vm_compute. repeat split. Qed.

(** ** Dry runs *)

Lemma allowed_dry_run (l : list event) :
  forallb (allowed true) l = true ->
  forallb quiet l = true /\ forallb (fun e => negb (writes_ledger e)) l = true.
Proof.
  induction l as [| e l IH]; simpl; [auto |].
  intros H. apply andb_prop in H as [He Hl]. destruct (IH Hl) as [Hq Hw].
  unfold allowed in He. apply andb_prop in He as [He1 He2]. simpl in He2.
  rewrite Hq, Hw, He1. unfold quiet.
  apply negb_true_iff, orb_false_iff in He2 as [-> ->]. auto.
Qed.

Section DryRun.
Context {P : Profile}.
Variable E : env.

(** What follows the loading of the ledger, in a dry run. *)
Lemma keeps_dry_scan (preinitialise : bool) (files uploaded_files : list string) :
  keeps true
    (match files with
     | [] => ret tt
     | _ =>
         bind (upload_files E preinitialise true files uploaded_files)
           (fun uploaded_files =>
              if negb true then flush_uploaded_files uploaded_files else ret tt)
     end).
Proof.
  destruct files as [| f files]; [apply keeps_ret |].
  apply keeps_bind; [apply keeps_upload_files | intros up; apply keeps_ret].
Qed.

(** A scan is the loading of the ledger followed by the rest. *)
Lemma upload_all_after_load (preinitialise dryrun : bool) (w : world) :
  upload_all E preinitialise dryrun w =
  match candidates E (loaded_ledger w) with
  | [] => ret tt
  | _ =>
      bind (upload_files E preinitialise dryrun (candidates E (loaded_ledger w))
              (loaded_ledger w))
        (fun uploaded_files =>
           if negb dryrun then flush_uploaded_files uploaded_files else ret tt)
  end (snd (load_uploaded_files w)).
Proof.
  unfold upload_all, bind, load_uploaded_files, loaded_ledger.
  destruct (ledger_file w); reflexivity.
Qed.

(** C7, as amended. In dry-run mode a scan, whether it returns or raises,
    writes no output activity file and makes no upload and no rename at
    the remote service (it may log in and query the naming service); when
    the ledger file exists the scan does not write it and leaves it as it
    is; and [edit_fit], on a file that decodes, changes nothing and
    returns the path the output would have been written to. *)
Theorem upload_all_dry_run :
  forall (preinitialise : bool) (w : world),
    (exists l,
       trace (snd (upload_all E preinitialise true w)) = (trace w ++ l)%list /\
       forallb quiet l = true /\
       (ledger_file w <> None ->
        forallb (fun e => negb (writes_ledger e)) l = true)) /\
    (forall uploaded_files,
       ledger_file w = Some uploaded_files ->
       ledger_file (snd (upload_all E preinitialise true w)) = Some uploaded_files) /\
    (forall fit_path output name w0 records,
       from_file E (Path.str fit_path) = Some records ->
       forallb has_time_created records = true ->
       edit_fit E fit_path output true name w0 =
         (Ok (output_path fit_path output), w0)).
Proof.
  intros preinitialise w. rewrite upload_all_after_load.
  destruct (keeps_dry_scan preinitialise (candidates E (loaded_ledger w))
              (loaded_ledger w) (snd (load_uploaded_files w)))
    as [Hk (l & Ht & Ha)].
  apply allowed_dry_run in Ha as [Hq Hw].
  split; [| split].
  - rewrite Ht. unfold load_uploaded_files.
    destruct (ledger_file w) as [up |] eqn:Hl; cbn [snd trace set_trace].
    + exists l. auto.
    + exists (LedgerWrite [] :: l). rewrite <- app_assoc.
      split; [reflexivity |]. split; [exact Hq | congruence].
  - intros up Hl. rewrite Hk. unfold load_uploaded_files. now rewrite Hl.
  - intros fit_path output name w0 records Hf Ht'.
    destruct (modified_file_returns records name Ht') as [out Hout].
    now rewrite (edit_fit_Ok E fit_path output true name w0 records out Hf Hout).
Qed.

End DryRun.

Lemma upload_all_dry_run_witness :
  (exists l,
     trace (snd (upload_all rides_env false true fresh_world)) =
       (trace fresh_world ++ l)%list /\
     forallb quiet l = true /\
     (ledger_file fresh_world <> None ->
      forallb (fun e => negb (writes_ledger e)) l = true)) /\
  (forall uploaded_files,
     ledger_file fresh_world = Some uploaded_files ->
     ledger_file (snd (upload_all rides_env false true fresh_world)) =
       Some uploaded_files) /\
  edit_fit rides_env (Path.of_string "/rides/ride1.fit") None true "Sweet Spot"
    fresh_world =
    (Ok (output_path (Path.of_string "/rides/ride1.fit") None), fresh_world).
Proof.
  destruct (@upload_all_dry_run fit_profile rides_env false fresh_world)
    as (H1 & H2 & H3).
  split; [exact H1 |]. split; [exact H2 |].
  apply (H3 (Path.of_string "/rides/ride1.fit") None "Sweet Spot" fresh_world
           ride1_records); reflexivity.
Defined.

(** C7, as stated, fails: in a dry run over a directory without ledger
    file, with the credentials of the naming service set and no stored
    session, the scan creates the ledger file, queries the naming service
    and logs in to the remote service. *)
Lemma upload_all_dry_run_calls_remote :
  ledger_file logged_out_world = None /\
  upload_all dry_env false true logged_out_world =
    (Ok tt,
     {| ledger_file := Some [];
        files := [];
        garth_session := true;
        tmp_count := 1;
        trace := [LedgerWrite [];
                  IntervalsActivitiesList 1700000000000000;
                  GarthLogin "rider@example.org" "secret"] |}) /\
  existsb remote_call (trace (snd (upload_all dry_env false true logged_out_world)))
    = true.
Proof. vm_compute. repeat split. Qed.

(** ** An upload answered with a conflict *)

Section Conflict.
Context {P : Profile}.
Variable E : env.

Lemma garth_authenticate_Ok (w : world) :
  authenticates E w ->
  exists w', garth_authenticate E w = (Ok tt, w') /\ files w' = files w.
Proof.
  intros Ha. unfold garth_authenticate.
  destruct (garth_session w) eqn:Hs; [eauto |].
  destruct Ha as [Ha | Ha]; [congruence |].
  unfold bind, emit. rewrite Ha. cbn. eauto.
Qed.

(** The upload of a file for which the remote service answers 409: the
    call is made, nothing is raised and [None] is returned. *)
Lemma upload_conflict (fn : Path.t) (original_path : option Path.t)
  (dt : option datetime) (name : string) (w : world) (content : list message) :
  authenticates E w ->
  file_lookup (Path.str fn) (files w) = Some content ->
  garth_client_upload E content = HTTPError 409 ->
  exists w',
    upload E fn original_path false dt name w = (Ok None, w') /\
    In (GarthUpload content) (trace w').
Proof.
  intros Ha Hf Hc. unfold upload.
  destruct (garth_authenticate_Ok w Ha) as (w1 & Hw1 & Hfiles).
  unfold bind at 1. rewrite Hw1.
  unfold bind at 1, open_rb. rewrite Hfiles, Hf.
  cbn [negb]. unfold bind, emit. rewrite Hc. cbn.
  eexists. split; [reflexivity |]. cbn. apply in_or_app. right. now left.
Qed.

(** The three first steps on a file that decodes. *)
Lemma process_file_steps (f : string) (fp : Path.t) (w : world)
  (records : list message) :
  from_file E (Path.str (Path.joinpath (dir E) f)) = Some records ->
  forallb has_time_created records = true ->
  lookup_safe E records = true ->
  exists dt name out w1 w2,
    get_date_from_fit E (Path.joinpath (dir E) f) w = (Ok dt, w) /\
    get_name_from_intervals E dt w = (Ok name, w1) /\
    modified_file records name = Ok out /\
    edit_fit E (Path.joinpath (dir E) f) (Some fp) false name w1 = (Ok fp, w2) /\
    files w2 = (Path.str fp, out) :: files w /\
    garth_session w2 = garth_session w.
Proof.
  intros Hf Ht Hs.
  destruct (first_file_id_date_returns records Ht) as (dt & Hdt & Hnone).
  assert (Hname : exists name w1,
             get_name_from_intervals E dt w = (Ok name, w1) /\
             files w1 = files w /\ garth_session w1 = garth_session w).
  { destruct dt as [d |].
    - destruct (get_name_from_intervals_returns E d w) as (name & w1 & H1 & H2 & H3 & _).
      eauto.
    - exists "", w. split; [| auto].
      apply get_name_from_intervals_no_credentials.
      unfold lookup_safe in Hs. rewrite (Hnone eq_refl) in Hs.
      destruct (INTERVALS_ATHLETEID E); [| now left].
      destruct (INTERVALS_APIKEY E); [discriminate | now right]. }
  destruct Hname as (name & w1 & Hn & Hfiles & Hsess).
  destruct (modified_file_returns records name Ht) as [out Hout].
  exists dt, name, out, w1, (after_edit false out fp w1).
  split; [| split; [| split; [| split; [| split]]]].
  - unfold get_date_from_fit, FitFile_from_file, bind, lift. rewrite Hf.
    unfold ret. now rewrite Hdt.
  - exact Hn.
  - exact Hout.
  - now rewrite (edit_fit_Ok E _ (Some fp) false name w1 records out Hf Hout).
  - cbn. now rewrite Hfiles.
  - cbn. exact Hsess.
Qed.

(** C8. In a scan that uploads, a candidate [f] that decodes and whose
    upload the remote service answers with a conflict (HTTP 409) is
    treated as a success: the upload is made, its block raises nothing,
    [f] is added to the ledger and the loop goes on with the remaining
    candidates; when the loop returns, [f] is in the ledger that is then
    written to the ledger file. *)
Theorem upload_conflict_is_success :
  forall (f : string) (rest uploaded_files : list string) (w : world)
         (records : list message),
    from_file E (Path.str (Path.joinpath (dir E) f)) = Some records ->
    forallb has_time_created records = true ->
    lookup_safe E records = true ->
    authenticates E w ->
    (forall name out,
       modified_file records name = Ok out ->
       garth_client_upload E out = HTTPError 409) ->
    exists w1,
      with_NamedTemporaryFile E (process_file E false f) w = (Ok tt, w1) /\
      (exists out, In (GarthUpload out) (trace w1) /\
                   garth_client_upload E out = HTTPError 409) /\
      upload_files E false false (f :: rest) uploaded_files w =
        upload_files E false false rest (uploaded_files ++ [f])%list w1 /\
      (forall uploaded_files' w2,
         upload_files E false false rest (uploaded_files ++ [f])%list w1 =
           (Ok uploaded_files', w2) ->
         In f uploaded_files' /\
         ledger_file (snd (flush_uploaded_files uploaded_files' w2)) =
           Some uploaded_files').
Proof.
  intros f rest uploaded_files w records Hf Ht Hs Ha Hc.
  pose (fp := tmp_name E (tmp_count w)).
  pose (w0 := set_tmp_count (S (tmp_count w))
                (set_files ((Path.str fp, []) :: files w) w)).
  destruct (process_file_steps f fp w0 records Hf Ht Hs)
    as (dt & name & out & w1 & w2 & Hdate & Hname & Hout & Hedit & Hfiles & Hsess).
  assert (Ha2 : authenticates E w2).
  { destruct Ha as [Ha | Ha]; [left | now right]. now rewrite Hsess. }
  assert (Hlook : file_lookup (Path.str fp) (files w2) = Some out).
  { rewrite Hfiles. cbn. now rewrite String.eqb_refl. }
  destruct (upload_conflict fp (Some (Path.of_string f)) dt name w2 out Ha2 Hlook
              (Hc _ _ Hout)) as (w3 & Hup & Hin).
  assert (Hbody : process_file E false f fp w0 = (Ok tt, w3)).
  { unfold process_file. unfold bind at 1. rewrite Hdate.
    unfold bind at 1. rewrite Hname.
    unfold bind at 1. rewrite Hedit.
    unfold bind at 1. rewrite Hup. reflexivity. }
  assert (Hblock : with_NamedTemporaryFile E (process_file E false f) w =
                   (Ok tt, set_files (file_delete (Path.str fp) (files w3)) w3)).
  { unfold with_NamedTemporaryFile. fold fp. fold w0. now rewrite Hbody. }
  eexists. split; [exact Hblock |]. split; [| split].
  - exists out. split; [exact Hin | eauto].
  - cbn [upload_files negb]. unfold bind at 1. now rewrite Hblock.
  - intros up' w4 Hrest. split; [| reflexivity].
    apply upload_files_Ok in Hrest. subst up'.
    apply in_or_app. left. apply in_or_app. right. now left.
Qed.

End Conflict.

Lemma upload_conflict_is_success_witness :
  exists w1,
    with_NamedTemporaryFile conflict_env (process_file conflict_env false "RIDE2.FIT")
      (snd (load_uploaded_files fresh_world)) = (Ok tt, w1) /\
    (exists out, In (GarthUpload out) (trace w1) /\
                 garth_client_upload conflict_env out = HTTPError 409) /\
    upload_files conflict_env false false ("RIDE2.FIT" :: ["ride1.fit"]) []
      (snd (load_uploaded_files fresh_world)) =
      upload_files conflict_env false false ["ride1.fit"] ([] ++ ["RIDE2.FIT"])%list w1 /\
    (forall uploaded_files' w2,
       upload_files conflict_env false false ["ride1.fit"] ([] ++ ["RIDE2.FIT"])%list w1 =
         (Ok uploaded_files', w2) ->
       In "RIDE2.FIT" uploaded_files' /\
       ledger_file (snd (flush_uploaded_files uploaded_files' w2)) =
         Some uploaded_files').
Proof.
  apply (@upload_conflict_is_success fit_profile conflict_env "RIDE2.FIT"
           ["ride1.fit"] [] (snd (load_uploaded_files fresh_world)) ride2_records).
  - reflexivity.
  - reflexivity.
  - reflexivity.
  - left. reflexivity.
  - intros name out _. reflexivity.
Defined.

(** The scenario of the specification: every upload of the batch is
    answered with a conflict, the run returns and the ledger file lists
    both files. *)
Lemma upload_all_conflicts_recorded :
  fst (upload_all conflict_env false false fresh_world) = Ok tt /\
  ledger_file (snd (upload_all conflict_env false false fresh_world)) =
    Some ["RIDE2.FIT"; "ride1.fit"].
Proof. vm_compute. split; reflexivity. Qed.

(** * Further properties *)

(** ** The record mutator and the metadata extractor *)

Section MutatorMore.
Context {P : Profile}.

(** An edited record is left as it is by a second edit. *)
Lemma edit_message_fixed (msg msg' : message) :
  edit_message msg = Ok msg' -> edit_message msg' = Ok msg'.
Proof.
  destruct msg as [m | m | m | gid c].
  - destruct m as [man prod [t |] other].
    + destruct (opt_eqb man Manufacturer_DEVELOPMENT) eqn:Hd.
      * apply opt_eqb_true in Hd. subst man.
        rewrite (edit_message_file_id_development (FileIdMessage.mk (Some Manufacturer_DEVELOPMENT) prod (Some t) other) t eq_refl eq_refl).
        cbn [FileIdMessage.time_created FileIdMessage.other_fields].
        intros [= <-].
        destruct (opt_eqb (Some Manufacturer_GARMIN) Manufacturer_DEVELOPMENT) eqn:Hg.
        -- apply opt_eqb_true in Hg.
           now rewrite (edit_message_file_id_development (FileIdMessage.mk (Some Manufacturer_GARMIN) (Some GarminProduct_EDGE_830) (Some t) other) t eq_refl Hg).
        -- apply (edit_message_file_id_other (FileIdMessage.mk (Some Manufacturer_GARMIN) (Some GarminProduct_EDGE_830) (Some t) other) t eq_refl).
           intros Hc. apply opt_eqb_true in Hc. cbn in Hc, Hg. congruence.
      * assert (Hn : FileIdMessage.manufacturer
                       (FileIdMessage.mk man prod (Some t) other)
                     <> Some Manufacturer_DEVELOPMENT).
        { intros Hc. apply opt_eqb_true in Hc. cbn in Hc. congruence. }
        rewrite (edit_message_file_id_other (FileIdMessage.mk man prod (Some t) other) t eq_refl Hn).
        intros [= <-]. apply (edit_message_file_id_other (FileIdMessage.mk man prod (Some t) other) t eq_refl Hn).
    + rewrite (edit_message_raises (FileId _)) by reflexivity. discriminate.
  - rewrite edit_message_device_info. intros [= <-].
    destruct (_ || _) eqn:Hb.
    + rewrite edit_message_device_info. cbn [DeviceInfoMessage.manufacturer
        DeviceInfoMessage.other_fields].
      match goal with |- context [if ?b then _ else _] => now destruct b end.
    + rewrite edit_message_device_info. now rewrite Hb.
  - rewrite edit_message_other by exact I. intros [= <-].
    now apply edit_message_other.
  - rewrite edit_message_other by exact I. intros [= <-].
    now apply edit_message_other.
Qed.

Lemma edit_records_fixed (l : list message) :
  Forall (fun msg => edit_message msg = Ok msg) l ->
  forall builder, edit_records l builder = Ok (builder ++ l)%list.
Proof.
  induction 1 as [| msg l Hm _ IH]; intros builder; simpl.
  - now rewrite app_nil_r.
  - rewrite Hm. simpl. rewrite IH. now rewrite <- app_assoc.
Qed.

(** X1. The mutator changes nothing in a file it has already rewritten:
    on the records that [edit_fit] built (with any workout name), a second
    pass without workout name builds the same records. *)
Theorem modified_file_idempotent :
  forall (records : list message) (name : string) (out : list message),
    modified_file records name = Ok out ->
    modified_file out "" = Ok out.
Proof.
  intros records name out H.
  apply modified_file_Ok in H as (l & -> & Hl).
  unfold modified_file. rewrite edit_records_fixed; [reflexivity |].
  apply Forall_app. split.
  - clear name. induction Hl as [| msg msg' records l Hm _ IH]; constructor;
      [eapply edit_message_fixed; eauto | exact IH].
  - unfold annotation. destruct (Str.is_empty name); constructor; [| constructor].
    now apply edit_message_other.
Qed.

(** X2. When the Garmin code differs from the development code, zero and
    the Wahoo code, the file that [edit_fit] builds holds no identity
    record with the development manufacturer and no device info record
    with one of the three replaced manufacturers. *)
Theorem modified_file_no_replaced_manufacturer :
  forall (records : list message) (name : string) (out : list message),
    Manufacturer_GARMIN <> Manufacturer_DEVELOPMENT ->
    Manufacturer_GARMIN <> 0 ->
    Manufacturer_GARMIN <> Manufacturer_WAHOO_FITNESS ->
    modified_file records name = Ok out ->
    forall msg, In msg out ->
      match msg with
      | FileId m => FileIdMessage.manufacturer m <> Some Manufacturer_DEVELOPMENT
      | DeviceInfo m => replaced_manufacturer (DeviceInfoMessage.manufacturer m) = false
      | _ => True
      end.
Proof.
  intros records name out Hd H0 Hw H msg Hin.
  apply modified_file_Ok in H as (l & -> & Hl).
  apply in_app_or in Hin as [Hin | Hin].
  - apply In_nth_error in Hin as [i Hi].
    assert (Hsrc : exists src, edit_message src = Ok msg).
    { clear - Hl Hi. revert i Hi.
      induction Hl as [| a b la lb Hab _ IH]; intros [| i] Hi; simpl in Hi;
        try discriminate.
      - injection Hi as <-. eauto.
      - eauto. }
    destruct Hsrc as [src Hsrc].
    destruct src as [m | m | m | gid c].
    + destruct m as [man prod [t |] other].
      * destruct (opt_eqb man Manufacturer_DEVELOPMENT) eqn:Hm.
        -- apply opt_eqb_true in Hm. subst man.
           rewrite (edit_message_file_id_development (FileIdMessage.mk (Some Manufacturer_DEVELOPMENT) prod (Some t) other) t eq_refl eq_refl) in Hsrc.
           injection Hsrc as <-. cbn. congruence.
        -- assert (Hn : FileIdMessage.manufacturer
                          (FileIdMessage.mk man prod (Some t) other)
                        <> Some Manufacturer_DEVELOPMENT).
           { intros Hc. apply opt_eqb_true in Hc. cbn in Hc. congruence. }
           rewrite (edit_message_file_id_other (FileIdMessage.mk man prod (Some t) other) t eq_refl Hn) in Hsrc.
           injection Hsrc as <-. exact Hn.
      * rewrite (edit_message_raises (FileId _)) in Hsrc by reflexivity.
        discriminate.
    + rewrite edit_message_device_info in Hsrc. injection Hsrc as <-.
      fold (replaced_manufacturer (DeviceInfoMessage.manufacturer m)).
      destruct (replaced_manufacturer (DeviceInfoMessage.manufacturer m)) eqn:Hr;
        [| exact Hr].
      unfold replaced_manufacturer. cbn.
      destruct (Z.eqb_spec Manufacturer_GARMIN Manufacturer_DEVELOPMENT); [tauto |].
      destruct (Z.eqb_spec Manufacturer_GARMIN 0); [tauto |].
      destruct (Z.eqb_spec Manufacturer_GARMIN Manufacturer_WAHOO_FITNESS); tauto.
    + rewrite edit_message_other in Hsrc by exact I. now injection Hsrc as <-.
    + rewrite edit_message_other in Hsrc by exact I. now injection Hsrc as <-.
  - unfold annotation in Hin. destruct (Str.is_empty name); [contradiction |].
    destruct Hin as [<- | []]. exact I.
Qed.

(** An edit keeps what the extractor reads of a record. *)
Lemma edit_message_date (msg msg' : message) :
  edit_message msg = Ok msg' ->
  forall rest rest',
    first_file_id_date rest' = first_file_id_date rest ->
    first_file_id_date (msg' :: rest') = first_file_id_date (msg :: rest).
Proof.
  intros H rest rest' Hr.
  destruct msg as [m | m | m | gid c].
  - destruct m as [man prod [t |] other].
    + destruct (opt_eqb man Manufacturer_DEVELOPMENT) eqn:Hd.
      * apply opt_eqb_true in Hd. subst man.
        rewrite (edit_message_file_id_development (FileIdMessage.mk (Some Manufacturer_DEVELOPMENT) prod (Some t) other) t eq_refl eq_refl) in H.
        injection H as <-. cbn. now rewrite !Z.eqb_refl.
      * rewrite (edit_message_file_id_other
                   (FileIdMessage.mk man prod (Some t) other) t eq_refl) in H.
        -- injection H as <-. cbn. now rewrite !Z.eqb_refl.
        -- intros Hc. apply opt_eqb_true in Hc. cbn in Hc. congruence.
    + rewrite (edit_message_raises (FileId _)) in H by reflexivity. discriminate.
  - rewrite edit_message_device_info in H. injection H as <-.
    destruct (_ || _); cbn; destruct (_ =? _); exact Hr.
  - rewrite edit_message_other in H by exact I. injection H as <-.
    cbn. destruct (_ =? _); exact Hr.
  - rewrite edit_message_other in H by exact I. injection H as <-.
    cbn. destruct (_ =? _); exact Hr.
Qed.

Lemma modified_file_date (records : list message) (name : string)
  (out : list message) :
  modified_file records name = Ok out ->
  first_file_id_date out = first_file_id_date records.
Proof.
  intros H. apply modified_file_Ok in H as (l & -> & Hl).
  induction Hl as [| msg msg' records l Hm _ IH].
  - unfold annotation. destruct (Str.is_empty name); [reflexivity |].
    cbn. now destruct (_ =? _).
  - cbn [app]. now apply edit_message_date.
Qed.

End MutatorMore.

Lemma modified_file_idempotent_witness :
  modified_file ride1_modified_records "" = Ok ride1_modified_records.
Proof.
  apply (@modified_file_idempotent fit_profile ride1_records ""
           ride1_modified_records).
  reflexivity.
Defined.

Lemma modified_file_no_replaced_manufacturer_witness :
  modified_file ride1_records "" = Ok ride1_modified_records /\
  replaced_manufacturer (Some 1) = false.
Proof.
  split; [reflexivity |].
  apply (@modified_file_no_replaced_manufacturer fit_profile ride1_records ""
           ride1_modified_records
           ltac:(cbn; lia) ltac:(cbn; lia) ltac:(cbn; lia) eq_refl
           (DeviceInfo (DeviceInfoMessage.mk (Some 1) (Some 3122) (Some 3122) [Some 0]))).
  cbn. tauto.
Defined.

Section ExtractorMore.
Context {P : Profile}.
Variable E : env.

Lemma first_file_id_date_none (records : list message) :
  has_file_id records = false -> first_file_id_date records = Ok None.
Proof.
  induction records as [| msg records IH]; simpl; [reflexivity |].
  destruct msg; simpl; try discriminate; intros H;
    destruct (_ =? _); auto.
Qed.

Lemma first_file_id_date_first (before after : list message) (m : FileIdMessage.t) :
  has_file_id before = false ->
  first_file_id_date (before ++ FileId m :: after) =
  obind (fromtimestamp_ms (FileIdMessage.time_created m)) (fun dt => Ok (Some dt)).
Proof.
  induction before as [| msg before IH]; simpl.
  - intros _. now rewrite Z.eqb_refl.
  - destruct msg; simpl; try discriminate; intros H;
      destruct (_ =? _); auto.
Qed.

(** X3. The extractor reads from a file that [edit_fit] rewrote what it
    reads from the original: the same timestamp, the same absence of
    timestamp, or the same error. *)
Theorem get_date_from_fit_after_edit :
  forall (fit_path rewritten : Path.t) (name : string)
         (records out : list message) (w : world),
    from_file E (Path.str fit_path) = Some records ->
    modified_file records name = Ok out ->
    from_file E (Path.str rewritten) = Some out ->
    get_date_from_fit E rewritten w = get_date_from_fit E fit_path w.
Proof.
  intros fit_path rewritten name records out w Hf Hm Hr.
  unfold get_date_from_fit, FitFile_from_file, bind, lift. rewrite Hf, Hr.
  unfold ret. now rewrite (modified_file_date _ _ _ Hm).
Qed.

(** X4. When the file cannot be read, or one of its identity records has
    no creation time, [edit_fit] raises, and it has written nothing and
    changed nothing. *)
Theorem edit_fit_raises_unchanged :
  forall (fit_path : Path.t) (output : option Path.t) (dryrun : bool)
         (name : string) (w : world),
    (from_file E (Path.str fit_path) = None \/
     exists records, from_file E (Path.str fit_path) = Some records /\
                     forallb has_time_created records = false) ->
    exists e, edit_fit E fit_path output dryrun name w = (Raise e, w).
Proof.
  intros fit_path output dryrun name w [Hf | (records & Hf & Ht)];
    unfold edit_fit, FitFile_from_file, bind, lift; rewrite Hf.
  - unfold raise. eauto.
  - unfold ret at 1. unfold modified_file.
    rewrite (edit_records_raises records Ht []). cbn. eauto.
Qed.

(** X5. The extractor reads the first identity record only: a file
    without identity record has no timestamp, and in a file with one the
    creation time of the first decides, a thousand microseconds for each
    millisecond, or the error when it has none, whatever follows. Nothing
    is changed. *)
Theorem get_date_from_fit_first_file_id :
  forall (fit_path : Path.t) (w : world),
    (forall records,
       from_file E (Path.str fit_path) = Some records ->
       has_file_id records = false ->
       get_date_from_fit E fit_path w = (Ok None, w)) /\
    (forall before m after,
       from_file E (Path.str fit_path) = Some (before ++ FileId m :: after)%list ->
       has_file_id before = false ->
       get_date_from_fit E fit_path w =
         (match FileIdMessage.time_created m with
          | Some t => Ok (Some (t * 1000))
          | None => Raise TypeError
          end, w)).
Proof.
  intros fit_path w. split.
  - intros records Hf Hn.
    unfold get_date_from_fit, FitFile_from_file, bind, lift. rewrite Hf.
    unfold ret. now rewrite first_file_id_date_none.
  - intros before m after Hf Hn.
    unfold get_date_from_fit, FitFile_from_file, bind, lift. rewrite Hf.
    unfold ret. rewrite first_file_id_date_first by exact Hn.
    now destruct (FileIdMessage.time_created m).
Qed.

(** X6. The extractor accepts every file that the mutator accepts: when
    [edit_fit] returns, [get_date_from_fit] on the same file returns
    too. *)
Theorem get_date_from_fit_returns_when_edit_fit_does :
  forall (fit_path : Path.t) (output : option Path.t) (dryrun : bool)
         (name : string) (w w' w0 : world) (o : Path.t),
    edit_fit E fit_path output dryrun name w = (Ok o, w') ->
    exists dt, get_date_from_fit E fit_path w0 = (Ok dt, w0).
Proof.
  intros fit_path output dryrun name w w' w0 o H.
  unfold edit_fit, FitFile_from_file, bind, lift in H.
  unfold get_date_from_fit, FitFile_from_file, bind, lift.
  destruct (from_file E (Path.str fit_path)) as [records |] eqn:Hf;
    [| discriminate].
  unfold ret at 1 in H. unfold ret.
  destruct (forallb has_time_created records) eqn:Ht.
  - destruct (first_file_id_date_returns records Ht) as (dt & -> & _). eauto.
  - unfold modified_file in H.
    rewrite (edit_records_raises records Ht []) in H. discriminate.
Qed.

End ExtractorMore.

Lemma get_date_from_fit_after_edit_witness :
  get_date_from_fit rewritten_env (Path.of_string "/rides/ride1_modified.fit")
    fresh_world =
  get_date_from_fit rewritten_env (Path.of_string "/rides/ride1.fit") fresh_world.
Proof.
  apply (@get_date_from_fit_after_edit fit_profile rewritten_env
           (Path.of_string "/rides/ride1.fit")
           (Path.of_string "/rides/ride1_modified.fit") ""
           ride1_records ride1_modified_records fresh_world); reflexivity.
Defined.

Lemma edit_fit_raises_unchanged_witness :
  exists e,
    edit_fit two_file_ids_env (Path.of_string "/rides/double.fit") None false ""
      fresh_world = (Raise e, fresh_world).
Proof.
  apply (@edit_fit_raises_unchanged fit_profile two_file_ids_env
           (Path.of_string "/rides/double.fit") None false "" fresh_world).
  right. exists two_file_ids_records. split; reflexivity.
Defined.

Lemma get_date_from_fit_first_file_id_witness :
  get_date_from_fit two_file_ids_env (Path.of_string "/rides/double.fit")
    fresh_world = (Ok (Some 1700000000000000), fresh_world).
Proof.
  apply (proj2 (@get_date_from_fit_first_file_id fit_profile two_file_ids_env
                  (Path.of_string "/rides/double.fit") fresh_world)
           [OtherMessage 0 [0; 5]] file_id_development
           [FileId (FileIdMessage.mk (Some 255) (Some 0) None [])]);
    reflexivity.
Defined.

Lemma get_date_from_fit_returns_when_edit_fit_does_witness :
  exists dt,
    get_date_from_fit rides_env (Path.of_string "/rides/ride1.fit") fresh_world =
    (Ok dt, fresh_world).
Proof.
  apply (@get_date_from_fit_returns_when_edit_fit_does fit_profile rides_env
           (Path.of_string "/rides/ride1.fit") None true "" fresh_world
           fresh_world fresh_world
           (default_output (Path.of_string "/rides/ride1.fit"))).
  reflexivity.
Defined.

(** ** The naming-service lookup and the rename *)

Lemma set_trace_set_trace (t1 t2 : list event) (w : world) :
  set_trace t2 (set_trace t1 w) = set_trace t2 w.
Proof. reflexivity. Qed.

Lemma set_trace_same (w : world) : set_trace (trace w) w = w.
Proof. now destruct w. Qed.

Section LookupMore.
Variable E : env.

Lemma search_intervals_first (dt : datetime) (before after : list intervals_activity)
  (a : intervals_activity) :
  forallb (fun x => negb (lookup_match dt x)) before = true ->
  lookup_match dt a = true ->
  search_intervals (before ++ a :: after) dt = activity_name a.
Proof.
  unfold lookup_match. intros Hb Ha.
  induction before as [| x before IH]; simpl in *.
  - now rewrite Ha.
  - apply andb_prop in Hb as [Hx Hb]. apply negb_true_iff in Hx.
    rewrite Hx. now apply IH.
Qed.

Lemma search_intervals_none (dt : datetime) (activities : list intervals_activity) :
  forallb (fun x => negb (lookup_match dt x)) activities = true ->
  search_intervals activities dt = "".
Proof.
  unfold lookup_match. intros Hb.
  induction activities as [| x activities IH]; simpl in *; [reflexivity |].
  apply andb_prop in Hb as [Hx Hb]. apply negb_true_iff in Hx.
  rewrite Hx. now apply IH.
Qed.

(** Without one of the two credentials of the naming service the
    lookup is switched off: for every timestamp, also a missing one, it
    returns the empty string, calls nothing and changes nothing. *)
Theorem get_name_from_intervals_switched_off :
  forall (dt : option datetime) (w : world),
    INTERVALS_ATHLETEID E = None \/ INTERVALS_APIKEY E = None ->
    get_name_from_intervals E dt w = (Ok "", w).
Proof.
  intros dt w H. now apply get_name_from_intervals_no_credentials.
Qed.

(** X7. With both credentials and a timestamp, the lookup makes one call
    to the naming service and returns the name of the first activity of
    the day that the simulator uploaded and that starts at most fifteen
    seconds before or after the timestamp; the activities listed before
    it that do not pass this test are skipped. *)
Theorem get_name_from_intervals_first_match :
  forall (dt : datetime) (w : world) (before after : list intervals_activity)
         (a : intervals_activity),
    INTERVALS_ATHLETEID E <> None ->
    INTERVALS_APIKEY E <> None ->
    activities_list E dt = (before ++ a :: after)%list ->
    forallb (fun x => negb (lookup_match dt x)) before = true ->
    lookup_match dt a = true ->
    get_name_from_intervals E (Some dt) w =
      (Ok (activity_name a),
       set_trace (trace w ++ [IntervalsActivitiesList dt])%list w).
Proof.
  intros dt w before after a Hid Hkey Hl Hb Ha.
  unfold get_name_from_intervals.
  destruct (INTERVALS_ATHLETEID E); [| congruence].
  destruct (INTERVALS_APIKEY E); [| congruence].
  unfold bind, emit, ret. rewrite Hl.
  now rewrite (search_intervals_first dt before after a Hb Ha).
Qed.

(** X8. With both credentials and a timestamp, when no activity of the
    day passes the test, the lookup returns the empty string after its
    one call. *)
Theorem get_name_from_intervals_no_match :
  forall (dt : datetime) (w : world),
    INTERVALS_ATHLETEID E <> None ->
    INTERVALS_APIKEY E <> None ->
    forallb (fun x => negb (lookup_match dt x)) (activities_list E dt) = true ->
    get_name_from_intervals E (Some dt) w =
      (Ok "", set_trace (trace w ++ [IntervalsActivitiesList dt])%list w).
Proof.
  intros dt w Hid Hkey Hb.
  unfold get_name_from_intervals.
  destruct (INTERVALS_ATHLETEID E); [| congruence].
  destruct (INTERVALS_APIKEY E); [| congruence].
  unfold bind, emit, ret. now rewrite (search_intervals_none dt _ Hb).
Qed.

Lemma rename_matching_trace (activities : list garmin_activity) (dt : datetime)
  (name : string) :
  forall w,
    rename_matching activities dt name w =
      (Ok tt,
       set_trace (trace w ++
                  flat_map (rename_events name) (filter (rename_match dt) activities))%list
         w).
Proof.
  induction activities as [| a activities IH]; intros w.
  - cbn. now rewrite app_nil_r, set_trace_same.
  - cbn [rename_matching filter]. unfold bind.
    fold (rename_match dt a). destruct (rename_match dt a).
    + unfold modify_name, bind, emit. cbn [flat_map]. rewrite IH.
      cbn [trace set_trace]. rewrite set_trace_set_trace.
      unfold rename_events at 2. now rewrite <- !app_assoc.
    + unfold ret. apply IH.
Qed.

Lemma find_and_set_events (dt : datetime) (name : string) (w : world) :
  find_and_set_garmin_activity_name E dt name w =
    (Ok tt,
     set_trace
       (trace w ++
        [GarminLogin; GarminGetActivitiesByDate dt] ++
        flat_map (rename_events name)
          (filter (rename_match dt) (get_activities_by_date E dt)))%list
       w).
Proof.
  unfold find_and_set_garmin_activity_name, bind, emit.
  rewrite rename_matching_trace. cbn [trace set_trace].
  rewrite !set_trace_set_trace. now rewrite <- !app_assoc.
Qed.

(** X9. The rename logs in, asks for the activities of the timestamp
    and then, in the order of the answer, logs in again and renames each
    activity that starts less than ten seconds before or after the
    timestamp: every such activity is renamed, not only the first, and no
    other; it changes nothing else. *)
Theorem find_and_set_garmin_activity_name_renames_all :
  forall (dt : datetime) (name : string) (w : world),
    find_and_set_garmin_activity_name E dt name w =
      (Ok tt,
       set_trace
         (trace w ++
          [GarminLogin; GarminGetActivitiesByDate dt] ++
          flat_map (rename_events name)
            (filter (rename_match dt) (get_activities_by_date E dt)))%list
         w).
Proof. intros dt name w. apply find_and_set_events. Qed.

End LookupMore.

Lemma get_name_from_intervals_switched_off_witness :
  get_name_from_intervals rides_env None fresh_world = (Ok "", fresh_world).
Proof.
  apply (get_name_from_intervals_switched_off rides_env None fresh_world).
  left. reflexivity.
Defined.

Lemma get_name_from_intervals_first_match_witness :
  get_name_from_intervals rename_env (Some 1700000000000000) fresh_world =
    (Ok "Threshold",
     set_trace (trace fresh_world ++ [IntervalsActivitiesList 1700000000000000])%list
       fresh_world).
Proof.
  apply (get_name_from_intervals_first_match rename_env 1700000000000000
           fresh_world [other_client] [sweet_spot] fifteen_seconds_later);
    try discriminate; reflexivity.
Defined.

Lemma get_name_from_intervals_no_match_witness :
  get_name_from_intervals rename_env (Some 1700000100000000) fresh_world =
    (Ok "",
     set_trace (trace fresh_world ++ [IntervalsActivitiesList 1700000100000000])%list
       fresh_world).
Proof.
  apply (get_name_from_intervals_no_match rename_env 1700000100000000 fresh_world);
    try discriminate; reflexivity.
Defined.

(** ** The uploader *)

Section UploadMore.
Variable E : env.

(** The first part of [upload] when it goes through: at most a login is
    added to the trace, and a session is stored afterwards. *)
Lemma garth_authenticate_trace (w : world) :
  authenticates E w ->
  exists w1 l,
    garth_authenticate E w = (Ok tt, w1) /\
    files w1 = files w /\ ledger_file w1 = ledger_file w /\
    tmp_count w1 = tmp_count w /\ garth_session w1 = true /\
    trace w1 = (trace w ++ l)%list /\ forallb is_login l = true.
Proof.
  intros Ha. unfold garth_authenticate.
  destruct (garth_session w) eqn:Hs.
  - exists w, []. rewrite app_nil_r. auto 10.
  - destruct Ha as [Ha | Ha]; [congruence |].
    unfold bind, emit. rewrite Ha. cbn.
    eexists. exists [GarthLogin (login_email E) (login_password E)].
    split; [reflexivity |]. cbn. auto 10.
Qed.

(** X10. An upload that the remote service answers with an HTTP error
    other than 409 raises that error: the upload call is the last thing
    done, and no rename follows. *)
Theorem upload_http_error :
  forall (fn : Path.t) (original_path : option Path.t) (dt : option datetime)
         (name : string) (w : world) (content : list message) (status : Z),
    authenticates E w ->
    file_lookup (Path.str fn) (files w) = Some content ->
    garth_client_upload E content = HTTPError status ->
    status <> 409 ->
    exists w' l,
      upload E fn original_path false dt name w = (Raise (GarthHTTPError status), w') /\
      forallb is_login l = true /\
      trace w' = (trace w ++ l ++ [GarthUpload content])%list.
Proof.
  intros fn original_path dt name w content status Ha Hf Hc Hs.
  destruct (garth_authenticate_trace w Ha)
    as (w1 & l & Hw1 & Hfiles & _ & _ & _ & Ht & Hl).
  unfold upload. unfold bind at 1. rewrite Hw1.
  unfold bind at 1, open_rb. rewrite Hfiles, Hf.
  cbn [negb]. unfold bind, emit. rewrite Hc.
  apply Z.eqb_neq in Hs. rewrite Hs. unfold raise.
  eexists. exists l. split; [reflexivity |]. split; [exact Hl |].
  cbn [trace set_trace]. now rewrite Ht, app_assoc.
Qed.

(** X11. An upload that the remote service accepts returns its answer;
    the upload call is followed by the rename step exactly when there is
    a timestamp and a name that is not empty. *)
Theorem upload_accepted :
  forall (fn : Path.t) (original_path : option Path.t) (dt : option datetime)
         (name : string) (w : world) (content : list message) (result : Z),
    authenticates E w ->
    file_lookup (Path.str fn) (files w) = Some content ->
    garth_client_upload E content = Uploaded result ->
    exists w' l,
      upload E fn original_path false dt name w = (Ok (Some result), w') /\
      forallb is_login l = true /\
      trace w' =
        (trace w ++ l ++ GarthUpload content :: rename_step_events E dt name)%list.
Proof.
  intros fn original_path dt name w content result Ha Hf Hc.
  destruct (garth_authenticate_trace w Ha)
    as (w1 & l & Hw1 & Hfiles & _ & _ & _ & Ht & Hl).
  unfold upload. unfold bind at 1. rewrite Hw1.
  unfold bind at 1, open_rb. rewrite Hfiles, Hf.
  cbn [negb]. unfold bind at 1. unfold emit at 1. rewrite Hc.
  unfold rename_step_events.
  destruct dt as [d |]; [destruct (Str.is_empty name) |]; cbn [negb].
  - unfold bind, ret. eexists. exists l. split; [reflexivity |].
    split; [exact Hl |]. cbn [trace set_trace]. now rewrite Ht, <- app_assoc.
  - unfold bind at 1. rewrite find_and_set_events.
    unfold ret. eexists. exists l. split; [reflexivity |].
    split; [exact Hl |]. cbn [trace set_trace].
    rewrite Ht, <- !app_assoc. reflexivity.
  - unfold bind, ret. eexists. exists l. split; [reflexivity |].
    split; [exact Hl |]. cbn [trace set_trace]. now rewrite Ht, <- app_assoc.
Qed.

(** X12. [upload] opens the file before it looks at the dry-run flag:
    when no file is at the path it raises [FileNotFoundError], in a dry
    run too, after the login if one was needed and without any upload. *)
Theorem upload_missing_file :
  forall (fn : Path.t) (original_path : option Path.t) (dryrun : bool)
         (dt : option datetime) (name : string) (w : world),
    authenticates E w ->
    file_lookup (Path.str fn) (files w) = None ->
    exists w' l,
      upload E fn original_path dryrun dt name w = (Raise FileNotFoundError, w') /\
      forallb is_login l = true /\
      trace w' = (trace w ++ l)%list.
Proof.
  intros fn original_path dryrun dt name w Ha Hf.
  destruct (garth_authenticate_trace w Ha)
    as (w1 & l & Hw1 & Hfiles & _ & _ & _ & Ht & Hl).
  unfold upload. unfold bind at 1. rewrite Hw1.
  unfold bind at 1, open_rb. rewrite Hfiles, Hf.
  exists w1, l. auto.
Qed.

(** X13. Without a stored session, a login that the remote service
    refuses makes [upload] raise before the file is opened: the login,
    with the address and the password of the environment or, for a
    missing or empty one, with what is typed, is the only thing done. *)
Theorem upload_login_refused :
  forall (fn : Path.t) (original_path : option Path.t) (dryrun : bool)
         (dt : option datetime) (name : string) (w : world),
    garth_session w = false ->
    garth_login E (login_email E) (login_password E) = false ->
    upload E fn original_path dryrun dt name w =
      (Raise AuthenticationError,
       set_trace (trace w ++ [GarthLogin (login_email E) (login_password E)])%list w).
Proof.
  intros fn original_path dryrun dt name w Hs Hl.
  unfold upload, bind at 1. unfold garth_authenticate. rewrite Hs.
  fold (login_email E). fold (login_password E).
  unfold bind, emit. rewrite Hl. reflexivity.
Qed.

End UploadMore.

Lemma upload_http_error_witness :
  exists w' l,
    upload failing_env (Path.of_string "/tmp/out.fit") None false None "" stored_world
      = (Raise (GarthHTTPError 500), w') /\
    forallb is_login l = true /\
    trace w' = (trace stored_world ++ l ++ [GarthUpload ride1_modified_records])%list.
Proof.
  apply (upload_http_error failing_env (Path.of_string "/tmp/out.fit") None None ""
           stored_world ride1_modified_records 500).
  - left. reflexivity.
  - reflexivity.
  - reflexivity.
  - lia.
Defined.

Lemma upload_accepted_witness :
  exists w' l,
    upload rename_env (Path.of_string "/tmp/out.fit") None false
      (Some 1700000000000000) "Threshold" stored_world = (Ok (Some 1), w') /\
    forallb is_login l = true /\
    trace w' =
      (trace stored_world ++ l ++
       GarthUpload ride1_modified_records ::
       rename_step_events rename_env (Some 1700000000000000) "Threshold")%list.
Proof.
  apply (upload_accepted rename_env (Path.of_string "/tmp/out.fit") None
           (Some 1700000000000000) "Threshold" stored_world
           ride1_modified_records 1).
  - left. reflexivity.
  - reflexivity.
  - reflexivity.
Defined.

Lemma upload_missing_file_witness :
  exists w' l,
    upload rides_env (Path.of_string "/rides/ride1_modified.fit") None true None ""
      fresh_world = (Raise FileNotFoundError, w') /\
    forallb is_login l = true /\
    trace w' = (trace fresh_world ++ l)%list.
Proof.
  apply (upload_missing_file rides_env (Path.of_string "/rides/ride1_modified.fit")
           None true None "" fresh_world).
  - left. reflexivity.
  - reflexivity.
Defined.

Lemma upload_login_refused_witness :
  upload refused_env (Path.of_string "/tmp/out.fit") None false None ""
    logged_out_world =
  (Raise AuthenticationError,
   set_trace (trace logged_out_world ++ [GarthLogin "typed@example.org" "typed"])%list
     logged_out_world).
Proof.
  apply (upload_login_refused refused_env (Path.of_string "/tmp/out.fit") None
           false None "" logged_out_world); reflexivity.
Defined.

(** ** One input file *)

Section MainFile.
Context {P : Profile}.
Variable E : env.

(** The extraction and the lookup on a file that decodes. *)
Lemma extract_and_lookup (fit_path : Path.t) (records : list message) (w : world) :
  from_file E (Path.str fit_path) = Some records ->
  forallb has_time_created records = true ->
  lookup_safe E records = true ->
  exists dt name w1,
    get_date_from_fit E fit_path w = (Ok dt, w) /\
    get_name_from_intervals E dt w = (Ok name, w1) /\
    files w1 = files w /\ garth_session w1 = garth_session w.
Proof.
  intros Hf Ht Hs.
  destruct (first_file_id_date_returns records Ht) as (dt & Hdt & Hnone).
  assert (Hdate : get_date_from_fit E fit_path w = (Ok dt, w)).
  { unfold get_date_from_fit, FitFile_from_file, bind, lift. rewrite Hf.
    unfold ret. now rewrite Hdt. }
  destruct dt as [d |].
  - destruct (get_name_from_intervals_returns E d w) as (name & w1 & H1 & H2 & H3 & _).
    exists (Some d), name, w1. auto.
  - exists None, "", w. split; [exact Hdate |]. split; [| auto].
    apply get_name_from_intervals_no_credentials.
    unfold lookup_safe in Hs. rewrite (Hnone eq_refl) in Hs.
    destruct (INTERVALS_ATHLETEID E); [| now left].
    destruct (INTERVALS_APIKEY E); [discriminate | now right].
Qed.

(** An upload out of a dry run sends the content of the file, whatever
    the answer, and leaves the files as they are. *)
Lemma upload_sends_content (fn : Path.t) (original_path : option Path.t)
  (dt : option datetime) (name : string) (w : world) (content : list message) :
  authenticates E w ->
  file_lookup (Path.str fn) (files w) = Some content ->
  exists r w',
    upload E fn original_path false dt name w = (r, w') /\
    files w' = files w /\ In (GarthUpload content) (trace w').
Proof.
  intros Ha Hf.
  destruct (garth_authenticate_trace E w Ha)
    as (w1 & l & Hw1 & Hfiles & _ & _ & _ & Ht & Hl).
  unfold upload. unfold bind at 1. rewrite Hw1.
  unfold bind at 1, open_rb. rewrite Hfiles, Hf.
  cbn [negb]. unfold bind at 1. unfold emit at 1.
  destruct (garth_client_upload E content) as [result | status].
  - destruct dt as [d |]; [destruct (Str.is_empty name) |]; cbn [negb].
    + unfold bind, ret. do 2 eexists. split; [reflexivity |].
      split; [exact Hfiles |]. cbn. apply in_or_app. right. now left.
    + unfold bind at 1. rewrite find_and_set_events. unfold ret.
      do 2 eexists. split; [reflexivity |]. split; [exact Hfiles |].
      cbn [trace set_trace]. apply in_or_app. left.
      apply in_or_app. right. now left.
    + unfold bind, ret. do 2 eexists. split; [reflexivity |].
      split; [exact Hfiles |]. cbn. apply in_or_app. right. now left.
  - destruct (status =? 409); unfold ret, raise;
      (do 2 eexists; split; [reflexivity |]; split; [exact Hfiles |]; cbn;
       apply in_or_app; right; now left).
Qed.

(** X14. One input file with [--dryrun] and [--upload]: the rewritten
    file is not written, so when no file is at the default output path
    the upload step raises [FileNotFoundError]; no file is written or
    changed. *)
Theorem main_file_dry_run_upload :
  forall (input_file : string) (w : world) (records : list message),
    from_file E (Path.str (Path.of_string input_file)) = Some records ->
    forallb has_time_created records = true ->
    lookup_safe E records = true ->
    authenticates E w ->
    file_lookup (Path.str (default_output (Path.of_string input_file))) (files w)
      = None ->
    exists w',
      main_file E input_file true true w = (Raise FileNotFoundError, w') /\
      files w' = files w.
Proof.
  intros input_file w records Hf Ht Hs Ha Hnone.
  destruct (extract_and_lookup _ records w Hf Ht Hs)
    as (dt & name & w1 & Hdate & Hname & Hfiles & Hsess).
  destruct (modified_file_returns records name Ht) as [out Hout].
  assert (Ha1 : authenticates E w1).
  { destruct Ha as [Ha | Ha]; [left | now right]. now rewrite Hsess. }
  destruct (garth_authenticate_trace E w1 Ha1)
    as (w2 & l & Hw2 & Hfiles2 & _).
  exists w2. split; [| congruence].
  unfold main_file. unfold bind at 1. rewrite Hdate.
  unfold bind at 1. rewrite Hname.
  unfold bind at 1.
  rewrite (edit_fit_Ok E _ None true name w1 records out Hf Hout).
  cbn [output_path after_edit].
  unfold bind at 1. unfold upload. unfold bind at 1. rewrite Hw2.
  unfold bind at 1, open_rb. now rewrite Hfiles2, Hfiles, Hnone.
Qed.

(** X15. One input file with [--upload], out of a dry run: the rewritten
    records are written at the default output path, beside the input,
    and what is sent to the remote service is exactly what was written,
    whatever the service answers. *)
Theorem main_file_uploads_what_it_wrote :
  forall (input_file : string) (w : world) (records : list message),
    from_file E (Path.str (Path.of_string input_file)) = Some records ->
    forallb has_time_created records = true ->
    lookup_safe E records = true ->
    authenticates E w ->
    exists r w' name out,
      main_file E input_file true false w = (r, w') /\
      modified_file records name = Ok out /\
      file_lookup (Path.str (default_output (Path.of_string input_file))) (files w')
        = Some out /\
      In (ToFile (Path.str (default_output (Path.of_string input_file))) out)
         (trace w') /\
      In (GarthUpload out) (trace w').
Proof.
  intros input_file w records Hf Ht Hs Ha.
  destruct (extract_and_lookup _ records w Hf Ht Hs)
    as (dt & name & w1 & Hdate & Hname & Hfiles & Hsess).
  destruct (modified_file_returns records name Ht) as [out Hout].
  set (o := default_output (Path.of_string input_file)).
  set (w2 := after_edit false out o w1).
  assert (Ha2 : authenticates E w2).
  { destruct Ha as [Ha | Ha]; [left | now right]. cbn. now rewrite Hsess. }
  assert (Hlook : file_lookup (Path.str o) (files w2) = Some out).
  { cbn. now rewrite String.eqb_refl. }
  destruct (upload_sends_content o (Some (Path.of_string input_file)) dt name w2 out
              Ha2 Hlook) as (r & w3 & Hup & Hfiles3 & Hin).
  assert (Hext : extends false w2 w3).
  { pose proof (keeps_upload E false o (Some (Path.of_string input_file)) dt name w2)
      as Hk. now rewrite Hup in Hk. }
  destruct Hext as [_ (l & Htrace & _)].
  exists (obind r (fun _ => Ok tt)), w3, name, out.
  split; [| split; [exact Hout | split; [| split; [| exact Hin]]]].
  - unfold main_file. unfold bind at 1. rewrite Hdate.
    unfold bind at 1. rewrite Hname.
    unfold bind at 1.
    rewrite (edit_fit_Ok E _ None false name w1 records out Hf Hout).
    cbn [output_path]. fold o. fold w2.
    unfold bind. rewrite Hup. now destruct r.
  - now rewrite Hfiles3.
  - rewrite Htrace. apply in_or_app. left. cbn. apply in_or_app. right. now left.
Qed.

End MainFile.

Lemma main_file_dry_run_upload_witness :
  exists w',
    main_file rides_env "/rides/ride1.fit" true true fresh_world =
      (Raise FileNotFoundError, w') /\
    files w' = files fresh_world.
Proof.
  apply (@main_file_dry_run_upload fit_profile rides_env "/rides/ride1.fit"
           fresh_world ride1_records).
  - reflexivity.
  - reflexivity.
  - reflexivity.
  - left. reflexivity.
  - reflexivity.
Defined.

Lemma main_file_uploads_what_it_wrote_witness :
  exists r w' name out,
    main_file failing_env "/rides/ride1.fit" true false fresh_world = (r, w') /\
    modified_file ride1_records name = Ok out /\
    file_lookup (Path.str (default_output (Path.of_string "/rides/ride1.fit")))
      (files w') = Some out /\
    In (ToFile (Path.str (default_output (Path.of_string "/rides/ride1.fit"))) out)
       (trace w') /\
    In (GarthUpload out) (trace w').
Proof.
  apply (@main_file_uploads_what_it_wrote fit_profile failing_env "/rides/ride1.fit"
           fresh_world ride1_records).
  - reflexivity.
  - reflexivity.
  - reflexivity.
  - left. reflexivity.
Defined.

(** ** More on the directory scan *)

Section ScanMore.
Context {P : Profile}.
Variable E : env.

Lemma upload_files_preinitialise (dryrun : bool) (files : list string) :
  forall uploaded_files w,
    upload_files E true dryrun files uploaded_files w =
      (Ok (uploaded_files ++ files)%list, w).
Proof.
  induction files as [| f files IH]; intros uploaded_files w.
  - cbn. now rewrite app_nil_r.
  - cbn [upload_files negb]. unfold bind, ret. rewrite IH.
    now rewrite <- app_assoc.
Qed.

(** X16. In pre-initialise mode a scan reads, rewrites and uploads no
    file and never raises: it only writes the ledger file, which then
    lists what it listed before followed by every candidate (in a dry
    run, only what it listed before). *)
Theorem upload_all_preinitialise :
  forall (dryrun : bool) (w : world),
    exists w' l,
      upload_all E true dryrun w = (Ok tt, w') /\
      ledger_file w' =
        Some (if dryrun then loaded_ledger w
              else loaded_ledger w ++ processed E w)%list /\
      files w' = files w /\
      trace w' = (trace w ++ l)%list /\
      forallb writes_ledger l = true.
Proof.
  intros dryrun w. rewrite upload_all_after_load. unfold processed.
  set (c := candidates E (loaded_ledger w)).
  assert (Hload : exists l0,
             ledger_file (snd (load_uploaded_files w)) = Some (loaded_ledger w) /\
             files (snd (load_uploaded_files w)) = files w /\
             trace (snd (load_uploaded_files w)) = (trace w ++ l0)%list /\
             forallb writes_ledger l0 = true).
  { unfold load_uploaded_files, loaded_ledger.
    destruct (ledger_file w) eqn:Hl; cbn.
    - exists []. now rewrite app_nil_r.
    - exists [LedgerWrite []]. auto. }
  destruct Hload as (l0 & Hled & Hfiles & Htrace & Hl0).
  destruct c as [| f c'] eqn:Hc.
  - exists (snd (load_uploaded_files w)), l0. unfold ret.
    rewrite app_nil_r. destruct dryrun; auto.
  - unfold bind. rewrite upload_files_preinitialise.
    destruct dryrun; cbn [negb].
    + exists (snd (load_uploaded_files w)), l0. unfold ret. auto.
    + unfold flush_uploaded_files. eexists.
      exists (l0 ++ [LedgerWrite (loaded_ledger w ++ f :: c')])%list.
      split; [reflexivity |]. cbn [ledger_file files trace set_trace set_ledger_file].
      rewrite Htrace, forallb_app, Hl0, <- app_assoc. auto.
Qed.

Lemma upload_raises_http_error (fn : Path.t) (original_path : option Path.t)
  (dt : option datetime) (name : string) (w : world) (content : list message)
  (status : Z) :
  authenticates E w ->
  file_lookup (Path.str fn) (files w) = Some content ->
  garth_client_upload E content = HTTPError status ->
  status <> 409 ->
  exists w', upload E fn original_path false dt name w =
             (Raise (GarthHTTPError status), w').
Proof.
  intros Ha Hf Hc Hs.
  destruct (garth_authenticate_Ok E w Ha) as (w1 & Hw1 & Hfiles).
  unfold upload. unfold bind at 1. rewrite Hw1.
  unfold bind at 1, open_rb. rewrite Hfiles, Hf.
  cbn [negb]. unfold bind, emit. rewrite Hc.
  apply Z.eqb_neq in Hs. rewrite Hs. unfold raise. eauto.
Qed.

(** X17. In a scan that uploads, a candidate whose upload the remote
    service answers with an HTTP error other than 409 ends the run with
    that error: the ledger file holds what the scan loaded, so neither
    this candidate nor the ones processed before it in the batch are
    recorded. *)
Theorem upload_all_http_error :
  forall (w : world) (before : list string) (f : string)
         (after uploaded_files' : list string) (w1 : world)
         (records : list message) (status : Z),
    processed E w = (before ++ f :: after)%list ->
    upload_files E false false before (loaded_ledger w)
      (snd (load_uploaded_files w)) = (Ok uploaded_files', w1) ->
    from_file E (Path.str (Path.joinpath (dir E) f)) = Some records ->
    forallb has_time_created records = true ->
    lookup_safe E records = true ->
    authenticates E w1 ->
    (forall name out,
       modified_file records name = Ok out ->
       garth_client_upload E out = HTTPError status) ->
    status <> 409 ->
    exists w2,
      upload_all E false false w = (Raise (GarthHTTPError status), w2) /\
      ledger_file w2 = Some (loaded_ledger w).
Proof.
  intros w before f after up' w1 records status Hp Hb Hf Ht Hs Ha Hc Hne.
  destruct (load_uploaded_files_loaded w) as [Hload Hledger].
  pose (fp := tmp_name E (tmp_count w1)).
  pose (w0 := set_tmp_count (S (tmp_count w1))
                (set_files ((Path.str fp, []) :: files w1) w1)).
  destruct (process_file_steps E f fp w0 records Hf Ht Hs)
    as (dt & name & out & wa & wb & Hdate & Hname & Hout & Hedit & Hfiles & Hsess).
  assert (Ha2 : authenticates E wb).
  { destruct Ha as [Ha | Ha]; [left | now right]. now rewrite Hsess. }
  assert (Hlook : file_lookup (Path.str fp) (files wb) = Some out).
  { rewrite Hfiles. cbn. now rewrite String.eqb_refl. }
  destruct (upload_raises_http_error fp (Some (Path.of_string f)) dt name wb out
              status Ha2 Hlook (Hc _ _ Hout) Hne) as (wc & Hup).
  assert (Hblock : with_NamedTemporaryFile E (process_file E false f) w1 =
                   (Raise (GarthHTTPError status),
                    set_files (file_delete (Path.str fp) (files wc)) wc)).
  { unfold with_NamedTemporaryFile. fold fp. fold w0.
    unfold process_file. unfold bind at 1. rewrite Hdate.
    unfold bind at 1. rewrite Hname.
    unfold bind at 1. rewrite Hedit.
    unfold bind at 1. now rewrite Hup. }
  eexists. split.
  - unfold upload_all, bind. rewrite Hload.
    unfold processed in Hp. rewrite Hp.
    destruct (before ++ f :: after)%list eqn:Hx; [now destruct before |].
    rewrite <- Hx. rewrite upload_files_app, Hb.
    cbn [upload_files negb]. unfold bind. rewrite Hblock. reflexivity.
  - cbn [ledger_file set_files].
    pose proof (keeps_upload_files E false false before (loaded_ledger w)
                  (snd (load_uploaded_files w))) as [Hk1 _].
    rewrite Hb in Hk1. cbn [snd] in Hk1.
    pose proof (keeps_with_NamedTemporaryFile E false (process_file E false f)
                  (fun fp => keeps_process_file E false f fp) w1) as [Hk2 _].
    rewrite Hblock in Hk2. cbn [snd ledger_file set_files] in Hk2.
    congruence.
Qed.

(** X18. The ledger file after a scan is all or nothing: whatever the
    mode and whether the scan returns or raises, it holds either what
    the scan loaded or, after a scan that returned out of a dry run,
    what it loaded followed by all the candidates; a part of a batch is
    never recorded and no entry is ever removed. *)
Theorem upload_all_ledger_all_or_nothing :
  forall (preinitialise dryrun : bool) (w : world),
    ledger_file (snd (upload_all E preinitialise dryrun w)) =
      Some (loaded_ledger w) \/
    (fst (upload_all E preinitialise dryrun w) = Ok tt /\ dryrun = false /\
     ledger_file (snd (upload_all E preinitialise dryrun w)) =
       Some (loaded_ledger w ++ processed E w)%list).
Proof.
  intros preinitialise dryrun w.
  destruct (load_uploaded_files_loaded w) as [_ Hledger].
  rewrite upload_all_after_load. unfold processed.
  destruct (candidates E (loaded_ledger w)) as [| f c] eqn:Hc.
  - left. exact Hledger.
  - unfold bind.
    pose proof (keeps_upload_files E preinitialise dryrun (f :: c) (loaded_ledger w)
                  (snd (load_uploaded_files w))) as [Hk _].
    destruct (upload_files E preinitialise dryrun (f :: c) (loaded_ledger w)
                (snd (load_uploaded_files w))) as [[up | e] w1] eqn:Hu.
    + apply upload_files_Ok in Hu. subst up. cbn [snd] in Hk.
      destruct dryrun; cbn [negb].
      * left. unfold ret. cbn [snd]. congruence.
      * right. auto.
    + left. cbn [snd] in *. congruence.
Qed.

(** X19. A dry run does not change what the next scan goes through:
    whether it returns or raises, the candidates of a scan that follows
    it are those of the dry run itself. *)
Theorem upload_all_dry_run_same_candidates :
  forall (preinitialise : bool) (w : world),
    processed E (snd (upload_all E preinitialise true w)) = processed E w.
Proof.
  intros preinitialise w.
  destruct (load_uploaded_files_loaded w) as [_ Hledger].
  rewrite upload_all_after_load.
  destruct (keeps_dry_scan E preinitialise (candidates E (loaded_ledger w))
              (loaded_ledger w) (snd (load_uploaded_files w))) as [Hk _].
  unfold processed at 1, loaded_ledger at 1. now rewrite Hk, Hledger.
Qed.

End ScanMore.

Lemma upload_all_http_error_witness :
  exists w2,
    upload_all failing_env false false fresh_world = (Raise (GarthHTTPError 500), w2) /\
    ledger_file w2 = Some (loaded_ledger fresh_world).
Proof.
  apply (@upload_all_http_error fit_profile failing_env fresh_world [] "ride1.fit"
           ["RIDE2.FIT"] (loaded_ledger fresh_world)
           (snd (load_uploaded_files fresh_world)) ride1_records 500).
  - reflexivity.
  - reflexivity.
  - reflexivity.
  - reflexivity.
  - reflexivity.
  - left. reflexivity.
  - intros name out _. reflexivity.
  - lia.
Defined.

(** ** The files a scan touches *)

Lemma file_lookup_delete (p q : string) (fs : list (string * list message)) :
  file_lookup p (file_delete q fs) =
  if String.eqb p q then None else file_lookup p fs.
Proof.
  induction fs as [| [k c] fs IH]; cbn [file_delete filter file_lookup fst].
  - now destruct (String.eqb p q).
  - fold (file_delete q fs). destruct (String.eqb q k) eqn:Hqk; cbn [negb].
    + apply String.eqb_eq in Hqk. subst k. rewrite IH.
      now destruct (String.eqb p q).
    + cbn [file_lookup]. rewrite IH.
      destruct (String.eqb p k) eqn:Hpk; [| reflexivity].
      apply String.eqb_eq in Hpk. subst k.
      rewrite String.eqb_sym. now rewrite Hqk.
Qed.

Lemma untouched_ret {A} (a : A) : untouched (ret a).
Proof. now intros w. Qed.

Lemma untouched_raise {A} (e : exn) : untouched (@raise A e).
Proof. now intros w. Qed.

Lemma untouched_lift {A} (o : outcome A) : untouched (lift o).
Proof. now intros w. Qed.

Lemma untouched_emit (e : event) : untouched (emit e).
Proof. now intros w. Qed.

Lemma untouched_bind {A B} (c : M A) (k : A -> M B) :
  untouched c -> (forall a, untouched (k a)) -> untouched (bind c k).
Proof.
  intros Hc Hk w. unfold bind. specialize (Hc w).
  destruct (c w) as [[a | e] w1]; cbn [snd] in *; [| exact Hc].
  now rewrite Hk.
Qed.

Lemma untouched_if {A} (b : bool) (c1 c2 : M A) :
  untouched c1 -> untouched c2 -> untouched (if b then c1 else c2).
Proof. now destruct b. Qed.

Create HintDb untouched.
#[local] Hint Resolve untouched_ret untouched_raise untouched_lift untouched_emit
  untouched_if : untouched.

Section FilesFrame.
Context {P : Profile}.
Variable E : env.

Lemma untouched_get_date_from_fit (fit_path : Path.t) :
  untouched (get_date_from_fit E fit_path).
Proof.
  unfold get_date_from_fit, FitFile_from_file.
  apply untouched_bind; [| auto with untouched].
  destruct (from_file E _); auto with untouched.
Qed.

Lemma untouched_get_name_from_intervals (dt : option datetime) :
  untouched (get_name_from_intervals E dt).
Proof.
  unfold get_name_from_intervals.
  destruct (INTERVALS_ATHLETEID E), (INTERVALS_APIKEY E), dt; auto with untouched.
  apply untouched_bind; auto with untouched.
Qed.

Lemma untouched_garth_authenticate : untouched (garth_authenticate E).
Proof.
  intros w. unfold garth_authenticate. destruct (garth_session w); [reflexivity |].
  unfold bind, emit. now destruct (garth_login E _ _).
Qed.

Lemma untouched_open_rb (fn : Path.t) : untouched (open_rb fn).
Proof. intros w. unfold open_rb. now destruct (file_lookup _ _). Qed.

Lemma untouched_rename_matching (activities : list garmin_activity) (dt : datetime)
  (name : string) :
  untouched (rename_matching activities dt name).
Proof.
  induction activities as [| a activities IH]; cbn [rename_matching];
    [auto with untouched |].
  apply untouched_bind; [| intros _; exact IH].
  apply untouched_if; [| auto with untouched].
  unfold modify_name. apply untouched_bind; auto with untouched.
Qed.

Lemma untouched_upload (fn : Path.t) (original_path : option Path.t)
  (dryrun : bool) (dt : option datetime) (name : string) :
  untouched (upload E fn original_path dryrun dt name).
Proof.
  unfold upload.
  apply untouched_bind; [apply untouched_garth_authenticate | intros _].
  apply untouched_bind; [apply untouched_open_rb | intros f].
  destruct dryrun; cbn [negb]; [auto with untouched |].
  apply untouched_bind; [auto with untouched | intros _].
  destruct (garth_client_upload E f) as [r | status].
  - apply untouched_bind; [| auto with untouched].
    destruct dt as [dt |]; [| auto with untouched].
    apply untouched_if; [| auto with untouched].
    unfold find_and_set_garmin_activity_name.
    apply untouched_bind; [auto with untouched | intros _].
    apply untouched_bind; [auto with untouched | intros _].
    apply untouched_rename_matching.
  - destruct (status =? 409); auto with untouched.
Qed.

(** The block of a candidate writes at the temporary path only. *)
Lemma edit_fit_files (fit_path fp : Path.t) (dryrun : bool) (name : string)
  (w : world) (r : outcome Path.t) (w' : world) :
  edit_fit E fit_path (Some fp) dryrun name w = (r, w') ->
  files w' = files w \/ exists out, files w' = (Path.str fp, out) :: files w.
Proof.
  unfold edit_fit, FitFile_from_file, bind, lift.
  destruct (from_file E _) as [records |]; [| intros [= <- <-]; now left].
  unfold ret.
  destruct (modified_file records name) as [out | e];
    [| intros [= <- <-]; now left].
  destruct dryrun; cbn; intros [= <- <-]; [now left | right].
  eexists. reflexivity.
Qed.

Lemma process_file_files (dryrun : bool) (f : string) (fp : Path.t) (w : world)
  (r : outcome unit) (w' : world) :
  process_file E dryrun f fp w = (r, w') ->
  files w' = files w \/ exists out, files w' = (Path.str fp, out) :: files w.
Proof.
  unfold process_file. unfold bind at 1.
  pose proof (untouched_get_date_from_fit (Path.joinpath (dir E) f) w) as H1.
  destruct (get_date_from_fit E _ w) as [[dt | e] w1]; cbn [snd] in *;
    [| intros [= <- <-]; now left].
  unfold bind at 1.
  pose proof (untouched_get_name_from_intervals dt w1) as H2.
  destruct (get_name_from_intervals E dt w1) as [[name | e] w2]; cbn [snd] in *;
    [| intros [= <- <-]; left; congruence].
  unfold bind at 1.
  destruct (edit_fit E _ (Some fp) dryrun name w2) as [[o | e] w3] eqn:He;
    apply edit_fit_files in He.
  - unfold bind.
    pose proof (untouched_upload o (Some (Path.of_string f)) dryrun dt name w3) as H4.
    destruct (upload E o _ dryrun dt name w3) as [[r0 | e] w4];
      unfold ret; cbn [snd] in *; intros [= <- <-];
      (destruct He as [He | [out He]]; [left | right; exists out]; congruence).
  - intros [= <- <-].
    destruct He as [He | [out He]]; [left | right; exists out]; congruence.
Qed.

(** When the block of a candidate is left, by a return or by an
    exception, the temporary file is gone and the other files are as
    they were. *)
Lemma with_NamedTemporaryFile_files (dryrun : bool) (f : string) (w : world) :
  files (snd (with_NamedTemporaryFile E (process_file E dryrun f) w)) =
  file_delete (Path.str (tmp_name E (tmp_count w))) (files w).
Proof.
  unfold with_NamedTemporaryFile.
  set (fp := tmp_name E (tmp_count w)).
  set (w1 := set_tmp_count _ _).
  destruct (process_file E dryrun f fp w1) as [r w2] eqn:Hp.
  apply process_file_files in Hp. cbn [snd files set_files].
  assert (Hd : forall c fs,
             file_delete (Path.str fp) ((Path.str fp, c) :: fs) =
             file_delete (Path.str fp) fs).
  { intros c fs. unfold file_delete. cbn. now rewrite String.eqb_refl. }
  destruct Hp as [H | [out H]]; rewrite H; subst w1; cbn [files set_files set_tmp_count];
    now rewrite ?Hd.
Qed.

Lemma upload_files_files (preinitialise dryrun : bool) (files0 : list string) :
  forall uploaded_files w p c,
    file_lookup p
      (files (snd (upload_files E preinitialise dryrun files0 uploaded_files w)))
      = Some c ->
    file_lookup p (files w) = Some c.
Proof.
  induction files0 as [| f files0 IH]; intros uploaded_files w p c H.
  - exact H.
  - cbn [upload_files] in H. unfold bind in H.
    destruct preinitialise; cbn [negb] in H.
    + unfold ret in H. now apply IH in H.
    + pose proof (with_NamedTemporaryFile_files dryrun f w) as Hb.
      destruct (with_NamedTemporaryFile E (process_file E dryrun f) w)
        as [[[] | e] w1]; cbn [snd] in *.
      * apply IH in H. rewrite Hb, file_lookup_delete in H.
        now destruct (String.eqb p _).
      * rewrite Hb, file_lookup_delete in H. now destruct (String.eqb p _).
Qed.


(** The candidates of a plain directory. *)
Lemma candidates_plain (uploaded_files : list string) :
  plain_dir E = true ->
  plain_entries E = true ->
  candidates E uploaded_files =
    filter (fun name =>
              Str.endswith (Str.lower name) ".fit" &&
              negb (Str.endswith name "_modified.fit") &&
              negb (Str.in_list name uploaded_files))
           (entries E).
Proof.
  intros Hd He. unfold candidates, glob_fit.
  rewrite !map_map, map_filter_id.
  - rewrite !filter_filter. apply filter_ext. intros name.
    now rewrite andb_assoc.
  - intros name Hin Hg. apply strip_dir_child; [exact Hd |].
    unfold plain_entries in He. rewrite forallb_forall in He.
    specialize (He _ Hin). now rewrite Hg in He.
Qed.

(** X21. In a plain directory whose listing names no entry twice, a scan
    that returns out of a dry run leaves a ledger without duplicates
    when it loaded one without duplicates. *)
Theorem upload_all_ledger_no_duplicates :
  forall (preinitialise : bool) (w w' : world),
    plain_dir E = true ->
    plain_entries E = true ->
    NoDup (entries E) ->
    NoDup (loaded_ledger w) ->
    upload_all E preinitialise false w = (Ok tt, w') ->
    exists l, ledger_file w' = Some l /\ NoDup l.
Proof.
  intros preinitialise w w' Hd He Hn Hl H.
  apply upload_all_ledger in H. eexists. split; [exact H |].
  apply NoDup_app; [exact Hl | | ].
  - unfold processed. rewrite candidates_plain by assumption.
    now apply NoDup_filter.
  - intros x Hx Hc. unfold processed in Hc.
    apply candidates_In in Hc as [_ Hc]. contradiction.
Qed.

End FilesFrame.


Lemma upload_all_ledger_no_duplicates_witness :
  exists l,
    ledger_file (snd (upload_all rides_env false false fresh_world)) = Some l /\
    NoDup l.
Proof.
  apply (@upload_all_ledger_no_duplicates fit_profile rides_env false fresh_world
           (snd (upload_all rides_env false false fresh_world))).
  - reflexivity.
  - reflexivity.
  - repeat constructor; cbn; intuition discriminate.
  - constructor.
  - vm_compute. reflexivity.
Defined.

(** ** Logins during a scan *)

Lemma logins_app (l1 l2 : list event) :
  logins (l1 ++ l2) = (logins l1 + logins l2)%nat.
Proof. unfold logins. now rewrite filter_app, length_app. Qed.

(** A statement that adds no login and keeps the session. *)
Lemma logs_in_once_silent {A} (c : M A) :
  (forall w, garth_session (snd (c w)) = garth_session w /\
             exists l, trace (snd (c w)) = (trace w ++ l)%list /\ logins l = 0%nat) ->
  logs_in_once c.
Proof.
  intros H w. destruct (H w) as [Hs (l & Ht & Hl)]. exists l. auto.
Qed.

Lemma logs_in_once_ret {A} (a : A) : logs_in_once (ret a).
Proof.
  apply logs_in_once_silent. intros w. split; [reflexivity |].
  exists []. now rewrite app_nil_r.
Qed.

Lemma logs_in_once_raise {A} (e : exn) : logs_in_once (@raise A e).
Proof.
  apply logs_in_once_silent. intros w. split; [reflexivity |].
  exists []. now rewrite app_nil_r.
Qed.

Lemma logs_in_once_lift {A} (o : outcome A) : logs_in_once (lift o).
Proof.
  apply logs_in_once_silent. intros w. split; [reflexivity |].
  exists []. now rewrite app_nil_r.
Qed.

Lemma logs_in_once_emit (e : event) : is_login e = false -> logs_in_once (emit e).
Proof.
  intros He. apply logs_in_once_silent. intros w. split; [reflexivity |].
  exists [e]. split; [reflexivity |]. unfold logins. cbn. now rewrite He.
Qed.

Lemma logs_in_once_if {A} (b : bool) (c1 c2 : M A) :
  logs_in_once c1 -> logs_in_once c2 -> logs_in_once (if b then c1 else c2).
Proof. now destruct b. Qed.

Lemma logs_in_once_bind {A B} (c : M A) (k : A -> M B) :
  logs_in_once c -> (forall a, logs_in_once (k a)) -> logs_in_once (bind c k).
Proof.
  intros Hc Hk w. destruct (Hc w) as (l1 & Ht1 & H1). unfold bind.
  destruct (c w) as [[a | e] w1]; cbn [fst snd] in *.
  - destruct (Hk a w1) as (l2 & Ht2 & H2).
    exists (l1 ++ l2)%list. rewrite Ht2, Ht1, app_assoc, logins_app.
    split; [reflexivity |].
    destruct H1 as [[Hl1 Hs1] | (Hs & Hl1 & Hok)];
      destruct H2 as [[Hl2 Hs2] | (Hs' & Hl2 & Hok')].
    + left. split; [lia | congruence].
    + right. split; [congruence |]. split; [lia | exact Hok'].
    + right. split; [exact Hs |]. split; [lia |].
      intros _ _. rewrite Hs2. now apply (Hok a).
    + rewrite (Hok a eq_refl) in Hs'. discriminate.
  - exists l1. split; [exact Ht1 |].
    destruct H1 as [H1 | (Hs & Hl1 & _)]; [now left |].
    right. split; [exact Hs |]. split; [exact Hl1 | discriminate].
Qed.

Create HintDb logins.
#[local] Hint Resolve logs_in_once_ret logs_in_once_raise logs_in_once_lift
  logs_in_once_if : logins.
#[local] Hint Extern 1 (logs_in_once (emit _)) =>
  apply logs_in_once_emit; reflexivity : logins.

Section Logins.
Context {P : Profile}.
Variable E : env.

Lemma logs_in_once_garth_authenticate : logs_in_once (garth_authenticate E).
Proof.
  intros w. unfold garth_authenticate.
  destruct (garth_session w) eqn:Hs.
  - exists []. rewrite app_nil_r. split; [reflexivity |]. now left.
  - exists [GarthLogin (login_email E) (login_password E)].
    unfold bind, emit. fold (login_email E). fold (login_password E).
    destruct (garth_login E (login_email E) (login_password E));
      (split; [reflexivity |]; right; split; [reflexivity |]; split;
       [reflexivity | cbn; intros; (reflexivity || discriminate)]).
Qed.

Lemma logs_in_once_get_date_from_fit (fit_path : Path.t) :
  logs_in_once (get_date_from_fit E fit_path).
Proof.
  unfold get_date_from_fit, FitFile_from_file.
  apply logs_in_once_bind; [| auto with logins].
  destruct (from_file E _); auto with logins.
Qed.

Lemma logs_in_once_get_name_from_intervals (dt : option datetime) :
  logs_in_once (get_name_from_intervals E dt).
Proof.
  unfold get_name_from_intervals.
  destruct (INTERVALS_ATHLETEID E), (INTERVALS_APIKEY E), dt; auto with logins.
  apply logs_in_once_bind; auto with logins.
Qed.

Lemma logs_in_once_edit_fit (fit_path : Path.t) (output : option Path.t)
  (dryrun : bool) (name : string) :
  logs_in_once (edit_fit E fit_path output dryrun name).
Proof.
  unfold edit_fit, FitFile_from_file.
  apply logs_in_once_bind; [destruct (from_file E _); auto with logins | intros records].
  apply logs_in_once_bind; [auto with logins | intros modified].
  apply logs_in_once_bind; [| auto with logins].
  apply logs_in_once_if; [| auto with logins].
  apply logs_in_once_silent. intros w. split; [reflexivity |].
  eexists. split; [reflexivity |]. reflexivity.
Qed.

Lemma logs_in_once_rename_matching (activities : list garmin_activity)
  (dt : datetime) (name : string) :
  logs_in_once (rename_matching activities dt name).
Proof.
  induction activities as [| a activities IH]; cbn [rename_matching];
    [auto with logins |].
  apply logs_in_once_bind; [| intros _; exact IH].
  apply logs_in_once_if; [| auto with logins].
  unfold modify_name. apply logs_in_once_bind; auto with logins.
Qed.

Lemma logs_in_once_upload (fn : Path.t) (original_path : option Path.t)
  (dryrun : bool) (dt : option datetime) (name : string) :
  logs_in_once (upload E fn original_path dryrun dt name).
Proof.
  unfold upload.
  apply logs_in_once_bind; [apply logs_in_once_garth_authenticate | intros _].
  apply logs_in_once_bind.
  { apply logs_in_once_silent. intros w. unfold open_rb.
    destruct (file_lookup _ _); (split; [reflexivity |]; exists [];
      now rewrite app_nil_r). }
  intros f. apply logs_in_once_if; [| auto with logins].
  apply logs_in_once_bind; [auto with logins | intros _].
  destruct (garth_client_upload E f) as [r | status].
  - apply logs_in_once_bind; [| auto with logins].
    destruct dt as [dt |]; [| auto with logins].
    apply logs_in_once_if; [| auto with logins].
    unfold find_and_set_garmin_activity_name.
    apply logs_in_once_bind; [auto with logins | intros _].
    apply logs_in_once_bind; [auto with logins | intros _].
    apply logs_in_once_rename_matching.
  - destruct (status =? 409); auto with logins.
Qed.

Lemma logs_in_once_process_file (dryrun : bool) (f : string) (fp : Path.t) :
  logs_in_once (process_file E dryrun f fp).
Proof.
  unfold process_file.
  apply logs_in_once_bind; [apply logs_in_once_get_date_from_fit | intros dt].
  apply logs_in_once_bind; [apply logs_in_once_get_name_from_intervals | intros name].
  apply logs_in_once_bind; [apply logs_in_once_edit_fit | intros output].
  apply logs_in_once_bind; [apply logs_in_once_upload | auto with logins].
Qed.

Lemma logs_in_once_with_NamedTemporaryFile {A} (body : Path.t -> M A) :
  (forall fp, logs_in_once (body fp)) ->
  logs_in_once (with_NamedTemporaryFile E body).
Proof.
  intros Hb w. unfold with_NamedTemporaryFile.
  set (fp := tmp_name E (tmp_count w)).
  set (w1 := set_tmp_count _ _).
  destruct (Hb fp w1) as (l & Ht & H).
  destruct (body fp w1) as [r w2]. cbn [fst snd] in *.
  exists l. split; [exact Ht | exact H].
Qed.

Lemma logs_in_once_upload_files (preinitialise dryrun : bool) (files : list string) :
  forall uploaded_files,
    logs_in_once (upload_files E preinitialise dryrun files uploaded_files).
Proof.
  induction files as [| f files IH]; intros uploaded_files; cbn [upload_files];
    [auto with logins |].
  apply logs_in_once_bind; [| intros _; apply IH].
  apply logs_in_once_if; [| auto with logins].
  apply logs_in_once_with_NamedTemporaryFile. intros fp.
  apply logs_in_once_process_file.
Qed.

Lemma logs_in_once_upload_all (preinitialise dryrun : bool) :
  logs_in_once (upload_all E preinitialise dryrun).
Proof.
  unfold upload_all.
  apply logs_in_once_bind.
  { apply logs_in_once_silent. intros w. unfold load_uploaded_files.
    destruct (ledger_file w); cbn; (split; [reflexivity |]).
    - exists []. now rewrite app_nil_r.
    - now exists [LedgerWrite []]. }
  intros uploaded_files.
  destruct (candidates E uploaded_files) as [| f files]; [auto with logins |].
  apply logs_in_once_bind; [apply logs_in_once_upload_files | intros up].
  apply logs_in_once_if; [| auto with logins].
  apply logs_in_once_silent. intros w. split; [reflexivity |].
  eexists. split; [reflexivity |]. reflexivity.
Qed.


End Logins.

(** ** The first-run setup *)

Section FirstRun.
Variable S : setup_env.
Variable E : env.

(** X23. When the setup returns, it has written the configuration once,
    first, with a [TPV_ID] that is an entry of the TPVirtual folder made
    of exactly sixteen word characters; the only other thing it may have
    written is the [.env] file. *)
Theorem first_run_returns :
  fst (first_run S E) = Returns ->
  exists tpv_id names,
    snd (first_run S E) = ConfigWrite tpv_id :: store_credentials S E /\
    listdir S (Path.str (get_tpv_folder S)) = Some names /\
    In tpv_id names /\
    String.length tpv_id = 16%nat /\
    all_word tpv_id = true.
Proof.
  unfold first_run.
  destruct (listdir S (Path.str (get_tpv_folder S))) as [names |] eqn:Hl;
    [| discriminate].
  set (res := filter matches_user_folder names).
  assert (Hres : forall index tpv_id,
             nth_error res index = Some tpv_id ->
             In tpv_id names /\ String.length tpv_id = 16%nat /\
             all_word tpv_id = true).
  { intros index tpv_id H. apply nth_error_In in H. apply filter_In in H as [Hin Hm].
    unfold matches_user_folder in Hm. apply andb_prop in Hm as [Hlen Hw].
    apply Nat.eqb_eq in Hlen. auto. }
  destruct res as [| r [| r' res']] eqn:Hr.
  - discriminate.
  - destruct (String.eqb _ "no"); [discriminate |].
    cbn [nth_error]. intros _. exists r, names.
    split; [reflexivity |]. split; [reflexivity |]. now apply (Hres O).
  - match goal with |- context [nth_error _ ?i] =>
      destruct (nth_error (r :: r' :: res') i) as [tpv_id |] eqn:Hn end;
      [| discriminate].
    intros _. exists tpv_id, names.
    split; [reflexivity |]. split; [reflexivity |]. eapply Hres; eauto.
Qed.

(** X24. The setup stops without writing anything when the TPVirtual
    folder does not exist ([os.listdir] raises) and when it holds no
    entry of sixteen word characters (exit status 1). *)
Theorem first_run_no_user_folder :
  (listdir S (Path.str (get_tpv_folder S)) = None ->
   first_run S E = (RaisesFileNotFoundError, [])) /\
  (forall names,
     listdir S (Path.str (get_tpv_folder S)) = Some names ->
     forallb (fun f => negb (matches_user_folder f)) names = true ->
     first_run S E = (SystemExit 1, [])).
Proof.
  unfold first_run. split.
  - now intros ->.
  - intros names -> Hn.
    assert (Hf : filter matches_user_folder names = []).
    { apply filter_none. intros f Hin. rewrite forallb_forall in Hn.
      now apply negb_true_iff, Hn. }
    now rewrite Hf.
Qed.

(** X25. The setup writes the [.env] file only after asking and only
    when a credential is missing or empty in the environment: with both
    set, it never writes it. *)
Theorem first_run_keeps_credentials :
  forall email password,
    GARMIN_USERNAME E = Some email -> Str.is_empty email = false ->
    GARMIN_PASSWORD E = Some password -> Str.is_empty password = false ->
    forall content, ~ In (EnvWrite content) (snd (first_run S E)).
Proof.
  intros email password Hu Hue Hp Hpe content.
  assert (Hs : store_credentials S E = []).
  { unfold store_credentials. now rewrite Hu, Hp, Hue, Hpe. }
  unfold first_run.
  destruct (listdir S _) as [names |]; [| intros []].
  destruct (filter matches_user_folder names) as [| r [| r' res']].
  - intros [].
  - destruct (String.eqb _ "no").
    + cbn. intros [H | []]. discriminate.
    + cbn [nth_error snd]. rewrite Hs. intros [H | []]. discriminate.
  - destruct (nth_error _ _); [| intros []].
    cbn [snd]. rewrite Hs. intros [H | []]. discriminate.
Qed.

End FirstRun.

Lemma first_run_returns_witness :
  exists tpv_id names,
    snd (first_run two_users_setup current_dir_env) =
      ConfigWrite tpv_id :: store_credentials two_users_setup current_dir_env /\
    listdir two_users_setup (Path.str (get_tpv_folder two_users_setup)) = Some names /\
    In tpv_id names /\
    String.length tpv_id = 16%nat /\
    all_word tpv_id = true.
Proof.
  apply (first_run_returns two_users_setup current_dir_env). reflexivity.
Defined.

Lemma first_run_no_user_folder_witness :
  first_run no_user_setup rides_env = (SystemExit 1, []).
Proof.
  apply (proj2 (first_run_no_user_folder no_user_setup rides_env) ["Logs"]);
    reflexivity.
Defined.

Lemma first_run_keeps_credentials_witness :
  GARMIN_USERNAME rides_env = Some "rider@example.org" /\
  ~ In (EnvWrite "") (snd (first_run two_users_setup rides_env)).
Proof.
  split; [reflexivity |].
  apply (first_run_keeps_credentials two_users_setup rides_env
           "rider@example.org" "secret"); reflexivity.
Defined.

(** ** What a scan never goes through *)

Section Omission.
Variable E : env.

(** X26. Whatever the directory and the ledger, a candidate is never a
    member of the ledger and never ends with [_modified.fit], and it
    comes, through line 302, from an entry of the directory whose name
    ends with [.fit] whatever the case. *)
Theorem candidates_omit_ledger_and_rewritten :
  forall (uploaded_files : list string) (f : string),
    In f (candidates E uploaded_files) ->
    ~ In f uploaded_files /\
    Str.endswith f "_modified.fit" = false /\
    exists name,
      In name (entries E) /\
      Str.endswith (Str.lower name) ".fit" = true /\
      f = strip_dir E
            (Path.str (Path.mk (Path.root (dir E)) (Path.parts (dir E) ++ [name]))).
Proof.
  intros uploaded_files f H.
  destruct (candidates_In E uploaded_files f H) as [Hm Hu].
  split; [exact Hu |]. split; [exact Hm |].
  unfold candidates, glob_fit in H. rewrite !map_map in H.
  apply filter_In in H as [H _]. apply filter_In in H as [H _].
  apply in_map_iff in H as (name & <- & Hin).
  apply filter_In in Hin as [Hin Hfit]. eauto.
Qed.

End Omission.

Lemma candidates_omit_ledger_and_rewritten_witness :
  ~ In "ride1.fit" ["RIDE2.FIT"] /\
  Str.endswith "ride1.fit" "_modified.fit" = false /\
  exists name,
    In name (entries rides_env) /\
    Str.endswith (Str.lower name) ".fit" = true /\
    "ride1.fit" =
      strip_dir rides_env
        (Path.str (Path.mk (Path.root (dir rides_env))
                     (Path.parts (dir rides_env) ++ [name]))).
Proof.
  apply (candidates_omit_ledger_and_rewritten rides_env ["RIDE2.FIT"] "ride1.fit").
  left. reflexivity.
Defined.
